(** * 90-Second Briefings core: task queue, worker supervisor, cost ledger
      and system monitor

    A shallow embedding of
      - [core/task_queue.py]   (Task, SQLiteQueueBackend, RedisQueueBackend, TaskQueue),
      - [core/mini_worker.py]  (MiniWorker),
      - [core/cost_tracker.py] (CostTracker),
      - [core/system_monitor.py] (SystemMonitor),
    followed by the properties proved about them.

    Conventions of the embedding.
      - A Python [float] is a primitive binary64 float; arithmetic and
        comparisons are the IEEE ones the interpreter performs.
      - A [datetime] is an integer count of microseconds.  The ISO-8601 text
        that the SQLite backend stores orders the same way as that count.
      - A Python [dict] whose iteration order is observable is an association
        list in insertion order.
      - A stateful method takes the object's state and returns the new state
        next to its result; a raised exception is a value of a sum type, or
        [None] where only one exception can occur.
      - A Python [int] is an integer of [Z]; where the code hands one to a
        store of bounded integers, the bound is checked as the store does. *)

From Stdlib Require Import ZArith List String Ascii Bool Floats Lia Permutation Sorted.
Import ListNotations.

Set Warnings "-inexact-float".

Local Open Scope Z_scope.
Local Open Scope string_scope.

(** ** Python truthiness of an optional string argument ([if not worker_type]). *)

Definition truthy (s : option string) : bool :=
  match s with
  | Some s' => negb (s' =? "")
  | None => false
  end.

(** ** [core/task_queue.py]: the task record *)

Inductive TaskStatus : Set :=
| PENDING | ASSIGNED | PROCESSING | COMPLETED | FAILED | CANCELLED.

Definition TaskStatus_eqb (a b : TaskStatus) : bool :=
  match a, b with
  | PENDING, PENDING | ASSIGNED, ASSIGNED | PROCESSING, PROCESSING
  | COMPLETED, COMPLETED | FAILED, FAILED | CANCELLED, CANCELLED => true
  | _, _ => false
  end.

(** [TaskStatus.value]: the text stored in the [status] column. *)
Definition TaskStatus_value (s : TaskStatus) : string :=
  match s with
  | PENDING => "pending"
  | ASSIGNED => "assigned"
  | PROCESSING => "processing"
  | COMPLETED => "completed"
  | FAILED => "failed"
  | CANCELLED => "cancelled"
  end.

(** ** Integers as floats

    An integer as the float it converts to (rounded to nearest). *)
Definition float_of_Z (z : Z) : float :=
  SF2Prim (binary_normalize prec emax z 0 false).

Definition spec_of_Z (z : Z) : spec_float :=
  match z with
  | Z0 => S754_zero false
  | Zpos p => S754_finite false p 0
  | Zneg p => S754_finite true p 0
  end.

(** [a / b] on two integers ([b] not zero): the quotient rounded once to the
    nearest float, or [None] for the [OverflowError] raised when that float
    would be infinite.  As in the interpreter, operands below 2^53 are
    converted and divided as floats. *)
Definition int_true_div (a b : Z) : option float :=
  if (Z.abs a <? 2 ^ 53)%Z && (Z.abs b <? 2 ^ 53)%Z
  then Some (float_of_Z a / float_of_Z b)%float
  else
    match SFdiv prec emax (spec_of_Z a) (spec_of_Z b) with
    | S754_infinity _ => None
    | q => Some (SF2Prim q)
    end.

(** *** The [parameters] of a task

    [submit_task] takes the parameters as keyword arguments, so the keys are
    strings.  A value is a scalar, a list of scalars, or [VObject]: an object
    of a class of its own, for which [json.dumps] has no encoding and which
    takes part in no arithmetic.  Dictionaries and nested lists as values
    have no counterpart here. *)
Inductive Scalar : Set :=
| SNone
| SBool (b : bool)
| SInt (z : Z)
| SFloat (f : float)
| SStr (s : string).

Inductive Value : Set :=
| VScalar (x : Scalar)
| VList (items : list Scalar)
| VObject.

Definition Parameters := list (string * Value).

(** [key in parameters] and [parameters.get(key)]. *)
Fixpoint param_get (key : string) (parameters : Parameters) : option Value :=
  match parameters with
  | [] => None
  | (k, v) :: rest => if k =? key then Some v else param_get key rest
  end.

(** The exceptions of the interpreter and of [sqlite3] that the modelled
    methods can raise. *)
Inductive Error : Set :=
| TypeError
| ValueError
| OverflowError
| ZeroDivisionError
| AttributeError
| NotImplementedError
| IntegrityError.   (* sqlite3.IntegrityError: UNIQUE constraint failed: tasks.id *)

(** The limit of the interpreter (3.11) on the decimal digits of an integer
    that is converted to text: 4300. *)
Definition int_max_str_digits : Z := 4300.

(** How [json.dumps] fails on a scalar: an integer of more than 4300 digits
    raises [ValueError]. *)
Definition json_scalar_error (x : Scalar) : option Error :=
  match x with
  | SInt z => if (10 ^ int_max_str_digits <=? Z.abs z)%Z then Some ValueError else None
  | _ => None
  end.

Fixpoint first_error {A : Type} (f : A -> option Error) (l : list A) : option Error :=
  match l with
  | [] => None
  | x :: rest =>
      match f x with
      | Some e => Some e
      | None => first_error f rest
      end
  end.

Definition json_value_error (v : Value) : option Error :=
  match v with
  | VScalar x => json_scalar_error x
  | VList items => first_error json_scalar_error items
  | VObject => Some TypeError   (* Object of type ... is not JSON serializable *)
  end.

(** [json.dumps(parameters)]: the exception it raises, if any.  The entries
    are encoded in the order of the dictionary.  When it returns,
    [json.loads] gives the parameters back as they were. *)
Definition json_dumps_error (parameters : Parameters) : option Error :=
  first_error (fun kv => json_value_error (snd kv)) parameters.

(** The dataclass [Task].  [cost_estimate] is [None] where SQLite returns
    NULL for it. *)
Record Task : Set := mkTask {
  id : string;
  description : string;
  task_type : string;
  priority : Z;
  parameters : Parameters;
  worker_type : string;
  status : TaskStatus;
  created_at : Z;
  assigned_at : option Z;
  started_at : option Z;
  completed_at : option Z;
  assigned_worker : option string;
  result : option string;
  error : option string;
  retry_count : Z;
  max_retries : Z;
  timeout_seconds : Z;
  cost_estimate : option float;
  dependencies : list string
}.

Definition set_status (s : TaskStatus) (t : Task) : Task :=
  mkTask (id t) (description t) (task_type t) (priority t) (parameters t) (worker_type t) s
    (created_at t) (assigned_at t) (started_at t) (completed_at t)
    (assigned_worker t) (result t) (error t) (retry_count t) (max_retries t)
    (timeout_seconds t) (cost_estimate t) (dependencies t).

Definition set_created_at (v : Z) (t : Task) : Task :=
  mkTask (id t) (description t) (task_type t) (priority t) (parameters t) (worker_type t) (status t)
    v (assigned_at t) (started_at t) (completed_at t)
    (assigned_worker t) (result t) (error t) (retry_count t) (max_retries t)
    (timeout_seconds t) (cost_estimate t) (dependencies t).

Definition set_assigned_at (v : option Z) (t : Task) : Task :=
  mkTask (id t) (description t) (task_type t) (priority t) (parameters t) (worker_type t) (status t)
    (created_at t) v (started_at t) (completed_at t)
    (assigned_worker t) (result t) (error t) (retry_count t) (max_retries t)
    (timeout_seconds t) (cost_estimate t) (dependencies t).

Definition set_started_at (v : option Z) (t : Task) : Task :=
  mkTask (id t) (description t) (task_type t) (priority t) (parameters t) (worker_type t) (status t)
    (created_at t) (assigned_at t) v (completed_at t)
    (assigned_worker t) (result t) (error t) (retry_count t) (max_retries t)
    (timeout_seconds t) (cost_estimate t) (dependencies t).

Definition set_completed_at (v : option Z) (t : Task) : Task :=
  mkTask (id t) (description t) (task_type t) (priority t) (parameters t) (worker_type t) (status t)
    (created_at t) (assigned_at t) (started_at t) v
    (assigned_worker t) (result t) (error t) (retry_count t) (max_retries t)
    (timeout_seconds t) (cost_estimate t) (dependencies t).

Definition set_assigned_worker (v : option string) (t : Task) : Task :=
  mkTask (id t) (description t) (task_type t) (priority t) (parameters t) (worker_type t) (status t)
    (created_at t) (assigned_at t) (started_at t) (completed_at t)
    v (result t) (error t) (retry_count t) (max_retries t)
    (timeout_seconds t) (cost_estimate t) (dependencies t).

Definition set_result (v : option string) (t : Task) : Task :=
  mkTask (id t) (description t) (task_type t) (priority t) (parameters t) (worker_type t) (status t)
    (created_at t) (assigned_at t) (started_at t) (completed_at t)
    (assigned_worker t) v (error t) (retry_count t) (max_retries t)
    (timeout_seconds t) (cost_estimate t) (dependencies t).

Definition set_error (v : option string) (t : Task) : Task :=
  mkTask (id t) (description t) (task_type t) (priority t) (parameters t) (worker_type t) (status t)
    (created_at t) (assigned_at t) (started_at t) (completed_at t)
    (assigned_worker t) (result t) v (retry_count t) (max_retries t)
    (timeout_seconds t) (cost_estimate t) (dependencies t).

Definition set_retry_count (v : Z) (t : Task) : Task :=
  mkTask (id t) (description t) (task_type t) (priority t) (parameters t) (worker_type t) (status t)
    (created_at t) (assigned_at t) (started_at t) (completed_at t)
    (assigned_worker t) (result t) (error t) v (max_retries t)
    (timeout_seconds t) (cost_estimate t) (dependencies t).

(** *** The [updates] dictionary of [update_task]

    The SQLite backend writes a key that is one of [status],
    [assigned_worker], [result], [error], [retry_count], pastes every other
    key that ends in [_at] into the text of the UPDATE statement, and skips
    the rest. *)
Definition named_columns : list string :=
  ["status"; "assigned_worker"; "result"; "error"; "retry_count"].

(** [key.endswith('_at')]. *)
Definition ends_with_at (key : string) : bool :=
  (3 <=? String.length key)%nat
  && (substring (String.length key - 3) 3 key =? "_at").

(** A key that is skipped. *)
Definition skipped_key (key : string) : bool :=
  negb (existsb (String.eqb key) named_columns) && negb (ends_with_at key).

(** One entry of [updates]: a named column, one of the four timestamp
    columns of the table, or a skipped key.  A key that ends in [_at] without
    naming a column reaches the statement as it is, where it fails or is read
    as SQL; such an entry has no counterpart here. *)
Inductive Update : Set :=
| U_status (v : TaskStatus)
| U_assigned_worker (v : option string)
| U_result (v : option string)
| U_error (v : option string)
| U_retry_count (v : Z)
| U_created_at (v : Z)
| U_assigned_at (v : option Z)
| U_started_at (v : option Z)
| U_completed_at (v : option Z)
| U_skipped (key : string) (skipped : skipped_key key = true).

Definition written (u : Update) : bool :=
  match u with
  | U_skipped _ _ => false
  | _ => true
  end.

Definition apply_update (t : Task) (u : Update) : Task :=
  match u with
  | U_status v => set_status v t
  | U_assigned_worker v => set_assigned_worker v t
  | U_result v => set_result v t
  | U_error v => set_error v t
  | U_retry_count v => set_retry_count v t
  | U_created_at v => set_created_at v t
  | U_assigned_at v => set_assigned_at v t
  | U_started_at v => set_started_at v t
  | U_completed_at v => set_completed_at v t
  | U_skipped _ _ => t
  end.

(** ** [SQLiteQueueBackend]

    The table [tasks] is the list of its rows in rowid (insertion) order; the
    column [id] is the primary key.  Every writing method runs under the
    backend lock inside one transaction, so a call is one state transition.
    Failures of the storage itself are outside the model. *)

Module SQLiteQueueBackend.

Definition table := list Task.

(** [SELECT ... WHERE id = ?] followed by [fetchone]. *)
Definition select_by_id (task_id : string) (db : table) : option Task :=
  find (fun r => id r =? task_id) db.

(** [UPDATE tasks SET ... WHERE id = ?]. *)
Definition update_where_id (task_id : string) (f : Task -> Task) (db : table) : table :=
  map (fun r => if id r =? task_id then f r else r) db.

(** An integer that fits an SQLite INTEGER (64 bits, signed); [sqlite3]
    raises [OverflowError] when it is given any other. *)
Definition fits_integer (z : Z) : bool :=
  (- 2 ^ 63 <=? z)%Z && (z <? 2 ^ 63)%Z.

(** The value a REAL column returns for a bound float: a NaN is stored as
    NULL. *)
Definition stored_real (x : option float) : option float :=
  match x with
  | Some f => if PrimFloat.is_nan f then None else Some f
  | None => None
  end.

(** [add_task]: the INSERT lists the columns id, description, task_type,
    priority, parameters, worker_type, status, created_at, max_retries,
    timeout_seconds, cost_estimate and dependencies; the remaining columns take
    their defaults (NULL, and 0 for [retry_count]). *)
Definition inserted_row (task : Task) : Task :=
  mkTask (id task) (description task) (task_type task) (priority task)
    (parameters task)
    (worker_type task) (status task) (created_at task) None None None
    None None None 0 (max_retries task) (timeout_seconds task)
    (stored_real (cost_estimate task))
    (dependencies task).

(** The tuple of values is built first ([json.dumps(task.parameters)] may
    raise), then the values are bound (an integer outside 64 bits raises
    [OverflowError]), then the INSERT runs (a held id raises
    [IntegrityError]). *)
Definition add_task (task : Task) (db : table) : Error + (string * table) :=
  match json_dumps_error (parameters task) with
  | Some e => inl e
  | None =>
      if negb (fits_integer (priority task) && fits_integer (max_retries task)
               && fits_integer (timeout_seconds task))
      then inl OverflowError
      else if existsb (fun r => id r =? id task) db
      then inl IntegrityError
      else inr (id task, (db ++ [inserted_row task])%list)
  end.

(** The WHERE clause of [get_next_task]: [status = 'pending'], and
    [worker_type = ?] when the argument is truthy. *)
Definition worker_clause (worker : option string) (r : Task) : bool :=
  match worker with
  | Some w => if truthy worker then worker_type r =? w else true
  | None => true
  end.

Definition candidate (worker : option string) (r : Task) : bool :=
  TaskStatus_eqb (status r) PENDING && worker_clause worker r.

(** [a] sorts strictly before [b] under
    [ORDER BY priority DESC, created_at ASC]. *)
Definition sorts_before (a b : Task) : bool :=
  (priority b <? priority a)%Z ||
  ((priority a =? priority b)%Z && (created_at a <? created_at b)%Z).

(** [ORDER BY priority DESC, created_at ASC LIMIT 1] over the selected rows.
    Rows equal on both keys are returned lowest rowid first. *)
Fixpoint order_limit_1 (rows : list Task) : option Task :=
  match rows with
  | [] => None
  | r :: rest =>
      match order_limit_1 rest with
      | Some m => if sorts_before m r then Some m else Some r
      | None => Some r
      end
  end.

(** The dependency loop: every listed id must name a row whose status is
    ['completed']. *)
Definition dependencies_met (db : table) (deps : list string) : bool :=
  forallb
    (fun dep_id =>
       match select_by_id dep_id db with
       | Some dep_row => TaskStatus_eqb (status dep_row) COMPLETED
       | None => false
       end)
    deps.

(** [get_next_task].  The returned [Task] is built from the row as it was
    fetched, before the UPDATE. *)
Definition get_next_task (worker : option string) (now : Z) (db : table)
  : option Task * table :=
  match order_limit_1 (filter (candidate worker) db) with
  | None => (None, db)
  | Some row =>
      if dependencies_met db (dependencies row)
      then (Some row,
            update_where_id (id row)
              (fun r => set_assigned_at (Some now) (set_status ASSIGNED r)) db)
      else (None, db)   (* return None  # Dependencies not met *)
  end.

(** [update_task]: returns [False] when no key of [updates] is a written
    column, otherwise [cursor.rowcount > 0]. *)
Definition update_task (task_id : string) (updates : list Update) (db : table)
  : bool * table :=
  match filter written updates with
  | [] => (false, db)
  | sets =>
      (existsb (fun r => id r =? task_id) db,
       update_where_id task_id (fun r => fold_left apply_update sets r) db)
  end.

Definition get_task (task_id : string) (db : table) : option Task :=
  select_by_id task_id db.

(** Insertion of a row into later rows ordered by [created_at DESC]; rows
    equal on the key keep their rowid order. *)
Fixpoint insert_created_desc (r : Task) (rows : list Task) : list Task :=
  match rows with
  | [] => [r]
  | x :: rest =>
      if (created_at x <=? created_at r)%Z
      then r :: x :: rest
      else x :: insert_created_desc r rest
  end.

Definition order_by_created_desc (rows : list Task) : list Task :=
  fold_right insert_created_desc [] rows.

(** [list_tasks]: optional filters, then [ORDER BY created_at DESC]. *)
Definition list_tasks (st : option TaskStatus) (worker : option string) (db : table)
  : list Task :=
  order_by_created_desc
    (filter
       (fun r =>
          (match st with Some s => TaskStatus_eqb (status r) s | None => true end) &&
          worker_clause worker r)
       db).

End SQLiteQueueBackend.

(** ** [RedisQueueBackend]

    The Redis server holds hashes and sorted sets under string keys.  Each
    client call ([hset], [zadd], [zrevrange], [zrem], [hgetall]) is one command,
    executed by the server on its own; a backend method issues several.

    The hash [task:<id>] holds the fields of one task as texts.  It is kept
    here as the record of the values that were written; what the decoder
    makes of an empty field is given with [RedisTaskQueue.get_task_status].
    A score is kept as the integer it was given ([priority], or the clock
    reading for the processing set), which is the binary64 number the server
    stores for every integer up to 2^53 in magnitude. *)

Module RedisQueueBackend.

Definition zset := list (string * Z).

Record store : Set := mkStore {
  hashes : list (string * Task);
  zsets : list (string * zset)
}.

Definition task_key (task_id : string) : string := "task:" ++ task_id.
Definition pending_key (worker : string) : string := "queue:" ++ worker ++ ":pending".
Definition processing_key (worker : string) : string := "queue:" ++ worker ++ ":processing".

Fixpoint assoc_get {A : Type} (k : string) (l : list (string * A)) : option A :=
  match l with
  | [] => None
  | (k', v) :: rest => if k' =? k then Some v else assoc_get k rest
  end.

Fixpoint assoc_set {A : Type} (k : string) (v : A) (l : list (string * A))
  : list (string * A) :=
  match l with
  | [] => [(k, v)]
  | (k', v') :: rest =>
      if k' =? k then (k, v) :: rest else (k', v') :: assoc_set k v rest
  end.

Definition zset_at (key : string) (s : store) : zset :=
  match assoc_get key (zsets s) with
  | Some z => z
  | None => []
  end.

(** HSET key field value ... (all the fields of a task at once). *)
Definition hset (key : string) (task : Task) (s : store) : store :=
  mkStore (assoc_set key task (hashes s)) (zsets s).

(** HGETALL key. *)
Definition hgetall (key : string) (s : store) : option Task :=
  assoc_get key (hashes s).

(** ZADD key score member: adds the member or replaces its score. *)
Definition zadd (key : string) (member : string) (score : Z) (s : store) : store :=
  mkStore (hashes s) (assoc_set key (assoc_set member score (zset_at key s)) (zsets s)).

(** ZREM key member. *)
Definition zrem (key : string) (member : string) (s : store) : store :=
  mkStore (hashes s)
    (assoc_set key
       (filter (fun e => negb (fst e =? member)) (zset_at key s))
       (zsets s)).

(** The order of a sorted set read from its high end: higher score first, and
    among equal scores the lexicographically greater member first. *)
Definition ranks_above (a b : string * Z) : bool :=
  (snd b <? snd a)%Z || ((snd a =? snd b)%Z && String.ltb (fst b) (fst a)).

Fixpoint highest (z : zset) : option (string * Z) :=
  match z with
  | [] => None
  | e :: rest =>
      match highest rest with
      | Some m => if ranks_above e m then Some e else Some m
      | None => Some e
      end
  end.

(** ZREVRANGE key 0 0: the list holding the first member from the high end, or
    the empty list. *)
Definition zrevrange_0_0 (key : string) (s : store) : list string :=
  match highest (zset_at key s) with
  | Some e => [fst e]
  | None => []
  end.

(** [add_task]: HSET of the task's fields, then ZADD into the pending set of
    its worker type with the priority as score. *)
Definition add_task (task : Task) (s : store) : string * store :=
  (id task,
   zadd (pending_key (worker_type task)) (id task) (priority task)
     (hset (task_key (id task)) task s)).

(** [get_next_task], as the method body reads. *)
Definition get_next_task (worker : option string) (now : Z) (s : store)
  : option Task * store :=
  match worker with
  | None => (None, s)
  | Some w =>
      if negb (truthy worker) then (None, s)
      else
        match zrevrange_0_0 (pending_key w) s with
        | [] => (None, s)
        | task_id :: _ =>
            let s1 := zrem (pending_key w) task_id s in
            let s2 := zadd (processing_key w) task_id now s1 in
            (hgetall (task_key task_id) s2, s2)
        end
  end.

(** The same method, one Redis command at a time: where a caller stands
    between two commands. *)
Inductive position : Set :=
| Called (worker : option string)
| AfterZrevrange (w : string) (task_id : string)
| AfterZrem (w : string) (task_id : string)
| AfterZadd (w : string) (task_id : string)
| Returned (r : option Task).

Definition command (now : Z) (c : position) (s : store) : position * store :=
  match c with
  | Called worker =>
      match worker with
      | None => (Returned None, s)
      | Some w =>
          if negb (truthy worker) then (Returned None, s)
          else
            match zrevrange_0_0 (pending_key w) s with
            | [] => (Returned None, s)
            | task_id :: _ => (AfterZrevrange w task_id, s)
            end
      end
  | AfterZrevrange w task_id => (AfterZrem w task_id, zrem (pending_key w) task_id s)
  | AfterZrem w task_id => (AfterZadd w task_id, zadd (processing_key w) task_id now s)
  | AfterZadd w task_id => (Returned (hgetall (task_key task_id) s), s)
  | Returned r => (Returned r, s)
  end.

(** Two clients of one server.  A schedule names, command by command, which
    client's next command the server executes ([false]: the first client,
    [true]: the second). *)
Fixpoint interleave (now : Z) (schedule : list bool)
  (a b : position) (s : store) : position * position * store :=
  match schedule with
  | [] => (a, b, s)
  | false :: rest =>
      let '(a', s') := command now a s in interleave now rest a' b s'
  | true :: rest =>
      let '(b', s') := command now b s in interleave now rest a b' s'
  end.

(** [list_tasks].  [RedisQueueBackend] does not define it, so a call runs
    [QueueBackend.list_tasks], whose body is [raise NotImplementedError]. *)
Definition list_tasks (st : option TaskStatus) (worker : option string) (s : store)
  : Error + list Task :=
  inl NotImplementedError.

End RedisQueueBackend.

(** ** [TaskQueue]

    The orchestrator over its default backend ([backend_type = "sqlite"]). *)

Module TaskQueue.

Import SQLiteQueueBackend.

(** The literal [worker_mapping] of [_determine_worker_type]. *)
Definition worker_mapping : list (string * string) :=
  [ ("scrape_source", "scraper");
    ("scrape_social", "scraper");
    ("scrape_rss", "scraper");
    ("generate_briefing", "summarizer");
    ("analyze_sentiment", "summarizer");
    ("extract_topics", "summarizer");
    ("generate_audio", "audio");
    ("create_podcast_episode", "audio");
    ("generate_rss_feed", "audio");
    ("deliver_briefing", "dashboard");
    ("send_email_digest", "dashboard");
    ("export_to_notion", "dashboard");
    ("start_dashboard", "dashboard") ].

Fixpoint dict_get (k : string) (d : list (string * string)) : option string :=
  match d with
  | [] => None
  | (k', v) :: rest => if k' =? k then Some v else dict_get k rest
  end.

(** [worker_mapping.get(task_type, 'general')]. *)
Definition _determine_worker_type (task_type : string) : string :=
  match dict_get task_type worker_mapping with
  | Some w => w
  | None => "general"
  end.

(** The literal [base_costs] of [_estimate_task_cost]. *)
Definition base_costs : list (string * float) :=
  [ ("scrape_source", 0.01%float);
    ("generate_briefing", 0.05%float);
    ("generate_audio", 0.10%float);
    ("deliver_briefing", 0.02%float) ].

Fixpoint cost_get (k : string) (d : list (string * float)) : option float :=
  match d with
  | [] => None
  | (k', v) :: rest => if k' =? k then Some v else cost_get k rest
  end.

(** [parameters.get('max_posts', 10) / 10] for a given [max_posts]: an integer
    or a boolean is divided as an integer, a float as a float, and any other
    value raises [TypeError]. *)
Definition max_posts_over_10 (v : Value) : Error + float :=
  match v with
  | VScalar (SInt z) =>
      match int_true_div z 10 with
      | Some f => inr f
      | None => inl OverflowError
      end
  | VScalar (SBool b) =>
      match int_true_div (if b then 1 else 0) 10 with
      | Some f => inr f
      | None => inl OverflowError
      end
  | VScalar (SFloat f) => inr (f / 10)%float
  | _ => inl TypeError
  end.

Section Estimate.

(** [round(x, 3)] on floats. *)
Variable round_3 : float -> float.

(** [_estimate_task_cost]. *)
Definition _estimate_task_cost (task_type : string) (parameters : Parameters)
  : Error + float :=
  let base_cost :=
    match cost_get task_type base_costs with
    | Some c => c
    | None => 0.01%float
    end in
  let base_cost :=
    match param_get "source_url" parameters with
    | Some _ => (base_cost * 1.2)%float
    | None => base_cost
    end in
  match param_get "max_posts" parameters with
  | Some v =>
      match max_posts_over_10 v with
      | inr factor => inr (round_3 (base_cost * factor)%float)
      | inl e => inl e
      end
  | None => inr (round_3 base_cost)
  end.

(** [submit_task].  [task_id] is the identifier drawn from [uuid.uuid4()] and
    [now] the clock reading taken by [Task.__post_init__]; the defaults of the
    dataclass give [status = PENDING], [retry_count = 0], [max_retries = 3].
    The cost is estimated before the task is built, so an exception of
    [_estimate_task_cost] leaves the queue as it was. *)
Definition submit_task (task_id : string) (now : Z)
  (description task_type : string) (worker : option string)
  (priority timeout : Z) (deps : option (list string))
  (parameters : Parameters) (db : table)
  : Error + (string * table) :=
  let worker_type :=
    match worker with
    | Some w => if truthy worker then w else _determine_worker_type task_type
    | None => _determine_worker_type task_type
    end in
  match _estimate_task_cost task_type parameters with
  | inl e => inl e
  | inr cost_estimate =>
      let task :=
        mkTask task_id description task_type priority parameters worker_type
          PENDING now None None None None None None 0 3 timeout
          (Some cost_estimate)
          (match deps with Some l => l | None => [] end) in
      match add_task task db with
      | inl e => inl e
      | inr (_, db') => inr (task_id, db')
      end
  end.

End Estimate.

Definition get_next_task (worker : option string) (now : Z) (db : table)
  : option Task * table :=
  SQLiteQueueBackend.get_next_task worker now db.

Definition update_task_status (task_id : string) (updates : list Update) (db : table)
  : bool * table :=
  SQLiteQueueBackend.update_task task_id updates db.

(** [_calculate_progress]. *)
Definition _calculate_progress (task : Task) : float :=
  if TaskStatus_eqb (status task) PENDING then 0.0%float
  else if TaskStatus_eqb (status task) ASSIGNED then 0.1%float
  else if TaskStatus_eqb (status task) PROCESSING then 0.5%float
  else if TaskStatus_eqb (status task) COMPLETED || TaskStatus_eqb (status task) FAILED
       then 1.0%float
  else 0.0%float.

(** The dictionary returned by [get_task_status]. *)
Record StatusInfo : Set := mkStatusInfo {
  info_id : string;
  info_status : string;
  info_progress : float;
  info_created_at : Z;
  info_completed_at : option Z;
  info_result : option string;
  info_error : option string
}.

(** [get_task_status].  On this backend an empty [completed_at] is read back
    as [None], so [isoformat] is called on a [datetime] only. *)
Definition get_task_status (task_id : string) (db : table) : option StatusInfo :=
  match get_task task_id db with
  | Some task =>
      Some (mkStatusInfo (id task) (TaskStatus_value (status task))
              (_calculate_progress task) (created_at task) (completed_at task)
              (result task) (error task))
  | None => None
  end.

(** *** One pass of the body of [_monitor_tasks] *)

(** [elapsed > task.timeout_seconds], with [elapsed] the seconds between
    [started_at] and [now] as a float.  Both sides are compared here in
    microseconds, which decides the same for timeouts below 2^33 seconds. *)
Definition timed_out (now : Z) (task : Task) : bool :=
  match started_at task with
  | Some started => (timeout_seconds task * 1000000 <? now - started)%Z
  | None => false
  end.

(** The [updates] written for a timed-out task.  The error text, which renders
    the elapsed seconds, is kept as a fixed message. *)
Definition timeout_updates (now : Z) : list Update :=
  [ U_status FAILED; U_error (Some "Task timed out"); U_completed_at (Some now) ].

(** The [updates] written for a failed task that may be retried. *)
Definition retry_updates (task : Task) : list Update :=
  [ U_status PENDING;
    U_retry_count (retry_count task + 1);
    U_assigned_at None;
    U_started_at None;
    U_assigned_worker None;
    U_error None ].

Definition sweep_timeouts (now : Z) (db : table) : table :=
  fold_left
    (fun db' task =>
       if timed_out now task
       then snd (update_task_status (id task) (timeout_updates now) db')
       else db')
    (list_tasks (Some PROCESSING) None db) db.

Definition sweep_retries (db : table) : table :=
  fold_left
    (fun db' task =>
       if (retry_count task <? max_retries task)%Z
       then snd (update_task_status (id task) (retry_updates task) db')
       else db')
    (list_tasks (Some FAILED) None db) db.

Definition monitor_sweep (now : Z) (db : table) : table :=
  sweep_retries (sweep_timeouts now db).

End TaskQueue.

(** ** [TaskQueue] over the Redis backend ([backend_type = "redis"]) *)

Module RedisTaskQueue.

Import RedisQueueBackend.

Definition list_tasks (st : option TaskStatus) (worker : option string) (s : store)
  : Error + list Task :=
  RedisQueueBackend.list_tasks st worker s.

Section Monitor.

(** What the body of [_monitor_tasks] does after its first statement, given
    the PROCESSING tasks that statement listed. *)
Variable rest_of_pass : list Task -> store -> store.

(** One pass of the body of [_monitor_tasks].  The first statement of the
    [try] awaits [list_tasks(TaskStatus.PROCESSING)]; an exception raised
    there is caught by the [except] of the loop, which logs it and sleeps. *)
Definition monitor_pass (s : store) : option Error * store :=
  match list_tasks (Some PROCESSING) None s with
  | inl e => (Some e, s)
  | inr processing_tasks => (None, rest_of_pass processing_tasks s)
  end.

(** [_monitor_tasks] over [n] passes: the exceptions logged, oldest first, and
    the store. *)
Fixpoint _monitor_tasks (n : nat) (s : store) : list Error * store :=
  match n with
  | O => ([], s)
  | S n' =>
      let '(raised, s1) := monitor_pass s in
      let '(logged, s2) := _monitor_tasks n' s1 in
      (match raised with Some e => e :: logged | None => logged end, s2)
  end.

End Monitor.

(** *** [get_task_status] over this backend

    [RedisQueueBackend.get_task] turns the texts of a hash back into values.
    An empty field was written as [str(None)], and the decoder leaves that
    text as it is: an empty timestamp comes back as the text ['None'], an
    empty [result] or [error] likewise. *)
Inductive DecodedTime : Set :=
| Datetime (t : Z)
| NoneText.

Definition decode_time (stored : option Z) : DecodedTime :=
  match stored with
  | Some t => Datetime t
  | None => NoneText
  end.

Definition decode_text (stored : option string) : string :=
  match stored with
  | Some text => text
  | None => "None"
  end.

(** The dictionary returned by [get_task_status]. *)
Record StatusInfo : Set := mkStatusInfo {
  info_id : string;
  info_status : string;
  info_progress : float;
  info_created_at : Z;
  info_completed_at : Z;
  info_result : string;
  info_error : string
}.

(** [get_task_status].  The text ['None'] is truthy, so
    [task.completed_at.isoformat()] is called on it and raises
    [AttributeError]. *)
Definition get_task_status (task_id : string) (s : store)
  : Error + option StatusInfo :=
  match hgetall (task_key task_id) s with
  | Some task =>
      match decode_time (completed_at task) with
      | Datetime completed =>
          inr (Some (mkStatusInfo (id task) (TaskStatus_value (status task))
                       (TaskQueue._calculate_progress task) (created_at task)
                       completed (decode_text (result task))
                       (decode_text (error task))))
      | NoneText => inl AttributeError
      end
  | None => inr None
  end.

End RedisTaskQueue.

(** ** [core/cost_tracker.py]: [CostTracker] *)

Module CostTracker.

Local Open Scope float_scope.

Record CostEvent : Set := mkCostEvent {
  timestamp : Z;
  service : string;
  operation : string;
  units : Z;
  cost_gbp : float;
  worker_id : string;
  project_id : option string
}.

Inductive AlertSeverity : Set := INFO | WARNING | CRITICAL | EMERGENCY.

(** The dataclass [CostAlert], without its rendered [message]. *)
Record CostAlert : Set := mkCostAlert {
  severity : AlertSeverity;
  current_cost : float;
  threshold : float;
  alert_service : string;
  alert_worker_id : string;
  alert_timestamp : Z;
  action_taken : option string
}.

(** A [Dict[str, float]] in insertion order. *)
Definition costs := list (string * float).

Fixpoint get (k : string) (d : costs) : option float :=
  match d with
  | [] => None
  | (k', v) :: rest => if (k' =? k)%string then Some v else get k rest
  end.

(** [d.get(k, 0)]. *)
Definition get_or_0 (k : string) (d : costs) : float :=
  match get k d with
  | Some v => v
  | None => 0
  end.

(** [d[k] = v]: an existing key keeps its place, a new key goes last. *)
Fixpoint set (k : string) (v : float) (d : costs) : costs :=
  match d with
  | [] => [(k, v)]
  | (k', v') :: rest =>
      if (k' =? k)%string then (k, v) :: rest else (k', v') :: set k v rest
  end.

(** [if k not in d: d[k] = 0] followed by [d[k] += c]. *)
Definition add_cost (k : string) (c : float) (d : costs) : costs :=
  set k (get_or_0 k d + c) d.

(** [sum(d.values())]: the start value 0 plus the values, left to right.
    (From CPython 3.12 on, [sum] carries a compensation term over floats; the
    result is the same for up to two values and may differ in the last bit
    for more.) *)
Definition sum_values (d : costs) : float :=
  fold_left (fun acc kv => acc + snd kv) d 0.

(** The tracker.  [fs] lists, oldest first, the files the tracker has written
    or appended to. *)
Record t : Set := mkTracker {
  daily_limit_gbp : float;
  daily_costs : costs;
  worker_costs : costs;
  cost_events : list CostEvent;
  alerts : list CostAlert;
  monitoring_active : bool;
  emergency_shutdown : bool;
  fs : list string
}.

(** [CostTracker(daily_limit_gbp)] with no stored costs for the day. *)
Definition init (daily_limit : float) : t :=
  mkTracker daily_limit [] [] [] [] false false [].

Definition wrote (file : string) (tr : t) : t :=
  mkTracker (daily_limit_gbp tr) (daily_costs tr) (worker_costs tr)
    (cost_events tr) (alerts tr) (monitoring_active tr) (emergency_shutdown tr)
    (fs tr ++ [file]).

(** [_emergency_shutdown]. *)
Definition _emergency_shutdown (tr : t) : t :=
  if emergency_shutdown tr then tr   (* Already in shutdown *)
  else
    wrote "EMERGENCY_SHUTDOWN"
      (mkTracker (daily_limit_gbp tr) (daily_costs tr) (worker_costs tr)
         (cost_events tr) (alerts tr) (monitoring_active tr) true (fs tr)).

Definition _pause_non_essential_workers (tr : t) : t := wrote "PAUSE_NON_ESSENTIAL" tr.

Definition _notify_project_manager (tr : t) : t := wrote "COST_WARNING" tr.

Definition _save_alert (tr : t) : t := wrote "data/costs/alerts.jsonl" tr.

Definition _save_daily_costs (tr : t) : t := wrote "data/costs/costs_today.json" tr.

(** [action_taken] as [_handle_cost_alert] leaves it on the alert object. *)
Definition action_for (s : AlertSeverity) : option string :=
  match s with
  | EMERGENCY => Some "emergency_shutdown"%string
  | CRITICAL => Some "pause_non_essential"%string
  | WARNING => Some "notification_sent"%string
  | INFO => None
  end.

(** [_handle_cost_alert].  The alert object appended to [self.alerts] is the
    one whose [action_taken] is assigned afterwards. *)
Definition _handle_cost_alert (alert : CostAlert) (tr : t) : t :=
  let recorded :=
    mkCostAlert (severity alert) (current_cost alert) (threshold alert)
      (alert_service alert) (alert_worker_id alert) (alert_timestamp alert)
      (action_for (severity alert)) in
  let tr1 :=
    mkTracker (daily_limit_gbp tr) (daily_costs tr) (worker_costs tr)
      (cost_events tr) (alerts tr ++ [recorded]) (monitoring_active tr)
      (emergency_shutdown tr) (fs tr) in
  let tr2 :=
    match severity alert with
    | EMERGENCY => _emergency_shutdown tr1
    | CRITICAL => _pause_non_essential_workers tr1
    | WARNING => _notify_project_manager tr1
    | INFO => tr1
    end in
  _save_alert tr2.

(** [worker_limit = 5.0] in [_check_cost_guardrails]. *)
Definition worker_limit : float := 5.0.

(** The severity chosen by the worker-specific check, if it raises an alert. *)
Definition worker_severity (worker_cost : float) : option AlertSeverity :=
  if worker_limit * 0.8 <? worker_cost
  then Some (if worker_cost <? worker_limit then WARNING else CRITICAL)
  else None.

(** The severity chosen by the daily limit check, if it raises an alert. *)
Definition daily_severity (daily_limit total_daily_cost : float)
  : option AlertSeverity :=
  if daily_limit * 0.7 <? total_daily_cost
  then
    let severity0 := WARNING in
    let severity1 :=
      if daily_limit * 0.9 <? total_daily_cost then CRITICAL else severity0 in
    let severity2 :=
      if daily_limit <? total_daily_cost then EMERGENCY else severity1 in
    Some severity2
  else None.

(** [_check_cost_guardrails]. *)
Definition _check_cost_guardrails (now : Z) (event : CostEvent) (tr : t) : t :=
  let total_daily_cost := sum_values (daily_costs tr) in
  let worker_cost := get_or_0 (worker_id event) (worker_costs tr) in
  let tr1 :=
    match worker_severity worker_cost with
    | Some sev =>
        _handle_cost_alert
          (mkCostAlert sev worker_cost worker_limit (service event)
             (worker_id event) now None) tr
    | None => tr
    end in
  match daily_severity (daily_limit_gbp tr1) total_daily_cost with
  | Some sev =>
      _handle_cost_alert
        (mkCostAlert sev total_daily_cost (daily_limit_gbp tr1) "system" "all"
           now None) tr1
  | None => tr1
  end.

(** [_record_cost_event]. *)
Definition _record_cost_event (now : Z) (event : CostEvent) (tr : t) : t :=
  let tr1 :=
    mkTracker (daily_limit_gbp tr)
      (add_cost (service event) (cost_gbp event) (daily_costs tr))
      (add_cost (worker_id event) (cost_gbp event) (worker_costs tr))
      (cost_events tr ++ [event]) (alerts tr) (monitoring_active tr)
      (emergency_shutdown tr) (fs tr) in
  _save_daily_costs (_check_cost_guardrails now event tr1).

(** [track_custom_cost]: builds the event and records it. *)
Definition track_custom_cost (now : Z) (service operation : string)
  (cost : float) (worker : string) (units : Z) (tr : t) : float * t :=
  (cost,
   _record_cost_event now
     (mkCostEvent now service operation units cost worker None) tr).

(** [is_budget_available]. *)
Definition is_budget_available (estimated_cost : float) (tr : t) : bool :=
  sum_values (daily_costs tr) + estimated_cost <=? daily_limit_gbp tr.

(** [max(0, x)]: the first argument is kept unless the second is greater. *)
Definition max_0 (x : float) : float := if 0 <? x then x else 0.

(** [get_remaining_budget]. *)
Definition get_remaining_budget (tr : t) : float :=
  let current_total := sum_values (daily_costs tr) in
  max_0 (daily_limit_gbp tr - current_total).

(** The entries of [get_daily_summary] that other components read. *)
Record Summary : Set := mkSummary {
  total_cost_gbp : float;
  utilization_percent : float;
  costs_by_worker : costs;
  summary_emergency_shutdown : bool;
  alerts_count : nat
}.

(** [get_daily_summary].  The division [total_cost / self.daily_limit_gbp]
    raises [ZeroDivisionError] when the limit is zero: [None]. *)
Definition get_daily_summary (tr : t) : option Summary :=
  let total_cost := sum_values (daily_costs tr) in
  if daily_limit_gbp tr =? 0 then None
  else
    Some (mkSummary total_cost (total_cost / daily_limit_gbp tr * 100)
            (worker_costs tr) (emergency_shutdown tr) (List.length (alerts tr))).

(** [stop_monitoring]. *)
Definition stop_monitoring (tr : t) : t :=
  _save_daily_costs
    (mkTracker (daily_limit_gbp tr) (daily_costs tr) (worker_costs tr)
       (cost_events tr) (alerts tr) false (emergency_shutdown tr) (fs tr)).

(** Recording the same event [n] times in a row. *)
Fixpoint record_n (n : nat) (now : Z) (event : CostEvent) (tr : t) : t :=
  match n with
  | O => tr
  | S n' => record_n n' now event (_record_cost_event now event tr)
  end.

End CostTracker.

(** ** [core/mini_worker.py]: [MiniWorker] *)

Module MiniWorker.

Import SQLiteQueueBackend.

(** The attributes of a worker that the poll loop and the monitor read.
    [worker_type] is [WorkerType.value]. *)
Record t : Set := mkWorker {
  worker_id : string;
  worker_type : string;
  status : string;
  last_activity : Z;
  tasks_completed : Z;
  current_task : option string;
  error_count : Z;
  max_daily_cost : float
}.

(** [MiniWorker(worker_id, worker_type)] as [__init__] leaves it. *)
Definition init (worker_id worker_type : string) (now : Z) : t :=
  mkWorker worker_id worker_type "initializing" now 0 None 0 5.0%float.

Definition set_worker_status (s : string) (w : t) : t :=
  mkWorker (worker_id w) (worker_type w) s (last_activity w)
    (tasks_completed w) (current_task w) (error_count w) (max_daily_cost w).

(** [stop], [pause], [resume]. *)
Definition stop (w : t) : t := set_worker_status "stopped" w.

Definition pause (w : t) : t := set_worker_status "paused" w.

Definition resume (w : t) : t :=
  if status w =? "paused" then set_worker_status "active" w else w.

(** How a call of the abstract [execute_task] ends: it returns, or it raises
    an exception [e], kept as [str(e)]. *)
Inductive Outcome : Set :=
| Normal
| Raised (e : string).

(** An implementation of [execute_task(task_id)]: it may update the queue. *)
Definition Executor := string -> table -> Outcome * table.

(** The [updates] of the two [update_task_status] calls of [_process_task]. *)
Definition processing_updates (now : Z) (w : t) : list Update :=
  [ U_status PROCESSING; U_started_at (Some now); U_assigned_worker (Some (worker_id w)) ].

Definition failed_updates (now : Z) (e : string) : list Update :=
  [ U_status FAILED; U_error (Some e); U_completed_at (Some now) ].

(** [_process_task], for a worker whose [task_queue] is set. *)
Definition _process_task (execute_task : Executor) (now : Z) (task : Task)
  (w : t) (db : table) : t * table :=
  let db1 := snd (TaskQueue.update_task_status (id task) (processing_updates now w) db) in
  match execute_task (id task) db1 with
  | (Normal, db2) =>
      (mkWorker (worker_id w) (worker_type w) (status w) now
         (tasks_completed w + 1) None (error_count w) (max_daily_cost w),
       db2)
  | (Raised e, db2) =>
      (mkWorker (worker_id w) (worker_type w) (status w) now
         (tasks_completed w) (Some (id task)) (error_count w + 1) (max_daily_cost w),
       snd (TaskQueue.update_task_status (id task) (failed_updates now e) db2))
  end.

(** [_check_budget]; [None] when [get_daily_summary] raises. *)
Definition _check_budget (w : t) (tracker : CostTracker.t) : option bool :=
  match CostTracker.get_daily_summary tracker with
  | Some summary =>
      let worker_cost :=
        CostTracker.get_or_0 (worker_id w) (CostTracker.costs_by_worker summary) in
      Some (worker_cost <? max_daily_cost w)%float
  | None => None
  end.

(** The condition of the [while] of [_work_loop]. *)
Definition loop_condition (w : t) : bool :=
  (status w =? "active") || (status w =? "paused").

(** One pass of the body of [_work_loop].  An exception that reaches the
    [except] of the loop adds one to [error_count]. *)
Definition work_iteration (execute_task : Executor) (now : Z)
  (tracker : CostTracker.t) (w : t) (db : table) : t * table :=
  if status w =? "paused" then (w, db)
  else
    match _check_budget w tracker with
    | None =>
        (mkWorker (worker_id w) (worker_type w) (status w) (last_activity w)
           (tasks_completed w) (current_task w) (error_count w + 1)
           (max_daily_cost w),
         db)
    | Some false => (pause w, db)
    | Some true =>
        match TaskQueue.get_next_task (Some (worker_type w)) now db with
        | (Some task, db1) => _process_task execute_task now task w db1
        | (None, db1) => (w, db1)
        end
    end.

(** [_work_loop], cut after [n] passes. *)
Fixpoint _work_loop (n : nat) (execute_task : Executor) (now : Z)
  (tracker : CostTracker.t) (w : t) (db : table) : t * table :=
  match n with
  | O => (w, db)
  | S n' =>
      if loop_condition w
      then
        let '(w', db') := work_iteration execute_task now tracker w db in
        _work_loop n' execute_task now tracker w' db'
      else (w, db)
  end.

(** The [execute_task] that the concrete workers (scraper, summarizer, audio,
    dashboard) share: the task is fetched, its handler [run] is called, and the
    executor itself writes the outcome; an exception of the handler is caught
    inside. *)
Definition concrete_execute_task (run : Task -> string + string) (now : Z)
  : Executor :=
  fun task_id db =>
    match get_task task_id db with
    | None => (Normal, db)
    | Some task =>
        match run task with
        | inl res =>
            (Normal,
             snd (TaskQueue.update_task_status task_id
                    [ U_status COMPLETED; U_result (Some res);
                      U_completed_at (Some now) ] db))
        | inr e =>
            (Normal,
             snd (TaskQueue.update_task_status task_id
                    [ U_status FAILED; U_error (Some e);
                      U_completed_at (Some now) ] db))
        end
    end.

End MiniWorker.

(** ** [core/system_monitor.py]: [SystemMonitor] *)

Module SystemMonitor.

Local Open Scope float_scope.

(** [a / b] on two integers below 2^53 with [b] not zero. *)
Definition true_div (a b : Z) : float := float_of_Z a / float_of_Z b.

Record SystemAlert : Set := mkSystemAlert {
  alert_timestamp : Z;
  severity : string;
  component : string;
  message : string;
  resolved : bool
}.

(** The dataclass [SystemHealth], without [uptime_hours]. *)
Record SystemHealth : Set := mkSystemHealth {
  timestamp : Z;
  overall_status : string;
  active_workers : Z;
  total_tasks_today : Z;
  cost_utilization : float;
  error_rate : float;
  alerts_count : Z;
  emergency_shutdown : bool
}.

(** What a call of [_trigger_emergency_shutdown] leaves in
    SYSTEM_SHUTDOWN.json.  The file is opened for writing, then the report is
    built and handed to [json.dump], which writes it entry by entry and has
    no [default] for values it cannot encode.  The entries [shutdown_time],
    [reason] and [active_workers] are written; at the first entry of
    [system_health], the [timestamp] of the snapshot (a [datetime]),
    [json.dump] raises [TypeError].  When the snapshot itself raises, the
    file stays empty. *)
Inductive ShutdownFile : Set :=
| EmptyFile
| TruncatedReport (shutdown_time : Z) (reason : string) (active_workers : Z).

(** The monitor together with the objects it holds references to: the cost
    tracker, the registered workers (a dictionary by worker id, in insertion
    order) and the [running] flag of the registered task queue, if any.
    [stop_calls] lists the workers (by their key in the dictionary) whose
    [stop()] the monitor has awaited and [shutdown_file] what it has written
    to SYSTEM_SHUTDOWN.json, both oldest first. *)
Record t : Set := mkMonitor {
  cost_tracker : CostTracker.t;
  task_queue_running : option bool;
  workers : list (string * MiniWorker.t);
  monitoring_active : bool;
  alerts : list SystemAlert;
  emergency_shutdown_active : bool;
  shutdown_reason : option string;
  stop_calls : list string;
  shutdown_file : list ShutdownFile
}.

(** [SystemMonitor()] over a cost tracker. *)
Definition init (tracker : CostTracker.t) : t :=
  mkMonitor tracker None [] false [] false None [] [].

(** [register_worker]: [self.workers[worker.worker_id] = worker]. *)
Fixpoint dict_set (k : string) (w : MiniWorker.t) (d : list (string * MiniWorker.t))
  : list (string * MiniWorker.t) :=
  match d with
  | [] => [(k, w)]
  | (k', w') :: rest =>
      if (k' =? k)%string then (k, w) :: rest else (k', w') :: dict_set k w rest
  end.

Definition register_worker (w : MiniWorker.t) (m : t) : t :=
  mkMonitor (cost_tracker m) (task_queue_running m)
    (dict_set (MiniWorker.worker_id w) w (workers m)) (monitoring_active m)
    (alerts m) (emergency_shutdown_active m) (shutdown_reason m) (stop_calls m)
    (shutdown_file m).

Definition register_task_queue (running : bool) (m : t) : t :=
  mkMonitor (cost_tracker m) (Some running) (workers m) (monitoring_active m)
    (alerts m) (emergency_shutdown_active m) (shutdown_reason m) (stop_calls m)
    (shutdown_file m).

(** [_create_alert]: the alert is appended to [self.alerts]. *)
Definition _create_alert (now : Z) (severity component message : string) (m : t) : t :=
  mkMonitor (cost_tracker m) (task_queue_running m) (workers m)
    (monitoring_active m)
    (alerts m ++ [mkSystemAlert now severity component message false])
    (emergency_shutdown_active m) (shutdown_reason m) (stop_calls m)
    (shutdown_file m).

Definition sum_Z (l : list Z) : Z := fold_left Z.add l 0%Z.

Definition count_where {A : Type} (p : A -> bool) (l : list A) : Z :=
  Z.of_nat (List.length (filter p l)).

(** [_calculate_system_health], given the summary of the cost tracker. *)
Definition system_health_of (now : Z) (cost_summary : CostTracker.Summary) (m : t)
  : SystemHealth :=
  let cost_utilization := CostTracker.utilization_percent cost_summary / 100 in
  let active_workers :=
    count_where (fun kw => (MiniWorker.status (snd kw) =? "active")%string) (workers m) in
  let total_tasks := sum_Z (map (fun kw => MiniWorker.tasks_completed (snd kw)) (workers m)) in
  let error_count := sum_Z (map (fun kw => MiniWorker.error_count (snd kw)) (workers m)) in
  let error_rate := true_div error_count (Z.max (total_tasks + error_count) 1) in
  let active_alerts := count_where (fun a => negb (resolved a)) (alerts m) in
  let overall_status :=
    if emergency_shutdown_active m then "emergency"%string
    else if (1.0 <? cost_utilization) || (0.2 <? error_rate) then "critical"%string
    else if (0.8 <? cost_utilization) || (0.1 <? error_rate) ||
            (float_of_Z active_workers <?
               float_of_Z (Z.of_nat (List.length (workers m))) * 0.5)
         then "degraded"%string
    else "healthy"%string in
  mkSystemHealth now overall_status active_workers total_tasks cost_utilization
    error_rate active_alerts (emergency_shutdown_active m).

(** [_calculate_system_health]; [None] when [get_daily_summary] raises. *)
Definition _calculate_system_health (now : Z) (m : t) : option SystemHealth :=
  match CostTracker.get_daily_summary (cost_tracker m) with
  | Some cost_summary => Some (system_health_of now cost_summary m)
  | None => None
  end.

(** The loop [for worker in self.workers.values(): await worker.stop()]. *)
Definition stop_all_workers (m : t) : t :=
  mkMonitor (cost_tracker m) (task_queue_running m)
    (map (fun kw => (fst kw, MiniWorker.stop (snd kw))) (workers m))
    (monitoring_active m) (alerts m) (emergency_shutdown_active m)
    (shutdown_reason m)
    (stop_calls m ++ map fst (workers m))
    (shutdown_file m).

(** [if self.task_queue: await self.task_queue.stop_monitoring()]. *)
Definition stop_task_queue (m : t) : t :=
  mkMonitor (cost_tracker m)
    (match task_queue_running m with Some _ => Some false | None => None end)
    (workers m) (monitoring_active m) (alerts m) (emergency_shutdown_active m)
    (shutdown_reason m) (stop_calls m) (shutdown_file m).

(** [await self.cost_tracker.stop_monitoring()]. *)
Definition stop_cost_tracker (m : t) : t :=
  mkMonitor (CostTracker.stop_monitoring (cost_tracker m)) (task_queue_running m)
    (workers m) (monitoring_active m) (alerts m) (emergency_shutdown_active m)
    (shutdown_reason m) (stop_calls m) (shutdown_file m).

(** The write of SYSTEM_SHUTDOWN.json, with the exception that ends it:
    [ZeroDivisionError] from the health snapshot, or [TypeError] from
    [json.dump] at the snapshot's timestamp. *)
Definition write_shutdown_file (now : Z) (reason : string) (m : t) : Error * t :=
  let wrote (e : Error) (f : ShutdownFile) :=
    (e,
     mkMonitor (cost_tracker m) (task_queue_running m) (workers m)
       (monitoring_active m) (alerts m) (emergency_shutdown_active m)
       (shutdown_reason m) (stop_calls m) (shutdown_file m ++ [f])) in
  match _calculate_system_health now m with
  | Some _ =>
      wrote TypeError
        (TruncatedReport now reason (Z.of_nat (List.length (workers m))))
  | None => wrote ZeroDivisionError EmptyFile
  end.

(** [_trigger_emergency_shutdown]: the exception that leaves the method, if
    any, and the monitor as the call leaves it.  The exceptions of the
    workers', the queue's and the tracker's [stop] are caught inside; the one
    of the write is not, so the last line of the method is never reached. *)
Definition _trigger_emergency_shutdown (now : Z) (reason : string) (m : t)
  : option Error * t :=
  if emergency_shutdown_active m then (None, m)   (* Already in shutdown *)
  else
    let m1 :=
      mkMonitor (cost_tracker m) (task_queue_running m) (workers m)
        (monitoring_active m) (alerts m) true (Some reason) (stop_calls m)
        (shutdown_file m) in
    let m2 :=
      _create_alert now "emergency" "system"
        ("Emergency shutdown triggered: " ++ reason) m1 in
    let '(e, m3) :=
      write_shutdown_file now reason
        (stop_cost_tracker (stop_task_queue (stop_all_workers m2))) in
    (Some e, m3).

End SystemMonitor.

(** * Properties *)

(** ** Sample data used by the closed examples *)

(** [round(x, 3)] at the cost estimates of the examples (0.01 and 0.012),
    each of which is its own rounding to three decimals. *)
Definition round_3_of_examples : float -> float := fun x => x.

Definition sample_task (task_id : string) (priority : Z) (worker : string)
  (st : TaskStatus) (created : Z) (deps : list string) : Task :=
  mkTask task_id "sample" "scrape_source" priority [] worker st created
    None None None None None None 0 3 3600 (Some 0%float) deps.

(** ** Progress reported by [get_task_status] *)

Section Progress.

Import SQLiteQueueBackend TaskQueue.

(** The progress of each status, as [_calculate_progress] computes it. *)
Definition progress_of (s : TaskStatus) : float :=
  match s with
  | PENDING => 0.0
  | ASSIGNED => 0.1
  | PROCESSING => 0.5
  | COMPLETED => 1.0
  | FAILED => 1.0
  | CANCELLED => 0.0
  end%float.

Lemma calculate_progress_by_status (task : Task) :
  _calculate_progress task = progress_of (status task).
Proof.
  unfold _calculate_progress, progress_of.
  destruct (status task); reflexivity.
Qed.

Lemma progress_of_in_unit_interval (s : TaskStatus) :
  (0 <=? progress_of s)%float = true /\ (progress_of s <=? 1)%float = true.
Proof.
  destruct s; split; reflexivity.
Qed.

(** C9, as stated, fails: a CANCELLED task is reported with progress 0.0, not
    1.0. *)
Lemma cancelled_task_progress_is_zero :
  let db := [sample_task "t1" 5 "scraper" CANCELLED 100 []] in
  option_map info_progress (get_task_status "t1" db) = Some 0.0%float
  /\ option_map (fun i => (info_progress i =? 1.0)%float) (get_task_status "t1" db)
     = Some false.
Proof.
  split; reflexivity.
Qed.

(** C9 (amended): for every task id known to a queue on the SQLite backend,
    [get_task_status] reports a progress that depends on the status only: PENDING 0.0, ASSIGNED 0.1, PROCESSING 0.5,
    COMPLETED and FAILED 1.0, CANCELLED 0.0; it always lies in [0, 1]. *)
Theorem get_task_status_progress (task_id : string) (db : table) (task : Task) :
  get_task task_id db = Some task ->
  exists info,
    get_task_status task_id db = Some info
    /\ info_status info = TaskStatus_value (status task)
    /\ info_progress info = progress_of (status task)
    /\ (0 <=? info_progress info)%float = true
    /\ (info_progress info <=? 1)%float = true.
Proof.
  intros Hget. unfold get_task_status. rewrite Hget.
  eexists. split; [reflexivity|]. cbn [info_status info_progress].
  rewrite calculate_progress_by_status.
  repeat split; try apply progress_of_in_unit_interval.
Qed.

Lemma get_task_status_progress_witness :
  exists info,
    get_task_status "t1" [sample_task "t1" 5 "scraper" PROCESSING 100 []] = Some info
    /\ info_status info = "processing"
    /\ info_progress info = 0.5%float
    /\ (0 <=? info_progress info)%float = true
    /\ (info_progress info <=? 1)%float = true.
Proof.
  apply (get_task_status_progress "t1"
           [sample_task "t1" 5 "scraper" PROCESSING 100 []]
           (sample_task "t1" 5 "scraper" PROCESSING 100 [])).
  reflexivity.
Defined.

End Progress.

(** ** Submission *)

Section Submission.

Import SQLiteQueueBackend TaskQueue.

(** The worker type [submit_task] gives the new task. *)
Definition chosen_worker_type (worker : option string) (task_type : string) : string :=
  match worker with
  | Some w => if truthy worker then w else _determine_worker_type task_type
  | None => _determine_worker_type task_type
  end.

Lemma determine_worker_type_default (task_type : string) :
  dict_get task_type worker_mapping = None ->
  _determine_worker_type task_type = "general".
Proof.
  intros H. unfold _determine_worker_type. now rewrite H.
Qed.

Lemma select_by_id_app_fresh (task_id : string) (db : table) (row : Task) :
  existsb (fun r => id r =? task_id) db = false ->
  id row = task_id ->
  select_by_id task_id (db ++ [row])%list = Some row.
Proof.
  unfold select_by_id. intros Hfresh Hid.
  induction db as [|r db IH]; cbn in *.
  - rewrite Hid, String.eqb_refl. reflexivity.
  - apply Bool.orb_false_iff in Hfresh as [Hr Hdb].
    rewrite Hr. now apply IH.
Qed.

(** C10, as stated, fails: with no [worker_type] and a [task_type] outside the
    mapping table the submission succeeds, and the task is routed to the
    worker type ["general"]. *)
Lemma submit_unmapped_task_type_succeeds :
  dict_get "translate_page" worker_mapping = None
  /\ submit_task round_3_of_examples "0a1b2c3d" 100 "translate" "translate_page"
       None 5 3600 None [] []
     = inr ("0a1b2c3d",
            [mkTask "0a1b2c3d" "translate" "translate_page" 5 [] "general" PENDING 100
               None None None None None None 0 3 3600 (Some 0.01%float) []]).
Proof.
  split; reflexivity.
Qed.

(** A [max_posts] that [_estimate_task_cost] can divide by ten: a boolean, a
    float, or an integer below 2^53 in magnitude. *)
Definition divisible_max_posts (v : Value) : bool :=
  match v with
  | VScalar (SInt z) => (Z.abs z <? 2 ^ 53)%Z
  | VScalar (SBool _) => true
  | VScalar (SFloat _) => true
  | _ => false
  end.

Lemma max_posts_over_10_returns (v : Value) :
  divisible_max_posts v = true -> exists factor, max_posts_over_10 v = inr factor.
Proof.
  destruct v as [[|b|z|f|s]|items|]; cbn [divisible_max_posts]; try discriminate.
  - intros _. destruct b; vm_compute; eauto.
  - intros Hz. unfold max_posts_over_10, int_true_div. rewrite Hz. cbn. eauto.
  - intros _. cbn. eauto.
Qed.

Lemma estimate_task_cost_returns (round_3 : float -> float) (task_type : string)
  (parameters : Parameters) :
  (forall v, param_get "max_posts" parameters = Some v ->
             divisible_max_posts v = true) ->
  exists cost, _estimate_task_cost round_3 task_type parameters = inr cost.
Proof.
  intros Hmax. unfold _estimate_task_cost.
  destruct (param_get "max_posts" parameters) as [v|]; [|eauto].
  destruct (max_posts_over_10_returns v (Hmax v eq_refl)) as [factor ->]. eauto.
Qed.

(** What a submission that returns has done to the table. *)
Lemma submit_task_inr (round_3 : float -> float) (task_id : string) (now : Z)
  (description task_type : string) (worker : option string)
  (prio timeout : Z) (deps : option (list string)) (kwargs : Parameters)
  (db db' : table) (returned : string) :
  submit_task round_3 task_id now description task_type worker prio timeout deps
    kwargs db = inr (returned, db') ->
  returned = task_id
  /\ existsb (fun r => id r =? task_id) db = false
  /\ exists row,
       db' = (db ++ [row])%list
       /\ id row = task_id
       /\ status row = PENDING
       /\ retry_count row = 0%Z
       /\ max_retries row = 3%Z.
Proof.
  unfold submit_task, add_task.
  destruct (_estimate_task_cost round_3 task_type kwargs) as [e|cost];
    [discriminate|].
  cbn [id parameters].
  destruct (json_dumps_error kwargs); [discriminate|].
  destruct (negb _); [discriminate|].
  destruct (existsb (fun r => id r =? task_id) db) eqn:E; [discriminate|].
  intros [= <- <-]. split; [reflexivity|]. split; [reflexivity|].
  eexists. split; [reflexivity|]. repeat split.
Qed.

(** C10 (amended): [submit_task] raises no error for a missing worker type.
    When no [worker_type] is supplied the type is read from the mapping table,
    and is ["general"] for a [task_type] the table does not list.  Whenever the
    drawn id is new to the table, the priority and the timeout fit a 64-bit
    integer, the parameters can be written as JSON and [max_posts], if given,
    is a number below 2^53 in magnitude, [submit_task] returns that id and
    the stored task is PENDING with the chosen worker type. *)
Theorem submit_task_creates_pending (round_3 : float -> float) (task_id : string)
  (now : Z) (description task_type : string) (worker : option string)
  (prio timeout : Z) (deps : option (list string)) (kwargs : Parameters)
  (db : table) :
  existsb (fun r => id r =? task_id) db = false ->
  fits_integer prio = true ->
  fits_integer timeout = true ->
  json_dumps_error kwargs = None ->
  (forall v, param_get "max_posts" kwargs = Some v ->
             divisible_max_posts v = true) ->
  exists db' task,
    submit_task round_3 task_id now description task_type worker prio timeout
      deps kwargs db
      = inr (task_id, db')
    /\ get_task task_id db' = Some task
    /\ status task = PENDING
    /\ worker_type task = chosen_worker_type worker task_type
    /\ (truthy worker = false ->
        worker_type task =
          match dict_get task_type worker_mapping with
          | Some w => w
          | None => "general"
          end).
Proof.
  intros Hfresh Hpriority Htimeout Hjson Hmax.
  unfold submit_task.
  destruct (estimate_task_cost_returns round_3 task_type kwargs Hmax)
    as [cost ->].
  unfold add_task. cbn [id parameters priority max_retries timeout_seconds].
  rewrite Hjson, Hpriority, Htimeout, Hfresh. cbn [fits_integer andb negb].
  change (fits_integer 3) with true. cbn [andb negb].
  eexists. eexists. split; [reflexivity|].
  split.
  - unfold get_task. apply select_by_id_app_fresh; [exact Hfresh | reflexivity].
  - cbn. repeat split.
    intros Hw. destruct worker as [w|]; [rewrite Hw|]; reflexivity.
Qed.

Lemma submit_task_creates_pending_witness :
  exists db' task,
    submit_task round_3_of_examples "0a1b2c3d" 100 "translate" "translate_page"
      None 5 3600 None
      [("source_url", VScalar (SStr "https://example.org/feed"));
       ("max_posts", VScalar (SInt 10))]
      [sample_task "t1" 5 "scraper" PENDING 50 []]
      = inr ("0a1b2c3d", db')
    /\ get_task "0a1b2c3d" db' = Some task
    /\ status task = PENDING
    /\ worker_type task = chosen_worker_type None "translate_page"
    /\ (truthy None = false ->
        worker_type task =
          match dict_get "translate_page" worker_mapping with
          | Some w => w
          | None => "general"
          end).
Proof.
  refine (submit_task_creates_pending round_3_of_examples "0a1b2c3d" 100
            "translate" "translate_page" None 5 3600 None
            [("source_url", VScalar (SStr "https://example.org/feed"));
             ("max_posts", VScalar (SInt 10))]
            [sample_task "t1" 5 "scraper" PENDING 50 []]
            eq_refl eq_refl eq_refl eq_refl _).
  intros v [= <-]. reflexivity.
Defined.

End Submission.

(** ** Claiming: dependency gating and order, on closed queues *)

Section ClaimExamples.

(** A blocked high-priority task next to a ready low-priority one.  The
    dependency ["dep-x"] of ["task-a"] is still PENDING. *)
Definition dep_x : Task := sample_task "dep-x" 5 "summarizer" PENDING 50 [].
Definition task_a : Task := sample_task "task-a" 10 "scraper" PENDING 100 ["dep-x"].
Definition task_b : Task := sample_task "task-b" 5 "scraper" PENDING 200 [].

Definition gating_table : SQLiteQueueBackend.table := [dep_x; task_a; task_b].

Definition gating_store : RedisQueueBackend.store :=
  snd (RedisQueueBackend.add_task task_b
         (snd (RedisQueueBackend.add_task task_a
                 (snd (RedisQueueBackend.add_task dep_x
                         (RedisQueueBackend.mkStore [] [])))))).

(** C1 at a failing input.  ["task-b"] is PENDING, of the requested worker
    type and without dependencies, and ["task-a"] waits for ["dep-x"]; the
    SQLite backend returns no task and changes nothing, and the Redis backend
    returns the blocked ["task-a"]. *)
Example blocked_head_of_line :
  SQLiteQueueBackend.candidate (Some "scraper") task_b = true
  /\ SQLiteQueueBackend.dependencies_met gating_table (dependencies task_b) = true
  /\ SQLiteQueueBackend.dependencies_met gating_table (dependencies task_a) = false
  /\ SQLiteQueueBackend.get_next_task (Some "scraper") 300 gating_table
     = (None, gating_table)
  /\ fst (RedisQueueBackend.get_next_task (Some "scraper") 300 gating_store)
     = Some task_a.
Proof.
  repeat split; reflexivity.
Qed.

(** Successive claims: the ids returned by [n] calls of [get_next_task]. *)
Fixpoint sqlite_claims (n : nat) (worker : option string) (now : Z)
  (db : SQLiteQueueBackend.table) : list (option string) :=
  match n with
  | O => []
  | S n' =>
      let '(r, db') := SQLiteQueueBackend.get_next_task worker now db in
      option_map id r :: sqlite_claims n' worker now db'
  end.

Fixpoint redis_claims (n : nat) (worker : option string) (now : Z)
  (s : RedisQueueBackend.store) : list (option string) :=
  match n with
  | O => []
  | S n' =>
      let '(r, s') := RedisQueueBackend.get_next_task worker now s in
      option_map id r :: redis_claims n' worker now s'
  end.

(** Priorities 10, 5, 5, 1, submitted in this order. *)
Definition p10 : Task := sample_task "1f0e" 10 "scraper" PENDING 100 [].
Definition p5_first : Task := sample_task "2a7c" 5 "scraper" PENDING 200 [].
Definition p5_second : Task := sample_task "9b3d" 5 "scraper" PENDING 300 [].
Definition p1 : Task := sample_task "c4d2" 1 "scraper" PENDING 400 [].

Definition ordering_table : SQLiteQueueBackend.table :=
  [p10; p5_first; p5_second; p1].

Definition ordering_store : RedisQueueBackend.store :=
  fold_left (fun s task => snd (RedisQueueBackend.add_task task s))
    [p10; p5_first; p5_second; p1] (RedisQueueBackend.mkStore [] []).

(** C8 at a failing input.  The SQLite backend returns the four tasks by
    priority and then by creation time; the Redis backend returns the later
    of the two priority-5 tasks first, because its id is the greater string. *)
Example equal_priority_order :
  sqlite_claims 4 (Some "scraper") 500 ordering_table
    = [Some "1f0e"; Some "2a7c"; Some "9b3d"; Some "c4d2"]
  /\ redis_claims 4 (Some "scraper") 500 ordering_store
    = [Some "1f0e"; Some "9b3d"; Some "2a7c"; Some "c4d2"]
  /\ (created_at p5_first <? created_at p5_second)%Z = true.
Proof.
  repeat split; reflexivity.
Qed.

(** One pending task and two clients of the Redis backend. *)
Definition single_store : RedisQueueBackend.store :=
  snd (RedisQueueBackend.add_task task_b (RedisQueueBackend.mkStore [] [])).

(** C2 at a failing input.  Both clients read the head of the pending set
    before either removes it; both calls return ["task-b"].  The task returned
    is still PENDING in its hash after an undisturbed call as well. *)
Example redis_double_claim :
  RedisQueueBackend.interleave 300
    [false; true; false; false; false; true; true; true]
    (RedisQueueBackend.Called (Some "scraper"))
    (RedisQueueBackend.Called (Some "scraper")) single_store
  = (RedisQueueBackend.Returned (Some task_b),
     RedisQueueBackend.Returned (Some task_b),
     snd (RedisQueueBackend.get_next_task (Some "scraper") 300 single_store))
  /\ option_map status
       (RedisQueueBackend.hgetall (RedisQueueBackend.task_key "task-b")
          (snd (RedisQueueBackend.get_next_task (Some "scraper") 300 single_store)))
     = Some PENDING.
Proof.
  split; reflexivity.
Qed.

End ClaimExamples.

(** ** Claiming on the SQLite backend: general facts *)

Section SQLiteClaims.

Import SQLiteQueueBackend.

(** What the UPDATE of [get_next_task] does to the claimed row. *)
Definition assign (now : Z) (r : Task) : Task :=
  set_assigned_at (Some now) (set_status ASSIGNED r).

Lemma order_limit_1_In (rows : list Task) (row : Task) :
  order_limit_1 rows = Some row -> In row rows.
Proof.
  revert row. induction rows as [|r rest IH]; intros row H; cbn in H.
  - discriminate.
  - destruct (order_limit_1 rest) as [m|].
    + destruct (sorts_before m r); inversion H; subst.
      * right. now apply IH.
      * now left.
    + inversion H. now left.
Qed.

Lemma order_limit_1_exists (rows : list Task) :
  rows <> [] -> exists row, order_limit_1 rows = Some row.
Proof.
  destruct rows as [|r rest]; [congruence|]. intros _. cbn.
  destruct (order_limit_1 rest) as [m|]; [destruct (sorts_before m r)|]; eauto.
Qed.

Lemma sorts_before_false_iff (a b : Task) :
  sorts_before a b = false <->
  (priority a < priority b
   \/ (priority a = priority b /\ created_at b <= created_at a))%Z.
Proof.
  unfold sorts_before.
  rewrite Bool.orb_false_iff, Bool.andb_false_iff.
  rewrite Z.ltb_ge, Z.eqb_neq, Z.ltb_ge. lia.
Qed.

(** The row picked by [ORDER BY ... LIMIT 1] is preceded by no selected row. *)
Lemma order_limit_1_first (rows : list Task) (m : Task) :
  order_limit_1 rows = Some m ->
  forall r, In r rows -> sorts_before r m = false.
Proof.
  revert m. induction rows as [|x rest IH]; intros m H r Hin; cbn in H.
  - destruct Hin.
  - destruct (order_limit_1 rest) as [m0|] eqn:Hrest.
    + destruct (sorts_before m0 x) eqn:Hcmp; inversion H; subst; clear H.
      * destruct Hin as [->|Hin]; [|now apply (IH m)].
        apply sorts_before_false_iff.
        unfold sorts_before in Hcmp.
        apply Bool.orb_true_iff in Hcmp as [Hc|Hc].
        -- apply Z.ltb_lt in Hc. lia.
        -- apply Bool.andb_true_iff in Hc as [Hp Hc].
           apply Z.eqb_eq in Hp. apply Z.ltb_lt in Hc. lia.
      * apply sorts_before_false_iff in Hcmp.
        destruct Hin as [->|Hin].
        -- apply sorts_before_false_iff. lia.
        -- specialize (IH m0 eq_refl r Hin).
           apply sorts_before_false_iff in IH.
           apply sorts_before_false_iff. lia.
    + inversion H; subst; clear H.
      destruct rest as [|y rest'].
      * destruct Hin as [->|[]]. apply sorts_before_false_iff. lia.
      * cbn in Hrest. destruct (order_limit_1 rest') as [m1|];
          [destruct (sorts_before m1 y)|]; discriminate.
Qed.

Lemma get_next_task_Some (worker : option string) (now : Z) (db db' : table)
  (row : Task) :
  get_next_task worker now db = (Some row, db') ->
  In row db
  /\ candidate worker row = true
  /\ dependencies_met db (dependencies row) = true
  /\ (forall r, In r db -> candidate worker r = true -> sorts_before r row = false)
  /\ db' = update_where_id (id row) (assign now) db.
Proof.
  unfold get_next_task. intros H.
  destruct (order_limit_1 (filter (candidate worker) db)) as [m|] eqn:Hm;
    [|inversion H].
  destruct (dependencies_met db (dependencies m)) eqn:Hdeps; inversion H; subst.
  pose proof (order_limit_1_In _ _ Hm) as Hin.
  apply filter_In in Hin as [Hin Hcand].
  repeat split; auto.
  intros r Hr Hc. apply (order_limit_1_first _ _ Hm). now apply filter_In.
Qed.

(** A blocked first candidate ends the call, whatever else is ready. *)
Lemma sqlite_blocked_head_returns_none (worker : option string) (now : Z)
  (db : table) (row : Task) :
  order_limit_1 (filter (candidate worker) db) = Some row ->
  dependencies_met db (dependencies row) = false ->
  get_next_task worker now db = (None, db).
Proof.
  intros Hrow Hdeps. unfold get_next_task. now rewrite Hrow, Hdeps.
Qed.

Lemma get_next_task_None (worker : option string) (now : Z) (db db' : table) :
  get_next_task worker now db = (None, db') -> db' = db.
Proof.
  unfold get_next_task. intros H.
  destruct (order_limit_1 (filter (candidate worker) db)) as [m|];
    [destruct (dependencies_met db (dependencies m))|]; now inversion H.
Qed.

Lemma candidate_pending (worker : option string) (r : Task) :
  candidate worker r = true -> status r = PENDING.
Proof.
  unfold candidate. intros H. apply Bool.andb_true_iff in H as [H _].
  destruct (status r); now try discriminate.
Qed.

(** A row of the table after a claim is a row of the table before it, or is
    ASSIGNED and carries the claimed id. *)
Lemma In_update_where_id_assign (task_id : string) (now : Z) (db : table) (r : Task) :
  In r (update_where_id task_id (assign now) db) ->
  (In r db /\ id r <> task_id) \/ (status r = ASSIGNED /\ id r = task_id).
Proof.
  unfold update_where_id. intros H. apply in_map_iff in H as [x [Hx Hin]].
  destruct (id x =? task_id) eqn:E; subst.
  - right. apply String.eqb_eq in E. now split.
  - left. apply String.eqb_neq in E. now split.
Qed.

(** The tasks returned by a sequence of calls, each with its own worker type
    and clock reading. *)
Fixpoint claimed (calls : list (option string * Z)) (db : table) : list Task :=
  match calls with
  | [] => []
  | (worker, now) :: rest =>
      match get_next_task worker now db with
      | (Some row, db') => row :: claimed rest db'
      | (None, db') => claimed rest db'
      end
  end.

Lemma claimed_were_pending (calls : list (option string * Z)) (db : table) (t : Task) :
  In t (claimed calls db) -> In t db /\ status t = PENDING.
Proof.
  revert db. induction calls as [|[worker now] rest IH]; intros db H; cbn in H.
  - destruct H.
  - destruct (get_next_task worker now db) as [[row|] db'] eqn:Hcall.
    + apply get_next_task_Some in Hcall as (Hin & Hcand & _ & _ & ->).
      destruct H as [<-|H].
      * split; [exact Hin | now apply candidate_pending in Hcand].
      * apply IH in H as [H Hst]. split; [|exact Hst].
        apply In_update_where_id_assign in H as [[H _]|[Ha _]]; [exact H|].
        rewrite Hst in Ha. discriminate.
    + apply get_next_task_None in Hcall as ->. now apply IH.
Qed.

Lemma claimed_ids_fresh (calls : list (option string * Z)) (db : table)
  (task_id : string) :
  (forall r, In r db -> id r = task_id -> status r <> PENDING) ->
  ~ In task_id (map id (claimed calls db)).
Proof.
  intros Hnot Hin. apply in_map_iff in Hin as [t [Hid Hin]].
  apply claimed_were_pending in Hin as [Hin Hst].
  exact (Hnot t Hin Hid Hst).
Qed.

(** On the SQLite backend no sequence of [get_next_task] calls returns one
    task id twice. *)
Theorem sqlite_no_double_claim (calls : list (option string * Z)) (db : table) :
  NoDup (map id (claimed calls db)).
Proof.
  revert db. induction calls as [|[worker now] rest IH]; intros db; cbn.
  - constructor.
  - destruct (get_next_task worker now db) as [[row|] db'] eqn:Hcall; [|apply IH].
    apply get_next_task_Some in Hcall as (_ & _ & _ & _ & ->).
    cbn. constructor; [|apply IH].
    apply claimed_ids_fresh. intros r Hr Hid Hst.
    apply In_update_where_id_assign in Hr as [[_ Hne]|[Ha _]].
    + now apply Hne.
    + rewrite Hst in Ha. discriminate.
Qed.

(** The claimed task is ASSIGNED in the table afterwards. *)
Theorem sqlite_claim_marks_assigned (worker : option string) (now : Z)
  (db db' : table) (row : Task) :
  get_next_task worker now db = (Some row, db') ->
  status row = PENDING
  /\ option_map status (get_task (id row) db') = Some ASSIGNED.
Proof.
  intros H. apply get_next_task_Some in H as (Hin & Hcand & _ & _ & ->).
  split; [now apply candidate_pending in Hcand|].
  unfold get_task, select_by_id, update_where_id.
  induction db as [|x db IH]; [destruct Hin|].
  cbn. destruct (id x =? id row) eqn:E.
  - cbn. rewrite E. reflexivity.
  - rewrite E. destruct Hin as [->|Hin].
    + rewrite String.eqb_refl in E. discriminate.
    + now apply IH.
Qed.

Lemma sqlite_claim_marks_assigned_witness :
  status task_b = PENDING
  /\ option_map status
       (get_task (id task_b)
          (snd (get_next_task (Some "scraper") 300 [task_b])))
     = Some ASSIGNED.
Proof.
  exact (sqlite_claim_marks_assigned (Some "scraper") 300 [task_b]
           (snd (get_next_task (Some "scraper") 300 [task_b])) task_b eq_refl).
Defined.

(** On the SQLite backend a returned task has all its dependencies
    COMPLETED. *)
Theorem sqlite_returns_only_ready (worker : option string) (now : Z)
  (db db' : table) (row : Task) :
  get_next_task worker now db = (Some row, db') ->
  forall dep_id, In dep_id (dependencies row) ->
    exists dep_row,
      get_task dep_id db = Some dep_row /\ status dep_row = COMPLETED.
Proof.
  intros H dep_id Hdep.
  apply get_next_task_Some in H as (_ & _ & Hmet & _).
  unfold dependencies_met in Hmet.
  rewrite forallb_forall in Hmet. specialize (Hmet dep_id Hdep).
  unfold get_task. destruct (select_by_id dep_id db) as [dep_row|]; [|discriminate].
  exists dep_row. split; [reflexivity|].
  destruct (status dep_row); now try discriminate.
Qed.

(** A finished dependency next to the task that waited for it. *)
Definition dep_done : Task := sample_task "dep-x" 5 "summarizer" COMPLETED 50 [].

Lemma sqlite_returns_only_ready_witness :
  exists dep_row,
    get_task "dep-x" [dep_done; task_a] = Some dep_row
    /\ status dep_row = COMPLETED.
Proof.
  exact (sqlite_returns_only_ready (Some "scraper") 300 [dep_done; task_a]
           (snd (get_next_task (Some "scraper") 300 [dep_done; task_a])) task_a
           eq_refl "dep-x" (or_introl eq_refl)).
Defined.

End SQLiteClaims.

(** ** Order of the tasks claimed on the SQLite backend *)

Section SQLiteOrder.

Import SQLiteQueueBackend.

(** [a] may be returned before [b]: [b] does not sort strictly before [a]. *)
Definition may_precede (a b : Task) : Prop := sorts_before b a = false.

Lemma may_precede_spec (a b : Task) :
  may_precede a b <->
  (priority b < priority a
   \/ (priority a = priority b /\ created_at a <= created_at b))%Z.
Proof.
  unfold may_precede. rewrite sorts_before_false_iff. lia.
Qed.

Lemma claimed_are_candidates (w : option string) (calls : list (option string * Z))
  (db : table) (t : Task) :
  Forall (fun c => fst c = w) calls ->
  In t (claimed calls db) -> candidate w t = true.
Proof.
  intros Hall. revert db.
  induction Hall as [|[worker now] rest Hw Hall IH]; intros db H; cbn in H.
  - destruct H.
  - cbn in Hw. subst worker.
    destruct (get_next_task w now db) as [[row|] db'] eqn:Hcall.
    + apply get_next_task_Some in Hcall as (_ & Hcand & _).
      destruct H as [<-|H]; [exact Hcand | now apply (IH db')].
    + now apply (IH db').
Qed.

(** Successive claims for one worker type come back by descending priority,
    and by ascending creation time among equal priorities. *)
Theorem sqlite_claims_sorted (w : option string) (calls : list (option string * Z))
  (db : table) :
  Forall (fun c => fst c = w) calls ->
  forall before a middle b rest,
    claimed calls db = (before ++ a :: middle ++ b :: rest)%list ->
    (priority b < priority a
     \/ (priority a = priority b /\ created_at a <= created_at b))%Z.
Proof.
  intros Hall. revert db.
  induction Hall as [|[worker now] calls' Hw Hall IH];
    intros db before a middle b rest H; cbn in H.
  - destruct before; discriminate.
  - cbn in Hw. subst worker.
    destruct (get_next_task w now db) as [[row|] db'] eqn:Hcall.
    + destruct before as [|x before].
      * cbn in H. inversion H as [[Ha Hrest]]. subst row.
        apply may_precede_spec.
        assert (Hb : In b (claimed calls' db')).
        { rewrite Hrest. apply in_or_app. right. now left. }
        pose proof (claimed_are_candidates w calls' db' b Hall Hb) as Hcb.
        apply claimed_were_pending in Hb as [Hb Hst].
        apply get_next_task_Some in Hcall as (_ & _ & _ & Hfirst & ->).
        apply In_update_where_id_assign in Hb as [[Hb _]|[Hb _]].
        -- now apply Hfirst.
        -- rewrite Hst in Hb. discriminate.
      * cbn in H. inversion H as [[Hx Hrest]].
        now apply (IH db' before a middle b rest).
    + now apply (IH db' before a middle b rest).
Qed.

Lemma sqlite_claims_sorted_witness :
  (priority p5_second < priority p5_first
   \/ (priority p5_first = priority p5_second
       /\ created_at p5_first <= created_at p5_second))%Z.
Proof.
  refine (sqlite_claims_sorted (Some "scraper")
            (repeat (Some "scraper", 500%Z) 4) ordering_table _
            [p10] p5_first [] p5_second [p1] _).
  - repeat constructor.
  - reflexivity.
Defined.

Lemma map_id_update_where_id (task_id : string) (now : Z) (db : table) :
  map id (update_where_id task_id (assign now) db) = map id db.
Proof.
  unfold update_where_id. rewrite map_map. apply map_ext.
  intros r. now destruct (id r =? task_id).
Qed.

Lemma update_where_id_absent (task_id : string) (f : Task -> Task) (db : table) :
  ~ In task_id (map id db) -> update_where_id task_id f db = db.
Proof.
  unfold update_where_id. intros H. induction db as [|x db IH]; [reflexivity|].
  cbn in *. destruct (id x =? task_id) eqn:E.
  - apply String.eqb_eq in E. tauto.
  - f_equal. apply IH. tauto.
Qed.

Lemma update_where_id_cons (task_id : string) (f : Task -> Task) (x : Task)
  (db : table) :
  update_where_id task_id f (x :: db)
  = (if id x =? task_id then f x else x) :: update_where_id task_id f db.
Proof. reflexivity. Qed.

Lemma candidate_assign (w : option string) (now : Z) (r : Task) :
  candidate w (assign now r) = false.
Proof. reflexivity. Qed.

(** A claim removes exactly the claimed row from the selected rows. *)
Lemma candidates_after_claim (w : option string) (now : Z) (db : table) (row : Task) :
  NoDup (map id db) -> In row db -> candidate w row = true ->
  exists l1 l2,
    filter (candidate w) db = (l1 ++ row :: l2)%list
    /\ filter (candidate w) (update_where_id (id row) (assign now) db)
       = (l1 ++ l2)%list.
Proof.
  intros Hnd Hin Hcand. induction db as [|x db IH]; [destruct Hin|].
  cbn in Hnd. apply NoDup_cons_iff in Hnd as [Hx Hnd].
  rewrite update_where_id_cons. cbn [filter].
  destruct Hin as [->|Hin].
  - exists [], (filter (candidate w) db).
    rewrite Hcand, String.eqb_refl, candidate_assign.
    split; [reflexivity|].
    now rewrite update_where_id_absent.
  - destruct (IH Hnd Hin) as (l1 & l2 & H1 & H2).
    assert (Hne : (id x =? id row) = false).
    { apply String.eqb_neq. intros E. apply Hx. rewrite E. now apply in_map. }
    rewrite Hne. destruct (candidate w x).
    + exists (x :: l1), l2. cbn [app]. now rewrite H1, H2.
    + exists l1, l2. now rewrite H1, H2.
Qed.

Lemma dependencies_met_nil (db : table) : dependencies_met db [] = true.
Proof. reflexivity. Qed.

(** With no dependencies in the way, as many claims as there are selected rows
    return every one of them. *)
Theorem sqlite_claims_all (w : option string) (calls : list (option string * Z))
  (db : table) :
  NoDup (map id db) ->
  Forall (fun c => fst c = w) calls ->
  (forall r, In r db -> candidate w r = true -> dependencies r = []) ->
  List.length calls = List.length (filter (candidate w) db) ->
  List.length (claimed calls db) = List.length calls
  /\ forall r, In r db -> candidate w r = true -> In r (claimed calls db).
Proof.
  intros Hnd Hall. revert db Hnd.
  induction Hall as [|[worker now] calls' Hw Hall IH]; intros db Hnd Hdeps Hlen.
  - split; [reflexivity|]. intros r Hr Hc. cbn in Hlen.
    destruct (filter (candidate w) db) eqn:E; [|discriminate].
    assert (Hin : In r (filter (candidate w) db)) by now apply filter_In.
    rewrite E in Hin. destruct Hin.
  - cbn in Hw. subst worker. cbn [claimed].
    destruct (get_next_task w now db) as [[row|] db'] eqn:Hcall.
    + apply get_next_task_Some in Hcall as (Hin & Hcand & _ & _ & ->).
      destruct (candidates_after_claim w now db row Hnd Hin Hcand)
        as (l1 & l2 & H1 & H2).
      assert (Hsub : forall r, In r (update_where_id (id row) (assign now) db) ->
                candidate w r = true -> In r db).
      { intros r Hr Hc. apply In_update_where_id_assign in Hr as [[Hr _]|[Ha _]];
          [exact Hr|]. apply candidate_pending in Hc. rewrite Hc in Ha. discriminate. }
      destruct (IH (update_where_id (id row) (assign now) db)) as [IHlen IHin].
      * now rewrite map_id_update_where_id.
      * intros r Hr Hc. apply Hdeps; auto.
      * rewrite H2. cbn in Hlen. rewrite H1 in Hlen.
        rewrite length_app in *. cbn in Hlen. lia.
      * split; [cbn; now rewrite IHlen|].
        intros r Hr Hc.
        assert (Hf : In r (filter (candidate w) db)) by now apply filter_In.
        rewrite H1 in Hf. apply in_app_or in Hf.
        assert (Hf' : r = row \/ In r (l1 ++ l2)%list).
        { destruct Hf as [Hf|[Hf|Hf]]; [right|left|right]; auto;
            apply in_or_app; auto. }
        destruct Hf' as [->|Hf']; [now left|]. right.
        rewrite <- H2 in Hf'. apply filter_In in Hf' as [Hf' _].
        now apply IHin.
    + exfalso. unfold get_next_task in Hcall.
      destruct (filter (candidate w) db) as [|x l] eqn:E; [discriminate|].
      destruct (order_limit_1_exists (x :: l)) as [m Hm]; [discriminate|].
      rewrite Hm in Hcall.
      pose proof (order_limit_1_In _ _ Hm) as Hmin. rewrite <- E in Hmin.
      apply filter_In in Hmin as [Hmin Hmc].
      rewrite (Hdeps m Hmin Hmc), dependencies_met_nil in Hcall. discriminate.
Qed.

Lemma sqlite_claims_all_witness :
  List.length (claimed (repeat (Some "scraper", 500%Z) 4) ordering_table) = 4%nat.
Proof.
  refine (proj1 (sqlite_claims_all (Some "scraper")
                   (repeat (Some "scraper", 500%Z) 4) ordering_table _ _ _ _)).
  - repeat constructor; cbn; intuition discriminate.
  - repeat constructor.
  - intros r Hr _. cbn in Hr.
    destruct Hr as [<-|[<-|[<-|[<-|[]]]]]; reflexivity.
  - reflexivity.
Defined.

End SQLiteOrder.

(** ** The Redis method and its commands *)

Section RedisCommands.

Import RedisQueueBackend.

(** Run without another client in between, the four commands of a call are
    the method [get_next_task]. *)
Lemma commands_uninterrupted (worker : option string) (now : Z) (other : position)
  (s : store) :
  interleave now [false; false; false; false] (Called worker) other s
  = (Returned (fst (get_next_task worker now s)), other,
     snd (get_next_task worker now s)).
Proof.
  unfold get_next_task. cbn [interleave command].
  destruct worker as [w|]; [|reflexivity].
  destruct (negb (truthy (Some w))); [reflexivity|].
  destruct (zrevrange_0_0 (pending_key w) s) as [|task_id ids]; reflexivity.
Qed.

(** Whenever the pending set of a worker type is not empty, two calls whose
    ZREVRANGE commands both precede the first ZREM return the same task. *)
Lemma redis_interleaved_calls_collide (w task_id : string) (ids : list string)
  (task : Task) (now : Z) (s : store) :
  truthy (Some w) = true ->
  zrevrange_0_0 (pending_key w) s = task_id :: ids ->
  hgetall (task_key task_id) s = Some task ->
  exists s',
    interleave now [false; true; false; false; false; true; true; true]
      (Called (Some w)) (Called (Some w)) s
    = (Returned (Some task), Returned (Some task), s').
Proof.
  intros Hw Hhead Hhash. cbn [interleave command].
  rewrite Hw, Hhead. cbn [negb interleave command].
  rewrite Hhead. cbn [interleave command].
  unfold hgetall in *. cbn [hashes zadd zrem].
  rewrite Hhash. eexists. reflexivity.
Qed.

End RedisCommands.

(** ** Updates through [update_task] *)

Section Updates.

Import SQLiteQueueBackend.

Lemma id_apply_update (r : Task) (u : Update) : id (apply_update r u) = id r.
Proof. now destruct u. Qed.

Lemma id_fold_apply_update (ups : list Update) (r : Task) :
  id (fold_left apply_update ups r) = id r.
Proof.
  revert r. induction ups as [|u ups IH]; intros r; cbn; [reflexivity|].
  now rewrite IH, id_apply_update.
Qed.

Lemma select_update_same (task_id : string) (f : Task -> Task) (db : table) :
  (forall r, id (f r) = id r) ->
  select_by_id task_id (update_where_id task_id f db)
  = option_map f (select_by_id task_id db).
Proof.
  intros Hid. unfold select_by_id, update_where_id.
  induction db as [|x db IH]; [reflexivity|]. cbn.
  destruct (id x =? task_id) eqn:E.
  - cbn. now rewrite Hid, E.
  - now rewrite E.
Qed.

Lemma select_update_other (task_id other : string) (f : Task -> Task) (db : table) :
  other <> task_id ->
  (forall r, id (f r) = id r) ->
  select_by_id other (update_where_id task_id f db) = select_by_id other db.
Proof.
  intros Hne Hid. unfold select_by_id, update_where_id.
  induction db as [|x db IH]; [reflexivity|]. cbn.
  destruct (id x =? task_id) eqn:E.
  - apply String.eqb_eq in E. rewrite Hid.
    destruct (id x =? other) eqn:E'.
    + apply String.eqb_eq in E'. congruence.
    + exact IH.
  - destruct (id x =? other); [reflexivity | exact IH].
Qed.

(** [update_task] with at least one written column. *)
Lemma update_task_written (task_id : string) (ups : list Update) (db : table) :
  filter written ups <> [] ->
  snd (update_task task_id ups db)
  = update_where_id task_id (fun r => fold_left apply_update (filter written ups) r) db.
Proof.
  unfold update_task. destruct (filter written ups); [congruence | reflexivity].
Qed.

Lemma get_task_update_task (task_id : string) (ups : list Update) (db : table) :
  filter written ups <> [] ->
  get_task task_id (snd (update_task task_id ups db))
  = option_map (fun r => fold_left apply_update (filter written ups) r)
      (get_task task_id db).
Proof.
  intros H. rewrite update_task_written by exact H.
  apply select_update_same. intros r. apply id_fold_apply_update.
Qed.

Lemma get_task_update_task_other (task_id other : string) (ups : list Update)
  (db : table) :
  other <> task_id ->
  get_task other (snd (update_task task_id ups db)) = get_task other db.
Proof.
  intros Hne. unfold update_task.
  destruct (filter written ups) eqn:E; [reflexivity|]. cbn [snd].
  apply select_update_other; [exact Hne|].
  intros r. apply id_fold_apply_update.
Qed.

End Updates.

(** ** The worker's handling of a claimed task *)

Section Worker.

Import SQLiteQueueBackend.

(** The queue as the executor finds it. *)
Definition queue_at_execution (now : Z) (task : Task) (w : MiniWorker.t) (db : table)
  : table :=
  snd (TaskQueue.update_task_status (id task) (MiniWorker.processing_updates now w) db).

(** An executor that returns without touching the queue. *)
Definition idle_executor : MiniWorker.Executor := fun _ db => (MiniWorker.Normal, db).

Definition scraper_1 : MiniWorker.t :=
  MiniWorker.set_worker_status "active" (MiniWorker.init "Scraper-01" "scraper" 0).

(** C3, as stated, fails: when the executor returns normally the worker writes
    nothing to the queue; the task stays PROCESSING and has no result, while
    the worker counts it as completed. *)
Lemma normal_return_leaves_processing :
  option_map status
    (get_task "task-b" (snd (MiniWorker._process_task idle_executor 300 task_b scraper_1 [task_b])))
  = Some PROCESSING
  /\ option_map result
       (get_task "task-b" (snd (MiniWorker._process_task idle_executor 300 task_b scraper_1 [task_b])))
     = Some None
  /\ MiniWorker.tasks_completed (fst (MiniWorker._process_task idle_executor 300 task_b scraper_1 [task_b]))
     = 1%Z.
Proof.
  repeat split; reflexivity.
Qed.

(** C3 (amended): for every claimed task the worker marks it PROCESSING (with
    [started_at] and [assigned_worker]) before the executor runs.  If the
    executor returns normally the worker leaves the queue as the executor left
    it and counts the task as completed: marking COMPLETED with a result is the
    executor's own doing.  If the executor raises, the worker marks the task
    FAILED with the error message.  In both cases the worker's status is
    unchanged, so the poll loop goes on. *)
Theorem process_task_outcome (execute_task : MiniWorker.Executor) (now : Z)
  (task row : Task) (w : MiniWorker.t) (db : table) :
  get_task (id task) db = Some row ->
  (option_map status (get_task (id task) (queue_at_execution now task w db))
     = Some PROCESSING
   /\ option_map started_at (get_task (id task) (queue_at_execution now task w db))
     = Some (Some now)
   /\ option_map assigned_worker (get_task (id task) (queue_at_execution now task w db))
     = Some (Some (MiniWorker.worker_id w)))
  /\ (forall db2,
        execute_task (id task) (queue_at_execution now task w db) = (MiniWorker.Normal, db2) ->
        snd (MiniWorker._process_task execute_task now task w db) = db2
        /\ MiniWorker.tasks_completed (fst (MiniWorker._process_task execute_task now task w db))
           = (MiniWorker.tasks_completed w + 1)%Z
        /\ MiniWorker.error_count (fst (MiniWorker._process_task execute_task now task w db))
           = MiniWorker.error_count w)
  /\ (forall e db2 row2,
        execute_task (id task) (queue_at_execution now task w db) = (MiniWorker.Raised e, db2) ->
        get_task (id task) db2 = Some row2 ->
        option_map status (get_task (id task) (snd (MiniWorker._process_task execute_task now task w db)))
          = Some FAILED
        /\ option_map error (get_task (id task) (snd (MiniWorker._process_task execute_task now task w db)))
          = Some (Some e)
        /\ MiniWorker.error_count (fst (MiniWorker._process_task execute_task now task w db))
           = (MiniWorker.error_count w + 1)%Z)
  /\ MiniWorker.loop_condition (fst (MiniWorker._process_task execute_task now task w db))
     = MiniWorker.loop_condition w.
Proof.
  intros Hrow. unfold queue_at_execution, TaskQueue.update_task_status.
  repeat split.
  - rewrite get_task_update_task by (cbn; discriminate). now rewrite Hrow.
  - rewrite get_task_update_task by (cbn; discriminate). now rewrite Hrow.
  - rewrite get_task_update_task by (cbn; discriminate). now rewrite Hrow.
  - unfold MiniWorker._process_task, TaskQueue.update_task_status. now rewrite H.
  - unfold MiniWorker._process_task, TaskQueue.update_task_status. now rewrite H.
  - unfold MiniWorker._process_task, TaskQueue.update_task_status. now rewrite H.
  - unfold MiniWorker._process_task, TaskQueue.update_task_status. rewrite H. cbn [snd].
    rewrite get_task_update_task by (cbn; discriminate). now rewrite H0.
  - unfold MiniWorker._process_task, TaskQueue.update_task_status. rewrite H. cbn [snd].
    rewrite get_task_update_task by (cbn; discriminate). now rewrite H0.
  - unfold MiniWorker._process_task, TaskQueue.update_task_status. now rewrite H.
  - unfold MiniWorker._process_task.
    destruct (execute_task (id task) _) as [[|e] db2]; reflexivity.
Qed.

(** An executor that raises. *)
Definition failing_executor : MiniWorker.Executor := fun _ db => (MiniWorker.Raised "connection reset", db).

Lemma process_task_outcome_witness :
  option_map status
    (get_task "task-b"
       (snd (MiniWorker._process_task failing_executor 300 task_b scraper_1 [task_b])))
  = Some FAILED
  /\ option_map error
       (get_task "task-b"
          (snd (MiniWorker._process_task failing_executor 300 task_b scraper_1 [task_b])))
     = Some (Some "connection reset")
  /\ MiniWorker.error_count (fst (MiniWorker._process_task failing_executor 300 task_b scraper_1 [task_b]))
     = (MiniWorker.error_count scraper_1 + 1)%Z.
Proof.
  refine (proj1 (proj2 (proj2
            (process_task_outcome failing_executor 300 task_b task_b scraper_1
               [task_b] eq_refl)))
            "connection reset"
            (queue_at_execution 300 task_b scraper_1 [task_b])
            (fold_left apply_update (MiniWorker.processing_updates 300 scraper_1) task_b)
            eq_refl eq_refl).
Defined.

(** The pass of the poll loop that follows a failed task is taken: the loop
    condition still holds. *)
Lemma work_loop_goes_on (n : nat) (execute_task : MiniWorker.Executor) (now : Z)
  (tracker : CostTracker.t) (task : Task) (w : MiniWorker.t) (db db1 : table) :
  MiniWorker.status w = "active" ->
  MiniWorker._check_budget w tracker = Some true ->
  TaskQueue.get_next_task (Some (MiniWorker.worker_type w)) now db = (Some task, db1) ->
  MiniWorker._work_loop (S n) execute_task now tracker w db
  = MiniWorker._work_loop n execute_task now tracker
      (fst (MiniWorker._process_task execute_task now task w db1))
      (snd (MiniWorker._process_task execute_task now task w db1))
  /\ MiniWorker.loop_condition (fst (MiniWorker._process_task execute_task now task w db1)) = true.
Proof.
  intros Hactive Hbudget Hclaim.
  assert (Hcond : MiniWorker.loop_condition w = true).
  { unfold MiniWorker.loop_condition. now rewrite Hactive. }
  split.
  - cbn [MiniWorker._work_loop]. rewrite Hcond. unfold MiniWorker.work_iteration.
    rewrite Hactive, Hbudget, Hclaim. cbn [String.eqb negb].
    change ("active" =? "paused") with false. cbn iota.
    now destruct (MiniWorker._process_task execute_task now task w db1).
  - rewrite <- Hcond. unfold MiniWorker._process_task.
    destruct (execute_task (id task) _) as [[|e] db2]; reflexivity.
Qed.

(** With the executor the concrete workers share, a handler that succeeds
    ends with the task COMPLETED and its result stored, written by the
    executor. *)
Lemma concrete_executor_marks_completed (run : Task -> string + string)
  (now : Z) (task_id res : string) (task : Task) (db : table) :
  get_task task_id db = Some task ->
  run task = inl res ->
  fst (MiniWorker.concrete_execute_task run now task_id db) = MiniWorker.Normal
  /\ option_map status (get_task task_id (snd (MiniWorker.concrete_execute_task run now task_id db)))
     = Some COMPLETED
  /\ option_map result (get_task task_id (snd (MiniWorker.concrete_execute_task run now task_id db)))
     = Some (Some res).
Proof.
  intros Hget Hrun. unfold MiniWorker.concrete_execute_task. rewrite Hget, Hrun.
  cbn [fst snd]. unfold TaskQueue.update_task_status.
  rewrite get_task_update_task by (cbn; discriminate).
  rewrite Hget. repeat split; reflexivity.
Qed.

Lemma concrete_executor_marks_completed_witness :
  fst (MiniWorker.concrete_execute_task (fun _ => inl "Scraped 3 articles") 300
         "task-b" [task_b]) = MiniWorker.Normal
  /\ option_map status
       (get_task "task-b"
          (snd (MiniWorker.concrete_execute_task (fun _ => inl "Scraped 3 articles")
                  300 "task-b" [task_b])))
     = Some COMPLETED
  /\ option_map result
       (get_task "task-b"
          (snd (MiniWorker.concrete_execute_task (fun _ => inl "Scraped 3 articles")
                  300 "task-b" [task_b])))
     = Some (Some "Scraped 3 articles").
Proof.
  exact (concrete_executor_marks_completed (fun _ => inl "Scraped 3 articles") 300
           "task-b" "Scraped 3 articles" task_b [task_b] eq_refl eq_refl).
Defined.

End Worker.

(** ** Emergency shutdown *)

Section EmergencyShutdown.

Import SystemMonitor.

Lemma trigger_when_active (now : Z) (reason : string) (m : SystemMonitor.t) :
  emergency_shutdown_active m = true ->
  _trigger_emergency_shutdown now reason m = (None, m).
Proof.
  intros H. unfold _trigger_emergency_shutdown. now rewrite H.
Qed.

(** The monitor a first trigger leaves, whatever ends the write. *)
Definition after_trigger (now : Z) (reason : string) (m : SystemMonitor.t)
  (f : ShutdownFile) : SystemMonitor.t :=
  mkMonitor (CostTracker.stop_monitoring (cost_tracker m))
    (match task_queue_running m with Some _ => Some false | None => None end)
    (map (fun kw => (fst kw, MiniWorker.stop (snd kw))) (workers m))
    (monitoring_active m)
    (alerts m
       ++ [mkSystemAlert now "emergency" "system"
             ("Emergency shutdown triggered: " ++ reason) false])
    true (Some reason)
    (stop_calls m ++ map fst (workers m))
    (shutdown_file m ++ [f]).

Lemma trigger_when_inactive (now : Z) (reason : string) (m : SystemMonitor.t) :
  emergency_shutdown_active m = false ->
  _trigger_emergency_shutdown now reason m
  = if (CostTracker.daily_limit_gbp (cost_tracker m) =? 0)%float
    then (Some ZeroDivisionError, after_trigger now reason m EmptyFile)
    else (Some TypeError,
          after_trigger now reason m
            (TruncatedReport now reason (Z.of_nat (List.length (workers m))))).
Proof.
  intros H. unfold _trigger_emergency_shutdown, write_shutdown_file,
    _calculate_system_health, CostTracker.get_daily_summary.
  rewrite H.
  cbn [cost_tracker stop_cost_tracker stop_task_queue stop_all_workers
       _create_alert CostTracker.stop_monitoring CostTracker._save_daily_costs
       CostTracker.wrote CostTracker.daily_limit_gbp].
  destruct (CostTracker.daily_limit_gbp (cost_tracker m) =? 0)%float;
    unfold after_trigger; cbn; rewrite ?length_map; reflexivity.
Qed.

Lemma trigger_sets_active (now : Z) (reason : string) (m : SystemMonitor.t) :
  emergency_shutdown_active (snd (_trigger_emergency_shutdown now reason m)) = true.
Proof.
  destruct (emergency_shutdown_active m) eqn:H.
  - now rewrite trigger_when_active.
  - rewrite trigger_when_inactive by exact H.
    now destruct (CostTracker.daily_limit_gbp (cost_tracker m) =? 0)%float.
Qed.

Lemma ledger_shutdown_when_active (tr : CostTracker.t) :
  CostTracker.emergency_shutdown tr = true ->
  CostTracker._emergency_shutdown tr = tr.
Proof.
  intros H. unfold CostTracker._emergency_shutdown. now rewrite H.
Qed.

(** [register_worker] keeps the keys of the dictionary distinct. *)
Lemma dict_set_keys (k : string) (w : MiniWorker.t) (d : list (string * MiniWorker.t)) :
  map fst (dict_set k w d)
  = if existsb (String.eqb k) (map fst d) then map fst d else (map fst d ++ [k])%list.
Proof.
  induction d as [|[k' w'] d IH]; [reflexivity|]. cbn.
  rewrite (String.eqb_sym k k'). destruct (k' =? k)%string eqn:E.
  - cbn. apply String.eqb_eq in E. now subst.
  - cbn. rewrite IH. now destruct (existsb (String.eqb k) (map fst d)).
Qed.

Lemma register_worker_NoDup (w : MiniWorker.t) (m : SystemMonitor.t) :
  NoDup (map fst (workers m)) ->
  NoDup (map fst (workers (register_worker w m))).
Proof.
  intros H. cbn. rewrite dict_set_keys.
  destruct (existsb (String.eqb (MiniWorker.worker_id w)) (map fst (workers m))) eqn:E;
    [exact H|].
  apply NoDup_app; [exact H | repeat constructor; intros [] |].
  intros x Hx [<-|[]].
  assert (existsb (String.eqb (MiniWorker.worker_id w)) (map fst (workers m)) = true).
  { apply existsb_exists. exists (MiniWorker.worker_id w).
    split; [exact Hx | apply String.eqb_refl]. }
  congruence.
Qed.

Lemma no_active_after_stop (d : list (string * MiniWorker.t)) :
  filter (fun kw => (MiniWorker.status (snd kw) =? "active")%string)
    (map (fun kw => (fst kw, MiniWorker.stop (snd kw))) d) = [].
Proof.
  induction d as [|kw d IH]; [reflexivity|]. cbn. exact IH.
Qed.

(** C7.  The guard of [_trigger_emergency_shutdown] works: a second trigger
    while a shutdown is active changes nothing and raises nothing, and across
    the two calls every registered worker is stopped once and ends stopped.
    The report does not: the first trigger ends in an exception, and the one
    file it leaves is cut off before the health snapshot (with a daily limit
    of zero it is empty).  The cost ledger's [_emergency_shutdown] writes its
    signal file once. *)
Theorem emergency_shutdown_idempotent (now1 now2 : Z) (reason1 reason2 : string)
  (m : SystemMonitor.t) (tr : CostTracker.t) :
  emergency_shutdown_active m = false ->
  CostTracker.emergency_shutdown tr = false ->
  _trigger_emergency_shutdown now2 reason2
    (snd (_trigger_emergency_shutdown now1 reason1 m))
    = (None, snd (_trigger_emergency_shutdown now1 reason1 m))
  /\ stop_calls (snd (_trigger_emergency_shutdown now1 reason1 m))
     = (stop_calls m ++ map fst (workers m))%list
  /\ (NoDup (map fst (workers m)) ->
      forall k, In k (map fst (workers m)) ->
        count_occ string_dec
          (stop_calls (snd (_trigger_emergency_shutdown now1 reason1 m))) k
        = S (count_occ string_dec (stop_calls m) k))
  /\ (forall k w,
        In (k, w) (workers (snd (_trigger_emergency_shutdown now1 reason1 m))) ->
        MiniWorker.status w = "stopped")
  /\ (fst (_trigger_emergency_shutdown now1 reason1 m),
      shutdown_file (snd (_trigger_emergency_shutdown now1 reason1 m)))
     = (if (CostTracker.daily_limit_gbp (cost_tracker m) =? 0)%float
        then (Some ZeroDivisionError, (shutdown_file m ++ [EmptyFile])%list)
        else (Some TypeError,
              (shutdown_file m
                 ++ [TruncatedReport now1 reason1
                       (Z.of_nat (List.length (workers m)))])%list))
  /\ CostTracker._emergency_shutdown (CostTracker._emergency_shutdown tr)
     = CostTracker._emergency_shutdown tr
  /\ CostTracker.fs (CostTracker._emergency_shutdown (CostTracker._emergency_shutdown tr))
     = (CostTracker.fs tr ++ ["EMERGENCY_SHUTDOWN"])%list.
Proof.
  intros Hm Htr.
  rewrite (trigger_when_active now2 reason2) by apply trigger_sets_active.
  split; [reflexivity|].
  rewrite (trigger_when_inactive now1 reason1 m Hm).
  assert (Hsnd : forall f1 f2,
            snd (if (CostTracker.daily_limit_gbp (cost_tracker m) =? 0)%float
                 then (Some ZeroDivisionError, after_trigger now1 reason1 m f1)
                 else (Some TypeError, after_trigger now1 reason1 m f2))
            = after_trigger now1 reason1 m
                (if (CostTracker.daily_limit_gbp (cost_tracker m) =? 0)%float
                 then f1 else f2)).
  { intros f1 f2.
    now destruct (CostTracker.daily_limit_gbp (cost_tracker m) =? 0)%float. }
  rewrite Hsnd.
  split; [reflexivity|]. split; [|split; [|split]].
  - intros Hnd k Hk. cbn [stop_calls after_trigger].
    rewrite count_occ_app.
    rewrite (proj1 (NoDup_count_occ' string_dec (map fst (workers m))) Hnd k Hk).
    lia.
  - cbn [workers after_trigger]. intros k w Hin.
    apply in_map_iff in Hin as [[k' w'] [E _]].
    inversion E. reflexivity.
  - now destruct (CostTracker.daily_limit_gbp (cost_tracker m) =? 0)%float.
  - assert (Hactive : CostTracker.emergency_shutdown
                        (CostTracker._emergency_shutdown tr) = true).
    { unfold CostTracker._emergency_shutdown. now rewrite Htr. }
    rewrite (ledger_shutdown_when_active _ Hactive).
    split; [reflexivity|].
    unfold CostTracker._emergency_shutdown. now rewrite Htr.
Qed.

Definition audio_1 : MiniWorker.t :=
  MiniWorker.set_worker_status "active" (MiniWorker.init "Audio-01" "audio" 0).

Definition sample_monitor : SystemMonitor.t :=
  register_task_queue true
    (register_worker audio_1
       (register_worker scraper_1 (SystemMonitor.init (CostTracker.init 20)))).

(** The sample monitor, with the default daily limit of 20.0 and two active
    workers: the first trigger raises [TypeError] and leaves a report
    without health snapshot, although the snapshot can be computed. *)
Lemma emergency_shutdown_idempotent_witness :
  (fst (_trigger_emergency_shutdown 10 "cost_limit_exceeded" sample_monitor),
   shutdown_file (snd (_trigger_emergency_shutdown 10 "cost_limit_exceeded"
                         sample_monitor)))
  = (Some TypeError, [TruncatedReport 10 "cost_limit_exceeded" 2]).
Proof.
  exact (proj1 (proj2 (proj2 (proj2 (proj2
           (emergency_shutdown_idempotent 10 20 "cost_limit_exceeded"
              "emergency_alerts" sample_monitor (CostTracker.init 20)
              eq_refl eq_refl)))))).
Defined.

(** The snapshot that the report of the sample monitor would have held. *)
Example sample_shutdown_snapshot :
  option_map (fun h => (overall_status h, active_workers h, emergency_shutdown h))
    (_calculate_system_health 10
       (snd (_trigger_emergency_shutdown 10 "cost_limit_exceeded" sample_monitor)))
  = Some ("emergency", 0%Z, true).
Proof. reflexivity. Qed.

End EmergencyShutdown.

(** ** Order of binary64 floats *)

Section FloatOrder.

Local Open Scope float_scope.

Lemma SFltb_true (x y : spec_float) :
  SFltb x y = true <-> SFcompare x y = Some Lt.
Proof.
  unfold SFltb. destruct (SFcompare x y) as [[]|]; split; congruence.
Qed.

Lemma SFleb_true (x y : spec_float) :
  SFleb x y = true <-> SFcompare x y = Some Lt \/ SFcompare x y = Some Eq.
Proof.
  unfold SFleb. destruct (SFcompare x y) as [[]|]; split; intros H;
    try tauto; try congruence; destruct H; congruence.
Qed.

Ltac sf_destruct :=
  repeat match goal with
         | x : spec_float |- _ => destruct x
         end;
  repeat match goal with
         | b : bool |- _ => destruct b
         end;
  cbn in *; try discriminate; try congruence; try tauto.

Ltac cmp_destruct :=
  repeat match goal with
         | H : context [Z.compare ?a ?b] |- _ =>
             destruct (Z.compare_spec a b); subst
         | |- context [Z.compare ?a ?b] =>
             destruct (Z.compare_spec a b); subst
         | H : context [Pos.compare_cont Eq ?a ?b] |- _ =>
             change (Pos.compare_cont Eq a b) with (Pos.compare a b) in *;
             destruct (Pos.compare_spec a b); subst
         | |- context [Pos.compare_cont Eq ?a ?b] =>
             change (Pos.compare_cont Eq a b) with (Pos.compare a b) in *;
             destruct (Pos.compare_spec a b); subst
         end;
  cbn in *; try discriminate; try congruence; try tauto; try lia.

Lemma SFcompare_Lt_Gt (x y : spec_float) :
  SFcompare x y = Some Lt -> SFcompare y x = Some Gt.
Proof. sf_destruct; cmp_destruct. Qed.

Lemma SFcompare_Eq_sym (x y : spec_float) :
  SFcompare x y = Some Eq -> SFcompare y x = Some Eq.
Proof. sf_destruct; cmp_destruct. Qed.

Lemma SFcompare_Lt_trans (x y z : spec_float) :
  SFcompare x y = Some Lt -> SFcompare y z = Some Lt -> SFcompare x z = Some Lt.
Proof. sf_destruct; cmp_destruct. Qed.

Lemma SFcompare_Eq_Lt (x y z : spec_float) :
  SFcompare x y = Some Eq -> SFcompare y z = Some Lt -> SFcompare x z = Some Lt.
Proof. sf_destruct; cmp_destruct. Qed.

Lemma SFcompare_Lt_Eq (x y z : spec_float) :
  SFcompare x y = Some Lt -> SFcompare y z = Some Eq -> SFcompare x z = Some Lt.
Proof. sf_destruct; cmp_destruct. Qed.

(** [a < b] excludes [b < a]. *)
Lemma ltb_asym (a b : float) : (a <? b) = true -> (b <? a) = false.
Proof.
  rewrite !ltb_spec. intros H. apply SFltb_true, SFcompare_Lt_Gt in H.
  unfold SFltb. now rewrite H.
Qed.

(** [a <= b] excludes [b < a]. *)
Lemma leb_not_ltb (a b : float) : (a <=? b) = true -> (b <? a) = false.
Proof.
  rewrite leb_spec, ltb_spec. intros H. apply SFleb_true in H as [H|H].
  - apply SFcompare_Lt_Gt in H. unfold SFltb. now rewrite H.
  - apply SFcompare_Eq_sym in H. unfold SFltb. now rewrite H.
Qed.

Lemma leb_ltb_trans (a b c : float) :
  (a <=? b) = true -> (b <? c) = true -> (a <? c) = true.
Proof.
  rewrite leb_spec, !ltb_spec. intros Hab Hbc.
  apply SFltb_true in Hbc. apply SFltb_true.
  apply SFleb_true in Hab as [Hab|Hab].
  - exact (SFcompare_Lt_trans _ _ _ Hab Hbc).
  - exact (SFcompare_Eq_Lt _ _ _ Hab Hbc).
Qed.

Lemma ltb_leb_trans (a b c : float) :
  (a <? b) = true -> (b <=? c) = true -> (a <? c) = true.
Proof.
  rewrite leb_spec, !ltb_spec. intros Hab Hbc.
  apply SFltb_true in Hab. apply SFltb_true.
  apply SFleb_true in Hbc as [Hbc|Hbc].
  - exact (SFcompare_Lt_trans _ _ _ Hab Hbc).
  - exact (SFcompare_Lt_Eq _ _ _ Hab Hbc).
Qed.

End FloatOrder.

(** ** The cost ledger *)

Section Ledger.

Import CostTracker.

Local Open Scope float_scope.

(** The alert as [_handle_cost_alert] leaves it in [self.alerts]. *)
Definition recorded (a : CostAlert) : CostAlert :=
  mkCostAlert (severity a) (current_cost a) (threshold a) (alert_service a)
    (alert_worker_id a) (alert_timestamp a) (action_for (severity a)).

Lemma handle_cost_alert_alerts (a : CostAlert) (tr : CostTracker.t) :
  alerts (_handle_cost_alert a tr) = (alerts tr ++ [recorded a])%list.
Proof.
  unfold _handle_cost_alert, _emergency_shutdown, recorded.
  destruct (severity a); cbn; try reflexivity.
  now destruct (emergency_shutdown tr).
Qed.

Lemma handle_cost_alert_costs (a : CostAlert) (tr : CostTracker.t) :
  daily_limit_gbp (_handle_cost_alert a tr) = daily_limit_gbp tr
  /\ daily_costs (_handle_cost_alert a tr) = daily_costs tr
  /\ worker_costs (_handle_cost_alert a tr) = worker_costs tr.
Proof.
  unfold _handle_cost_alert, _emergency_shutdown.
  destruct (severity a); cbn; auto.
  now destruct (emergency_shutdown tr).
Qed.

(** The alerts raised by one evaluation of the thresholds. *)
Definition worker_alerts (now : Z) (event : CostEvent) (worker_cost : float)
  : list CostAlert :=
  match worker_severity worker_cost with
  | Some sev =>
      [mkCostAlert sev worker_cost worker_limit (service event) (worker_id event)
         now (action_for sev)]
  | None => []
  end.

Definition daily_alerts (now : Z) (daily_limit total : float) : list CostAlert :=
  match daily_severity daily_limit total with
  | Some sev =>
      [mkCostAlert sev total daily_limit "system" "all" now (action_for sev)]
  | None => []
  end.

Lemma check_cost_guardrails_alerts (now : Z) (event : CostEvent) (tr : CostTracker.t) :
  alerts (_check_cost_guardrails now event tr)
  = (alerts tr
       ++ worker_alerts now event (get_or_0 (worker_id event) (worker_costs tr))
       ++ daily_alerts now (daily_limit_gbp tr) (sum_values (daily_costs tr)))%list.
Proof.
  unfold _check_cost_guardrails, worker_alerts, daily_alerts.
  destruct (worker_severity (get_or_0 (worker_id event) (worker_costs tr))) as [ws|].
  - destruct (handle_cost_alert_costs
                (mkCostAlert ws (get_or_0 (worker_id event) (worker_costs tr))
                   worker_limit (service event) (worker_id event) now None) tr)
      as (-> & _ & _).
    destruct (daily_severity (daily_limit_gbp tr) (sum_values (daily_costs tr))).
    + rewrite !handle_cost_alert_alerts. now rewrite <- app_assoc.
    + rewrite handle_cost_alert_alerts. reflexivity.
  - destruct (daily_severity (daily_limit_gbp tr) (sum_values (daily_costs tr))).
    + rewrite handle_cost_alert_alerts. reflexivity.
    + now rewrite app_nil_r.
Qed.

Lemma check_cost_guardrails_costs (now : Z) (event : CostEvent) (tr : CostTracker.t) :
  daily_limit_gbp (_check_cost_guardrails now event tr) = daily_limit_gbp tr
  /\ daily_costs (_check_cost_guardrails now event tr) = daily_costs tr
  /\ worker_costs (_check_cost_guardrails now event tr) = worker_costs tr.
Proof.
  unfold _check_cost_guardrails.
  destruct (worker_severity _) as [ws|].
  - match goal with
    | |- context [_handle_cost_alert ?a tr] =>
        destruct (handle_cost_alert_costs a tr) as (Hl & Hd & Hw)
    end.
    rewrite Hl.
    destruct (daily_severity _ _).
    + match goal with
      | |- context [_handle_cost_alert ?b (_handle_cost_alert ?a tr)] =>
          destruct (handle_cost_alert_costs b (_handle_cost_alert a tr))
            as (Hl' & Hd' & Hw')
      end.
      rewrite Hl', Hd', Hw'. auto.
    + auto.
  - destruct (daily_severity _ _); [apply handle_cost_alert_costs | auto].
Qed.

(** What one record does to the running totals. *)
Lemma record_cost_event_costs (now : Z) (event : CostEvent) (tr : CostTracker.t) :
  daily_limit_gbp (_record_cost_event now event tr) = daily_limit_gbp tr
  /\ daily_costs (_record_cost_event now event tr)
     = add_cost (service event) (cost_gbp event) (daily_costs tr)
  /\ worker_costs (_record_cost_event now event tr)
     = add_cost (worker_id event) (cost_gbp event) (worker_costs tr).
Proof.
  unfold _record_cost_event. cbn [_save_daily_costs wrote daily_limit_gbp
                                  daily_costs worker_costs].
  match goal with
  | |- context [_check_cost_guardrails now event ?x] =>
      destruct (check_cost_guardrails_costs now event x) as (Hl & Hd & Hw)
  end.
  rewrite Hl, Hd, Hw. auto.
Qed.

Lemma record_cost_event_alerts (now : Z) (event : CostEvent) (tr : CostTracker.t) :
  alerts (_record_cost_event now event tr)
  = (alerts tr
       ++ worker_alerts now event
            (get_or_0 (worker_id event) (worker_costs (_record_cost_event now event tr)))
       ++ daily_alerts now (daily_limit_gbp tr)
            (sum_values (daily_costs (_record_cost_event now event tr))))%list.
Proof.
  destruct (record_cost_event_costs now event tr) as (_ & -> & ->).
  unfold _record_cost_event. cbn [_save_daily_costs wrote alerts].
  now rewrite check_cost_guardrails_alerts.
Qed.

End Ledger.

(** ** Threshold policy *)

Section Thresholds.

Import CostTracker.

Local Open Scope float_scope.

Lemma worker_soft_cap : worker_limit * 0.8 = 4.0.
Proof. reflexivity. Qed.

Lemma worker_severity_warning (worker_cost : float) :
  (worker_limit * 0.8 <? worker_cost) = true ->
  (worker_cost <? worker_limit) = true ->
  worker_severity worker_cost = Some WARNING.
Proof.
  intros H1 H2. unfold worker_severity. now rewrite H1, H2.
Qed.

Lemma worker_severity_critical (worker_cost : float) :
  (worker_limit <=? worker_cost) = true ->
  worker_severity worker_cost = Some CRITICAL.
Proof.
  intros H. unfold worker_severity.
  assert (H1 : (worker_limit * 0.8 <? worker_cost) = true).
  { apply (ltb_leb_trans _ worker_limit); [reflexivity | exact H]. }
  rewrite H1, (leb_not_ltb _ _ H). reflexivity.
Qed.

Lemma worker_severity_none (worker_cost : float) :
  (worker_limit * 0.8 <? worker_cost) = false ->
  worker_severity worker_cost = None.
Proof.
  intros H. unfold worker_severity. now rewrite H.
Qed.

Lemma daily_severity_cases (daily_limit total : float) :
  daily_severity daily_limit total =
    if daily_limit * 0.7 <? total
    then Some (if daily_limit <? total then EMERGENCY
               else if daily_limit * 0.9 <? total then CRITICAL
               else WARNING)
    else None.
Proof.
  unfold daily_severity.
  destruct (daily_limit * 0.7 <? total); [|reflexivity].
  destruct (daily_limit <? total), (daily_limit * 0.9 <? total); reflexivity.
Qed.

(** C6: on every recorded cost event the thresholds are evaluated on the
    totals that include the event, and the alerts appended are the worker
    alert followed by the system alert, with these severities.  Worker: spend
    past 80% of the worker cap and below the cap gives warning; the cap
    reached gives critical.  System: among spends past 70% of the daily limit,
    one past 100% gives emergency, else one past 90% gives critical, else
    warning.  When the three thresholds are in ascending order, as they are
    for the default limit, being past 90% or past 100% is enough on its own. *)
Theorem threshold_severities (now : Z) (event : CostEvent) (tr : CostTracker.t) :
  alerts (_record_cost_event now event tr)
  = (alerts tr
       ++ worker_alerts now event
            (get_or_0 (worker_id event) (worker_costs (_record_cost_event now event tr)))
       ++ daily_alerts now (daily_limit_gbp tr)
            (sum_values (daily_costs (_record_cost_event now event tr))))%list
  /\ (forall worker_cost,
        ((worker_limit * 0.8 <? worker_cost) = true ->
         (worker_cost <? worker_limit) = true ->
         map severity (worker_alerts now event worker_cost) = [WARNING])
        /\ ((worker_limit <=? worker_cost) = true ->
            map severity (worker_alerts now event worker_cost) = [CRITICAL])
        /\ ((worker_limit * 0.8 <? worker_cost) = false ->
            worker_alerts now event worker_cost = []))
  /\ (forall daily_limit total,
        ((daily_limit * 0.7 <? total) = true ->
         (daily_limit * 0.9 <? total) = false ->
         (daily_limit <? total) = false ->
         map severity (daily_alerts now daily_limit total) = [WARNING])
        /\ ((daily_limit * 0.7 <? total) = true ->
            (daily_limit * 0.9 <? total) = true ->
            (daily_limit <? total) = false ->
            map severity (daily_alerts now daily_limit total) = [CRITICAL])
        /\ ((daily_limit * 0.7 <? total) = true ->
            (daily_limit <? total) = true ->
            map severity (daily_alerts now daily_limit total) = [EMERGENCY])
        /\ ((daily_limit * 0.7 <? total) = false ->
            daily_alerts now daily_limit total = [])
        /\ ((daily_limit * 0.7 <=? daily_limit * 0.9) = true ->
            (daily_limit * 0.9 <? total) = true ->
            (daily_limit <? total) = false ->
            map severity (daily_alerts now daily_limit total) = [CRITICAL])
        /\ ((daily_limit * 0.7 <=? daily_limit) = true ->
            (daily_limit <? total) = true ->
            map severity (daily_alerts now daily_limit total) = [EMERGENCY]))
  /\ (forall a, In a (worker_alerts now event
                        (get_or_0 (worker_id event)
                           (worker_costs (_record_cost_event now event tr)))
                      ++ daily_alerts now (daily_limit_gbp tr)
                           (sum_values (daily_costs (_record_cost_event now event tr))))%list ->
                action_taken a = action_for (severity a)).
Proof.
  split; [apply record_cost_event_alerts|]. split; [|split].
  - intros worker_cost. unfold worker_alerts. repeat split.
    + intros H1 H2. now rewrite worker_severity_warning.
    + intros H. now rewrite worker_severity_critical.
    + intros H. now rewrite worker_severity_none.
  - intros daily_limit total. unfold daily_alerts.
    rewrite daily_severity_cases. repeat split.
    + intros -> -> ->. reflexivity.
    + intros -> -> ->. reflexivity.
    + intros -> ->. reflexivity.
    + intros ->. reflexivity.
    + intros Hord H90 H100.
      rewrite (leb_ltb_trans _ _ _ Hord H90), H90, H100. reflexivity.
    + intros Hord H100.
      rewrite (leb_ltb_trans _ _ _ Hord H100), H100. reflexivity.
  - intros a Hin. apply in_app_or in Hin. unfold worker_alerts, daily_alerts in Hin.
    destruct Hin as [Hin|Hin];
      [destruct (worker_severity _) | destruct (daily_severity _ _)];
      cbn in Hin; try tauto; destruct Hin as [<-|[]]; reflexivity.
Qed.

(** The thresholds of the default daily limit are 14 and 18, in order. *)
Example default_limit_thresholds :
  daily_limit_gbp (CostTracker.init 20.0) * 0.7 = 14.0
  /\ daily_limit_gbp (CostTracker.init 20.0) * 0.9 = 18.0
  /\ (20.0 * 0.7 <=? 20.0 * 0.9) = true
  /\ (20.0 * 0.7 <=? 20.0) = true.
Proof. repeat split; reflexivity. Qed.

(** A run over the default limit: one worker spends 4.5, 1, 10 and 6. *)
Example severities_of_a_run :
  map (fun a => (alert_worker_id a, severity a, action_taken a))
    (alerts
       (snd (track_custom_cost 4 "anthropic" "api_call" 6.0 "Scraper-01" 1
          (snd (track_custom_cost 3 "anthropic" "api_call" 10.0 "Scraper-01" 1
             (snd (track_custom_cost 2 "anthropic" "api_call" 1.0 "Scraper-01" 1
                (snd (track_custom_cost 1 "anthropic" "api_call" 4.5 "Scraper-01" 1
                   (CostTracker.init 20.0))))))))))
  = [ ("Scraper-01", WARNING, Some "notification_sent"%string);
      ("Scraper-01", CRITICAL, Some "pause_non_essential"%string);
      ("Scraper-01", CRITICAL, Some "pause_non_essential"%string);
      ("all", WARNING, Some "notification_sent"%string);
      ("Scraper-01", CRITICAL, Some "pause_non_essential"%string);
      ("all", EMERGENCY, Some "emergency_shutdown"%string) ].
Proof. reflexivity. Qed.

End Thresholds.

(** ** Running totals and the remaining budget *)

Section Budget.

Import CostTracker.

Local Open Scope float_scope.

(** [n] successive additions of [c] to [t]. *)
Definition add_n_times (n : nat) (c t : float) : float :=
  Nat.iter n (fun acc => acc + c) t.

Lemma add_n_times_S (n : nat) (c t : float) :
  add_n_times (S n) c t = add_n_times n c (t + c).
Proof.
  unfold add_n_times. exact (Nat.iter_succ_r n float (fun acc => acc + c) t).
Qed.

Lemma get_set_same (k : string) (v : float) (d : costs) :
  get k (set k v d) = Some v.
Proof.
  induction d as [|[k' v'] d IH]; cbn.
  - now rewrite String.eqb_refl.
  - destruct (k' =? k)%string eqn:E; cbn.
    + now rewrite String.eqb_refl.
    + now rewrite E.
Qed.

Lemma get_set_other (k k' : string) (v : float) (d : costs) :
  k' <> k -> get k' (set k v d) = get k' d.
Proof.
  intros Hne. induction d as [|[k0 v0] d IH]; cbn.
  - destruct (k =? k')%string eqn:E; [|reflexivity].
    apply String.eqb_eq in E. congruence.
  - destruct (k0 =? k)%string eqn:E; cbn.
    + apply String.eqb_eq in E. subst k0.
      destruct (k =? k')%string eqn:E'; [|reflexivity].
      apply String.eqb_eq in E'. congruence.
    + destruct (k0 =? k')%string; [reflexivity | exact IH].
Qed.

Lemma get_or_0_add_cost_same (k : string) (c : float) (d : costs) :
  get_or_0 k (add_cost k c d) = get_or_0 k d + c.
Proof.
  unfold add_cost. unfold get_or_0 at 1. now rewrite get_set_same.
Qed.

Lemma get_add_cost_other (k k' : string) (c : float) (d : costs) :
  k' <> k -> get k' (add_cost k c d) = get k' d.
Proof.
  intros Hne. unfold add_cost. now apply get_set_other.
Qed.

Lemma record_n_limit (n : nat) (now : Z) (event : CostEvent) (tr : CostTracker.t) :
  daily_limit_gbp (record_n n now event tr) = daily_limit_gbp tr.
Proof.
  revert tr. induction n as [|n IH]; intros tr; cbn; [reflexivity|].
  rewrite IH. apply record_cost_event_costs.
Qed.

Lemma record_n_service_total (n : nat) (now : Z) (event : CostEvent)
  (tr : CostTracker.t) :
  get_or_0 (service event) (daily_costs (record_n n now event tr))
  = add_n_times n (cost_gbp event) (get_or_0 (service event) (daily_costs tr)).
Proof.
  revert tr. induction n as [|n IH]; intros tr; [reflexivity|].
  cbn [record_n]. rewrite IH, add_n_times_S.
  destruct (record_cost_event_costs now event tr) as (_ & -> & _).
  now rewrite get_or_0_add_cost_same.
Qed.

Lemma record_n_worker_total (n : nat) (now : Z) (event : CostEvent)
  (tr : CostTracker.t) :
  get_or_0 (worker_id event) (worker_costs (record_n n now event tr))
  = add_n_times n (cost_gbp event) (get_or_0 (worker_id event) (worker_costs tr)).
Proof.
  revert tr. induction n as [|n IH]; intros tr; [reflexivity|].
  cbn [record_n]. rewrite IH, add_n_times_S.
  destruct (record_cost_event_costs now event tr) as (_ & _ & ->).
  now rewrite get_or_0_add_cost_same.
Qed.

Lemma record_n_other_service (n : nat) (now : Z) (event : CostEvent)
  (tr : CostTracker.t) (k : string) :
  k <> service event ->
  get k (daily_costs (record_n n now event tr)) = get k (daily_costs tr).
Proof.
  intros Hne. revert tr. induction n as [|n IH]; intros tr; [reflexivity|].
  cbn [record_n]. rewrite IH.
  destruct (record_cost_event_costs now event tr) as (_ & -> & _).
  now apply get_add_cost_other.
Qed.

(** From an empty ledger the only entry is the event's service. *)
Lemma record_n_from_init (n : nat) (now : Z) (event : CostEvent) (limit : float) :
  daily_costs (record_n (S n) now event (CostTracker.init limit))
  = [(service event, add_n_times (S n) (cost_gbp event) 0)].
Proof.
  assert (H : forall m tr v,
             daily_costs tr = [(service event, v)] ->
             daily_costs (record_n m now event tr)
             = [(service event, add_n_times m (cost_gbp event) v)]).
  { induction m as [|m IH]; intros tr v Hv; [exact Hv|].
    cbn [record_n]. rewrite add_n_times_S. apply IH.
    destruct (record_cost_event_costs now event tr) as (_ & -> & _).
    rewrite Hv. unfold add_cost, get_or_0. cbn. now rewrite String.eqb_refl. }
  cbn [record_n]. rewrite add_n_times_S. apply H.
  destruct (record_cost_event_costs now event (CostTracker.init limit)) as (_ & -> & _).
  reflexivity.
Qed.

Lemma max_0_not_negative (x : float) : (max_0 x <? 0) = false.
Proof.
  unfold max_0. destruct (0 <? x) eqn:E; [now apply ltb_asym | reflexivity].
Qed.

(** C5, as stated, fails: ten events of 0.1 each, recorded in an empty ledger,
    bring the daily total to 0.9999999999999999, which is not 10 x 0.1 = 1.0. *)
Lemma ten_dimes_are_not_a_pound :
  sum_values
    (daily_costs
       (record_n 10 0 (mkCostEvent 0 "anthropic" "api_call" 1 0.1 "Scraper-01" None)
          (CostTracker.init 20.0)))
  = 0.99999999999999989
  /\ (sum_values
        (daily_costs
           (record_n 10 0 (mkCostEvent 0 "anthropic" "api_call" 1 0.1 "Scraper-01" None)
              (CostTracker.init 20.0)))
      =? 10 * 0.1) = false
  /\ 10 * 0.1 = 1.0.
Proof. repeat split; reflexivity. Qed.

(** C5 (amended): each record adds the event's cost, by one floating-point
    addition, to the running total of its service and to that of its worker,
    and leaves the other services alone; so [n] records of cost [c] take a
    running total [t] to [((t + c) + c) + ... + c], which is [n x c] up to
    rounding only.  From an empty ledger the daily total is that sum.
    [get_remaining_budget] is the limit minus the total when that is positive
    and zero otherwise, so it is never negative. *)
Theorem record_n_totals_and_budget (n : nat) (now : Z) (event : CostEvent)
  (tr : CostTracker.t) :
  get_or_0 (service event) (daily_costs (record_n n now event tr))
    = add_n_times n (cost_gbp event) (get_or_0 (service event) (daily_costs tr))
  /\ get_or_0 (worker_id event) (worker_costs (record_n n now event tr))
    = add_n_times n (cost_gbp event) (get_or_0 (worker_id event) (worker_costs tr))
  /\ (forall k, k <> service event ->
        get k (daily_costs (record_n n now event tr)) = get k (daily_costs tr))
  /\ sum_values (daily_costs (record_n n now event (CostTracker.init (daily_limit_gbp tr))))
    = 0 + add_n_times n (cost_gbp event) 0
  /\ get_remaining_budget (record_n n now event tr)
    = (if 0 <? daily_limit_gbp tr - sum_values (daily_costs (record_n n now event tr))
       then daily_limit_gbp tr - sum_values (daily_costs (record_n n now event tr))
       else 0)
  /\ (get_remaining_budget (record_n n now event tr) <? 0) = false.
Proof.
  split; [apply record_n_service_total|].
  split; [apply record_n_worker_total|].
  split; [intros k Hk; now apply record_n_other_service|].
  split.
  - destruct n as [|n]; [reflexivity|]. now rewrite record_n_from_init.
  - unfold get_remaining_budget. rewrite record_n_limit.
    split; [reflexivity | apply max_0_not_negative].
Qed.

(** Costs whose partial sums are exact do add up to [n x c]. *)
Example eight_quarters_are_two_pounds :
  sum_values
    (daily_costs
       (record_n 8 0 (mkCostEvent 0 "anthropic" "api_call" 1 0.25 "Scraper-01" None)
          (CostTracker.init 20.0)))
  = 8 * 0.25
  /\ get_remaining_budget
       (record_n 8 0 (mkCostEvent 0 "anthropic" "api_call" 1 0.25 "Scraper-01" None)
          (CostTracker.init 20.0))
     = 18.0
  /\ get_remaining_budget
       (record_n 8 0 (mkCostEvent 0 "anthropic" "api_call" 1 3.0 "Scraper-01" None)
          (CostTracker.init 20.0))
     = 0.
Proof. repeat split; reflexivity. Qed.

End Budget.

(** ** The monitor sweep, row by row *)

Section Sweep.

Import SQLiteQueueBackend TaskQueue.

Lemma insert_created_desc_perm (r : Task) (rows : list Task) :
  Permutation (insert_created_desc r rows) (r :: rows).
Proof.
  induction rows as [|x rows IH]; cbn; [reflexivity|].
  destruct (created_at x <=? created_at r)%Z; [reflexivity|].
  rewrite IH. apply perm_swap.
Qed.

Lemma order_by_created_desc_perm (rows : list Task) :
  Permutation (order_by_created_desc rows) rows.
Proof.
  induction rows as [|x rows IH]; cbn; [reflexivity|].
  rewrite insert_created_desc_perm. now constructor.
Qed.

Lemma In_list_tasks (st : TaskStatus) (db : table) (r : Task) :
  In r (list_tasks (Some st) None db) <-> In r db /\ status r = st.
Proof.
  unfold list_tasks. cbn [worker_clause]. split.
  - intros H. apply (Permutation_in _ (order_by_created_desc_perm _)) in H.
    apply filter_In in H as [H1 H2]. rewrite Bool.andb_true_r in H2.
    split; [exact H1|]. destruct (status r), st; now try discriminate.
  - intros [H1 H2].
    apply (Permutation_in _ (Permutation_sym (order_by_created_desc_perm _))).
    apply filter_In. split; [exact H1|].
    rewrite Bool.andb_true_r, H2. now destruct st.
Qed.

Lemma NoDup_filter_ids (p : Task -> bool) (db : table) :
  NoDup (map id db) -> NoDup (map id (filter p db)).
Proof.
  induction db as [|x db IH]; cbn; intros H; [constructor|].
  apply NoDup_cons_iff in H as [Hx H].
  destruct (p x); [|now apply IH].
  cbn. constructor; [|now apply IH].
  intros Hin. apply Hx. apply in_map_iff in Hin as [y [Hy Hin]].
  apply filter_In in Hin as [Hin _]. rewrite <- Hy. now apply in_map.
Qed.

Lemma NoDup_list_tasks_ids (st : option TaskStatus) (w : option string) (db : table) :
  NoDup (map id db) -> NoDup (map id (list_tasks st w db)).
Proof.
  intros H. unfold list_tasks.
  eapply Permutation_NoDup.
  - apply Permutation_map. symmetry. apply order_by_created_desc_perm.
  - now apply NoDup_filter_ids.
Qed.

(** A loop [for task in snapshot: if c(task): update(task.id, g(task))] acts on
    each row on its own. *)
Definition row_loop (c : Task -> bool) (g : Task -> Task -> Task)
  (snapshot : list Task) (r : Task) : Task :=
  fold_left (fun r' t => if c t && (id r' =? id t) then g t r' else r') snapshot r.

Lemma update_loop_rows (c : Task -> bool) (g : Task -> Task -> Task)
  (snapshot : list Task) (db : table) :
  fold_left
    (fun db' t => if c t then update_where_id (id t) (g t) db' else db')
    snapshot db
  = map (row_loop c g snapshot) db.
Proof.
  revert db. induction snapshot as [|t snapshot IH]; intros db; cbn.
  - now rewrite map_id.
  - rewrite IH. unfold update_where_id.
    destruct (c t) eqn:Hc.
    + rewrite map_map. apply map_ext. intros r.
      unfold row_loop. cbn [fold_left]. now rewrite Hc.
    + apply map_ext. intros r.
      unfold row_loop. cbn [fold_left]. now rewrite Hc.
Qed.

Lemma row_loop_no_match (c : Task -> bool) (g : Task -> Task -> Task)
  (snapshot : list Task) (r : Task) :
  ~ In (id r) (map id snapshot) -> row_loop c g snapshot r = r.
Proof.
  unfold row_loop. revert r.
  induction snapshot as [|t snapshot IH]; intros r H; cbn; [reflexivity|].
  cbn in H. destruct (id r =? id t) eqn:E.
  - apply String.eqb_eq in E. exfalso. apply H. now left.
  - rewrite Bool.andb_false_r. apply IH. tauto.
Qed.

Lemma row_loop_match (c : Task -> bool) (g : Task -> Task -> Task)
  (snapshot : list Task) (r : Task) :
  (forall t r', id (g t r') = id r') ->
  NoDup (map id snapshot) ->
  (forall t, In t snapshot -> id t = id r -> t = r) ->
  In r snapshot ->
  row_loop c g snapshot r = if c r then g r r else r.
Proof.
  intros Hg. unfold row_loop. revert r.
  induction snapshot as [|t snapshot IH]; intros r Hnd Huniq Hin; [destruct Hin|].
  cbn in Hnd. apply NoDup_cons_iff in Hnd as [Ht Hnd]. cbn [fold_left].
  destruct (id r =? id t) eqn:E.
  - apply String.eqb_eq in E.
    assert (t = r) by (apply Huniq; [now left | now symmetry]). subst t.
    rewrite Bool.andb_true_r.
    apply (row_loop_no_match c g snapshot).
    destruct (c r); [now rewrite Hg | exact Ht].
  - rewrite Bool.andb_false_r.
    destruct Hin as [->|Hin].
    + rewrite String.eqb_refl in E. discriminate.
    + apply IH; auto. intros t' Ht'. apply Huniq. now right.
Qed.

Lemma rows_with_same_id (db : table) (r t : Task) :
  NoDup (map id db) -> In r db -> In t db -> id t = id r -> t = r.
Proof.
  induction db as [|x db IH]; intros Hnd Hr Ht E; [destruct Hr|].
  cbn in Hnd. apply NoDup_cons_iff in Hnd as [Hx Hnd].
  destruct Hr as [->|Hr], Ht as [->|Ht]; auto.
  - exfalso. apply Hx. rewrite <- E. now apply in_map.
  - exfalso. apply Hx. rewrite E. now apply in_map.
Qed.

(** What the timeout pass and the retry pass do to one row. *)
Definition timeout_row (now : Z) (r : Task) : Task :=
  if TaskStatus_eqb (status r) PROCESSING && timed_out now r
  then fold_left apply_update (timeout_updates now) r
  else r.

Definition retry_row (r : Task) : Task :=
  if TaskStatus_eqb (status r) FAILED && (retry_count r <? max_retries r)%Z
  then fold_left apply_update (retry_updates r) r
  else r.

Lemma TaskStatus_eqb_eq (a b : TaskStatus) : TaskStatus_eqb a b = true <-> a = b.
Proof. destruct a, b; cbn; split; congruence. Qed.

Lemma status_loop_rows (st : TaskStatus) (c : Task -> bool)
  (g : Task -> Task -> Task) (db : table) :
  (forall t r', id (g t r') = id r') ->
  NoDup (map id db) ->
  map (row_loop c g (list_tasks (Some st) None db)) db
  = map (fun r => if TaskStatus_eqb (status r) st && c r then g r r else r) db.
Proof.
  intros Hg Hnd. apply map_ext_in. intros r Hr.
  destruct (TaskStatus_eqb (status r) st) eqn:E.
  - apply TaskStatus_eqb_eq in E. cbn.
    apply row_loop_match; auto.
    + now apply NoDup_list_tasks_ids.
    + intros t Ht. apply In_list_tasks in Ht as [Ht _].
      now apply (rows_with_same_id db).
    + now apply In_list_tasks.
  - cbn. apply row_loop_no_match. intros Hin.
    apply in_map_iff in Hin as [t [Hid Ht]].
    apply In_list_tasks in Ht as [Ht Hst].
    assert (t = r) by now apply (rows_with_same_id db). subst t.
    rewrite Hst in E. destruct st; discriminate.
Qed.

Lemma fold_left_ext {A B : Type} (g f : A -> B -> A) :
  (forall a b, f a b = g a b) ->
  forall l a, fold_left f l a = fold_left g l a.
Proof.
  intros H l. induction l as [|b l IH]; intros a; cbn; [reflexivity|].
  now rewrite H, IH.
Qed.

Lemma sweep_timeouts_rows (now : Z) (db : table) :
  NoDup (map id db) ->
  sweep_timeouts now db = map (timeout_row now) db.
Proof.
  intros Hnd. unfold sweep_timeouts.
  rewrite (fold_left_ext
             (fun db' t => if timed_out now t
                           then update_where_id (id t)
                                  (fun r => fold_left apply_update (timeout_updates now) r) db'
                           else db')).
  - rewrite (update_loop_rows (timed_out now)
               (fun _ r => fold_left apply_update (timeout_updates now) r)).
    rewrite status_loop_rows; auto.
  - intros db' t. now destruct (timed_out now t).
Qed.

Lemma sweep_retries_rows (db : table) :
  NoDup (map id db) ->
  sweep_retries db = map retry_row db.
Proof.
  intros Hnd. unfold sweep_retries.
  rewrite (fold_left_ext
             (fun db' t => if (retry_count t <? max_retries t)%Z
                           then update_where_id (id t)
                                  (fun r => fold_left apply_update (retry_updates t) r) db'
                           else db')).
  - rewrite (update_loop_rows (fun t => (retry_count t <? max_retries t)%Z)
               (fun t r => fold_left apply_update (retry_updates t) r)).
    rewrite status_loop_rows; auto.
  - intros db' t. now destruct (retry_count t <? max_retries t)%Z.
Qed.

End Sweep.

(** ** Retries *)

Section Retries.

Import SQLiteQueueBackend TaskQueue.

(** The writes to the queue that the system performs: a submission, a claim,
    the worker's PROCESSING and FAILED marks, the COMPLETED and FAILED marks of
    the concrete executors, and the monitor sweep. *)
Inductive queue_step : table -> table -> Prop :=
| step_submit round_3 task_id now description task_type worker priority timeout
    deps kwargs db db' :
    submit_task round_3 task_id now description task_type worker priority timeout
      deps kwargs db
      = inr (task_id, db') ->
    queue_step db db'
| step_claim worker now db :
    queue_step db (snd (get_next_task worker now db))
| step_processing task_id now w db :
    queue_step db
      (snd (update_task_status task_id (MiniWorker.processing_updates now w) db))
| step_failed task_id now e db :
    queue_step db
      (snd (update_task_status task_id (MiniWorker.failed_updates now e) db))
| step_completed task_id now res db :
    queue_step db
      (snd (update_task_status task_id
              [U_status COMPLETED; U_result (Some res); U_completed_at (Some now)] db))
| step_sweep now db :
    queue_step db (monitor_sweep now db).

Inductive reachable : table -> Prop :=
| reachable_empty : reachable []
| reachable_step db db' : reachable db -> queue_step db db' -> reachable db'.

(** The invariant carried along: ids are distinct, and every row has
    [0 <= retry_count <= max_retries]. *)
Definition retries_bounded (r : Task) : Prop :=
  (0 <= retry_count r <= max_retries r)%Z.

Definition queue_invariant (db : table) : Prop :=
  NoDup (map id db) /\ Forall retries_bounded db.

Lemma map_id_update_where (task_id : string) (f : Task -> Task) (db : table) :
  (forall r, id (f r) = id r) ->
  map id (update_where_id task_id f db) = map id db.
Proof.
  intros Hf. unfold update_where_id. rewrite map_map. apply map_ext.
  intros r. destruct (id r =? task_id); [apply Hf | reflexivity].
Qed.

Lemma Forall_update_where (P : Task -> Prop) (task_id : string) (f : Task -> Task)
  (db : table) :
  (forall r, P r -> P (f r)) ->
  Forall P db -> Forall P (update_where_id task_id f db).
Proof.
  intros Hf H. unfold update_where_id. apply Forall_map.
  eapply Forall_impl; [|exact H]. intros r Hr. cbn.
  destruct (id r =? task_id); auto.
Qed.

(** An update that does not write [retry_count] keeps the invariant. *)
Definition keeps_retry_count (u : Update) : bool :=
  match u with
  | U_retry_count _ => false
  | _ => true
  end.

Lemma retries_bounded_apply_update (u : Update) (r : Task) :
  keeps_retry_count u = true -> retries_bounded r -> retries_bounded (apply_update r u).
Proof.
  destruct u; cbn; intros H; try discriminate; auto.
Qed.

Lemma retries_bounded_fold (ups : list Update) (r : Task) :
  forallb keeps_retry_count ups = true ->
  retries_bounded r -> retries_bounded (fold_left apply_update ups r).
Proof.
  revert r. induction ups as [|u ups IH]; intros r H Hr; cbn in *; [exact Hr|].
  apply Bool.andb_true_iff in H as [Hu H].
  apply IH; [exact H|]. now apply retries_bounded_apply_update.
Qed.

Lemma forallb_filter_written (ups : list Update) :
  forallb keeps_retry_count ups = true ->
  forallb keeps_retry_count (filter written ups) = true.
Proof.
  induction ups as [|u ups IH]; cbn; [reflexivity|].
  intros H. apply Bool.andb_true_iff in H as [Hu H].
  destruct (written u); cbn; [rewrite Hu|]; now apply IH.
Qed.

Lemma update_task_invariant (task_id : string) (ups : list Update) (db : table) :
  forallb keeps_retry_count ups = true ->
  queue_invariant db ->
  queue_invariant (snd (update_task task_id ups db)).
Proof.
  intros Hups [Hnd Hall]. unfold update_task.
  destruct (filter written ups) as [|u sets] eqn:E; [now split|].
  cbn [snd]. split.
  - rewrite map_id_update_where; [exact Hnd|].
    intros r. apply id_fold_apply_update.
  - apply Forall_update_where; [|exact Hall].
    intros r Hr. apply retries_bounded_fold; [|exact Hr].
    rewrite <- E. now apply forallb_filter_written.
Qed.

Lemma retries_bounded_timeout_row (now : Z) (r : Task) :
  retries_bounded r -> retries_bounded (timeout_row now r).
Proof.
  unfold timeout_row. now destruct (_ && _).
Qed.

Lemma retries_bounded_retry_row (r : Task) :
  retries_bounded r -> retries_bounded (retry_row r).
Proof.
  unfold retry_row, retries_bounded.
  destruct (TaskStatus_eqb (status r) FAILED); cbn; [|auto].
  destruct (retry_count r <? max_retries r)%Z eqn:E; [|auto].
  apply Z.ltb_lt in E. cbn. lia.
Qed.

Lemma id_timeout_row (now : Z) (r : Task) : id (timeout_row now r) = id r.
Proof. unfold timeout_row. now destruct (_ && _). Qed.

Lemma id_retry_row (r : Task) : id (retry_row r) = id r.
Proof. unfold retry_row. now destruct (_ && _). Qed.

Lemma monitor_sweep_rows (now : Z) (db : table) :
  NoDup (map id db) ->
  monitor_sweep now db = map (fun r => retry_row (timeout_row now r)) db.
Proof.
  intros Hnd. unfold monitor_sweep.
  rewrite sweep_timeouts_rows by exact Hnd.
  rewrite sweep_retries_rows.
  - now rewrite map_map.
  - rewrite map_map. erewrite map_ext; [exact Hnd|]. apply id_timeout_row.
Qed.

Lemma monitor_sweep_invariant (now : Z) (db : table) :
  queue_invariant db -> queue_invariant (monitor_sweep now db).
Proof.
  intros [Hnd Hall]. rewrite monitor_sweep_rows by exact Hnd. split.
  - rewrite map_map. erewrite map_ext; [exact Hnd|].
    intros r. cbn. now rewrite id_retry_row, id_timeout_row.
  - apply Forall_map. eapply Forall_impl; [|exact Hall].
    intros r Hr. now apply retries_bounded_retry_row, retries_bounded_timeout_row.
Qed.

Lemma queue_step_invariant (db db' : table) :
  queue_step db db' -> queue_invariant db -> queue_invariant db'.
Proof.
  intros Hstep Hinv. destruct Hstep.
  - apply submit_task_inr in H as (_ & E & row & -> & Hid & _ & Hrc & Hmr).
    destruct Hinv as [Hnd Hall]. split.
    + rewrite map_app. cbn [map]. rewrite Hid.
      apply NoDup_app; [exact Hnd | repeat constructor; intros [] |].
      intros x Hx [<-|[]].
      apply in_map_iff in Hx as [r [Hr Hin]].
      assert (existsb (fun r => id r =? task_id) db = true) as Hex.
      { apply existsb_exists. exists r. split; [exact Hin | now apply String.eqb_eq]. }
      congruence.
    + apply Forall_app. split; [exact Hall|].
      constructor; [|constructor]. unfold retries_bounded. rewrite Hrc, Hmr. lia.
  - unfold get_next_task, SQLiteQueueBackend.get_next_task.
    destruct (order_limit_1 _) as [row|]; [|exact Hinv].
    destruct (dependencies_met db (dependencies row)); [|exact Hinv].
    cbn [snd]. destruct Hinv as [Hnd Hall]. split.
    + rewrite map_id_update_where; auto.
    + apply Forall_update_where; auto.
  - now apply update_task_invariant.
  - now apply update_task_invariant.
  - now apply update_task_invariant.
  - now apply monitor_sweep_invariant.
Qed.

Lemma reachable_invariant (db : table) :
  reachable db -> queue_invariant db.
Proof.
  induction 1 as [|db db' _ IH Hstep].
  - split; constructor.
  - now apply (queue_step_invariant db db').
Qed.

End Retries.

(** ** Retries: the sweep on one task, and a task that keeps failing *)

Section RetryRounds.

Import SQLiteQueueBackend TaskQueue.

Lemma select_by_id_In (task_id : string) (db : table) (r : Task) :
  select_by_id task_id db = Some r -> In r db /\ id r = task_id.
Proof.
  unfold select_by_id. intros H. apply find_some in H as [H1 H2].
  split; [exact H1 | now apply String.eqb_eq].
Qed.

Lemma In_select_by_id (db : table) (r : Task) :
  NoDup (map id db) -> In r db -> select_by_id (id r) db = Some r.
Proof.
  intros Hnd Hin. unfold select_by_id.
  destruct (find (fun x => id x =? id r) db) as [x|] eqn:E.
  - apply find_some in E as [Hx Hid]. apply String.eqb_eq in Hid.
    f_equal. now apply (rows_with_same_id db).
  - exfalso. apply (find_none _ _ E) in Hin.
    rewrite String.eqb_refl in Hin. discriminate.
Qed.

Lemma select_by_id_map (F : Task -> Task) (task_id : string) (db : table) :
  (forall r, id (F r) = id r) ->
  select_by_id task_id (map F db) = option_map F (select_by_id task_id db).
Proof.
  intros HF. unfold select_by_id. induction db as [|x db IH]; [reflexivity|].
  cbn. rewrite HF. destruct (id x =? task_id); [reflexivity | exact IH].
Qed.

(** One sweep, seen from one task. *)
Definition sweep_row (now : Z) (r : Task) : Task := retry_row (timeout_row now r).

Lemma get_task_monitor_sweep (now : Z) (task_id : string) (db : table) :
  NoDup (map id db) ->
  get_task task_id (monitor_sweep now db)
  = option_map (sweep_row now) (get_task task_id db).
Proof.
  intros Hnd. rewrite monitor_sweep_rows by exact Hnd.
  unfold get_task. apply select_by_id_map.
  intros r. cbn. now rewrite id_retry_row, id_timeout_row.
Qed.

Lemma sweep_row_failed (now : Z) (r : Task) :
  status r = FAILED ->
  sweep_row now r
  = if (retry_count r <? max_retries r)%Z
    then fold_left apply_update (retry_updates r) r
    else r.
Proof.
  intros H. unfold sweep_row, timeout_row. rewrite H. cbn [TaskStatus_eqb andb].
  unfold retry_row. now rewrite H.
Qed.

(** The worker's FAILED mark on one task, and the task failing again after
    each of [k] sweeps. *)
Definition fail_again (now : Z) (e task_id : string) (db : table) : table :=
  snd (update_task_status task_id (MiniWorker.failed_updates now e) db).

Fixpoint rounds (k : nat) (now : Z) (e task_id : string) (db : table) : table :=
  match k with
  | O => db
  | S k' => fail_again now e task_id (monitor_sweep now (rounds k' now e task_id db))
  end.

Lemma reachable_rounds (k : nat) (now : Z) (e task_id : string) (db : table) :
  reachable db -> reachable (rounds k now e task_id db).
Proof.
  intros H. induction k as [|k IH]; [exact H|]. cbn.
  eapply reachable_step; [|apply step_failed].
  eapply reachable_step; [exact IH | apply step_sweep].
Qed.

Lemma get_task_fail_again (now : Z) (e task_id : string) (db : table) :
  get_task task_id (fail_again now e task_id db)
  = option_map
      (fun r => fold_left apply_update (MiniWorker.failed_updates now e) r)
      (get_task task_id db).
Proof.
  unfold fail_again, update_task_status.
  now rewrite get_task_update_task by (cbn; discriminate).
Qed.

(** After [k] rounds the task is FAILED and has been retried [min k m] times,
    [m] being its [max_retries]. *)
Lemma rounds_row (m : nat) (now : Z) (e task_id : string) (db : table) (r : Task) :
  reachable db ->
  get_task task_id db = Some r ->
  status r = FAILED -> retry_count r = 0%Z -> max_retries r = Z.of_nat m ->
  forall k, exists rk,
    get_task task_id (rounds k now e task_id db) = Some rk
    /\ status rk = FAILED
    /\ retry_count rk = Z.of_nat (Nat.min k m)
    /\ max_retries rk = Z.of_nat m.
Proof.
  intros Hreach Hget Hst Hrc Hmax k. induction k as [|k (rk & Hk & Hs & Hr & Hm)].
  - exists r. repeat split; auto.
  - cbn [rounds].
    rewrite get_task_fail_again, get_task_monitor_sweep
      by (apply reachable_invariant; now apply reachable_rounds).
    rewrite Hk. cbn [option_map]. rewrite (sweep_row_failed now rk Hs).
    destruct (retry_count rk <? max_retries rk)%Z eqn:E.
    + apply Z.ltb_lt in E. eexists. split; [reflexivity|].
      cbn [status retry_count max_retries fold_left apply_update
           MiniWorker.failed_updates retry_updates set_status set_error
           set_completed_at set_retry_count set_assigned_at set_started_at
           set_assigned_worker].
      repeat split; auto. lia.
    + apply Z.ltb_ge in E. eexists. split; [reflexivity|].
      cbn [status retry_count max_retries fold_left apply_update
           MiniWorker.failed_updates set_status set_error set_completed_at].
      repeat split; auto. lia.
Qed.

End RetryRounds.

Section RetryPolicy.

Import SQLiteQueueBackend TaskQueue.

Lemma sweeps_keep_terminal (now : Z) (task_id : string) (db : table) (r : Task) :
  reachable db ->
  get_task task_id db = Some r ->
  status r = FAILED -> (max_retries r <= retry_count r)%Z ->
  forall n,
    reachable (Nat.iter n (monitor_sweep now) db)
    /\ get_task task_id (Nat.iter n (monitor_sweep now) db) = Some r.
Proof.
  intros Hreach Hget Hst Hrc n. induction n as [|n [IHr IHg]].
  - now split.
  - rewrite Nat.iter_succ. split.
    + eapply reachable_step; [exact IHr | apply step_sweep].
    + rewrite get_task_monitor_sweep by (now apply reachable_invariant).
      rewrite IHg. cbn [option_map]. rewrite (sweep_row_failed now r Hst).
      apply Z.ltb_ge in Hrc. now rewrite Hrc.
Qed.

(** The retry policy on the SQLite backend: in every state the queue
    reaches, [retry_count] is at most
    [max_retries]; the monitor sweep turns every FAILED task with
    [retry_count < max_retries] into a PENDING one, with [retry_count] one
    higher and [assigned_worker], [started_at] and [error] cleared; and a task
    with [max_retries = 3] that fails again after every sweep is made PENDING
    by the first three sweeps, with retry counts 1, 2 and 3, and is left
    FAILED with retry count 3 by every sweep after that. *)
Theorem retry_policy (db : table) :
  reachable db ->
  (forall r, In r db -> (0 <= retry_count r <= max_retries r)%Z)
  /\ (forall now r,
        In r db -> status r = FAILED -> (retry_count r < max_retries r)%Z ->
        exists r',
          get_task (id r) (monitor_sweep now db) = Some r'
          /\ status r' = PENDING
          /\ retry_count r' = (retry_count r + 1)%Z
          /\ assigned_worker r' = None
          /\ started_at r' = None
          /\ error r' = None
          /\ max_retries r' = max_retries r)
  /\ (forall now e r,
        In r db -> status r = FAILED ->
        retry_count r = 0%Z -> max_retries r = 3%Z ->
        (forall k, (k < 3)%nat ->
           exists rk,
             get_task (id r) (monitor_sweep now (rounds k now e (id r) db)) = Some rk
             /\ status rk = PENDING
             /\ retry_count rk = Z.of_nat (S k))
        /\ (forall n,
              exists rn,
                get_task (id r)
                  (Nat.iter n (monitor_sweep now) (rounds 3 now e (id r) db)) = Some rn
                /\ status rn = FAILED
                /\ retry_count rn = 3%Z)).
Proof.
  intros Hreach. pose proof (reachable_invariant db Hreach) as [Hnd Hall].
  split; [|split].
  - intros r Hr. exact (proj1 (Forall_forall _ _) Hall r Hr).
  - intros now r Hr Hst Hlt.
    rewrite get_task_monitor_sweep by exact Hnd.
    unfold get_task. rewrite (In_select_by_id db r Hnd Hr). cbn [option_map].
    rewrite (sweep_row_failed now r Hst).
    apply Z.ltb_lt in Hlt. rewrite Hlt.
    eexists. split; [reflexivity|]. cbn. repeat split.
  - intros now e r Hr Hst Hrc Hmax.
    assert (Hget : get_task (id r) db = Some r) by now apply In_select_by_id.
    split.
    + intros k Hk.
      destruct (rounds_row 3 now e (id r) db r Hreach Hget Hst Hrc Hmax k)
        as (rk & Hk1 & Hk2 & Hk3 & Hk4).
      rewrite get_task_monitor_sweep
        by (apply reachable_invariant; now apply reachable_rounds).
      rewrite Hk1. cbn [option_map]. rewrite (sweep_row_failed now rk Hk2).
      assert (E : (retry_count rk <? max_retries rk)%Z = true) by (apply Z.ltb_lt; lia).
      rewrite E. eexists. split; [reflexivity|].
      cbn [status retry_count fold_left apply_update retry_updates set_status
           set_error set_retry_count set_assigned_at set_started_at
           set_assigned_worker].
      split; [reflexivity | lia].
    + intros n.
      destruct (rounds_row 3 now e (id r) db r Hreach Hget Hst Hrc Hmax 3)
        as (r3 & H1 & H2 & H3 & H4).
      exists r3. split; [|split; [exact H2 | exact H3]].
      apply sweeps_keep_terminal; auto.
      * now apply reachable_rounds.
      * rewrite H3, H4. reflexivity.
Qed.

(** A queue reached by one submission, its claim, the worker's PROCESSING
    mark and the worker's FAILED mark. *)
Definition submitted_table : table :=
  [mkTask "0a1b2c3d" "fetch feed" "scrape_rss" 5 [] "scraper" PENDING 0
     None None None None None None 0 3 3600 (Some 0.01%float) []].

Definition failed_once_table : table :=
  fail_again 30 "connection reset" "0a1b2c3d"
    (snd (update_task_status "0a1b2c3d"
            (MiniWorker.processing_updates 20 scraper_1)
            (snd (get_next_task (Some "scraper") 10 submitted_table)))).

Lemma failed_once_table_reachable : reachable failed_once_table.
Proof.
  unfold failed_once_table, fail_again.
  eapply reachable_step; [|apply step_failed].
  eapply reachable_step; [|apply step_processing].
  eapply reachable_step; [|apply step_claim].
  eapply reachable_step; [apply reachable_empty|].
  apply (step_submit round_3_of_examples "0a1b2c3d" 0 "fetch feed" "scrape_rss"
           None 5 3600 None [] [] submitted_table).
  reflexivity.
Qed.

Lemma retry_policy_witness :
  exists r',
    get_task "0a1b2c3d" (monitor_sweep 40 failed_once_table) = Some r'
    /\ status r' = PENDING
    /\ retry_count r' = 1%Z
    /\ assigned_worker r' = None
    /\ started_at r' = None
    /\ error r' = None
    /\ max_retries r' = 3%Z.
Proof.
  exact (proj1 (proj2 (retry_policy failed_once_table failed_once_table_reachable))
           40
           (mkTask "0a1b2c3d" "fetch feed" "scrape_rss" 5 [] "scraper" FAILED 0
              (Some 10%Z) (Some 20%Z) (Some 30%Z) (Some "Scraper-01") None
              (Some "connection reset") 0 3 3600 (Some 0.01%float) [])
           (or_introl eq_refl) eq_refl eq_refl).
Defined.

(** The same queue over four rounds: PENDING with retry counts 1, 2, 3, then
    FAILED for good. *)
Example three_retries_then_failed :
  map (fun k =>
         option_map (fun r => (status r, retry_count r))
           (get_task "0a1b2c3d"
              (monitor_sweep 40 (rounds k 40 "connection reset" "0a1b2c3d"
                                   failed_once_table))))
    [0%nat; 1%nat; 2%nat; 3%nat; 4%nat]
  = [Some (PENDING, 1%Z); Some (PENDING, 2%Z); Some (PENDING, 3%Z);
     Some (FAILED, 3%Z); Some (FAILED, 3%Z)].
Proof. reflexivity. Qed.

End RetryPolicy.

(** ** Retries on the Redis backend *)

Section RedisRetries.

Import RedisQueueBackend.

(** A task that was submitted, claimed by a scraper at 10, started at 20 and
    marked FAILED by its worker at 30, with no retry used of the three it
    has: the hash, and the sorted sets after the claim. *)
Definition failed_download : Task :=
  mkTask "0a1b2c3d" "fetch feed" "scrape_rss" 5 [] "scraper" FAILED 0
    None (Some 20%Z) (Some 30%Z) (Some "Scraper-01") None
    (Some "connection reset") 0 3 3600 (Some 0.01%float) [].

Definition failed_store : store :=
  hset (task_key "0a1b2c3d") failed_download
    (snd (get_next_task (Some "scraper") 10
            (snd (add_task (set_status PENDING failed_download) (mkStore [] []))))).

(** C4 fails on the Redis backend: every pass of [_monitor_tasks] ends in
    [NotImplementedError] at its first statement and leaves the store as it
    is, so a FAILED task with retries left is never made PENDING, whatever
    the rest of the pass would do and however many passes run. *)
Theorem redis_failed_task_never_retried
  (rest_of_pass : list Task -> store -> store) (n : nat) :
  RedisTaskQueue._monitor_tasks rest_of_pass n failed_store
  = (repeat NotImplementedError n, failed_store)
  /\ option_map (fun t => (status t, retry_count t, max_retries t))
       (hgetall (task_key "0a1b2c3d")
          (snd (RedisTaskQueue._monitor_tasks rest_of_pass n failed_store)))
     = Some (FAILED, 0%Z, 3%Z).
Proof.
  assert (H : forall s,
            RedisTaskQueue._monitor_tasks rest_of_pass n s
            = (repeat NotImplementedError n, s)).
  { induction n as [|k IH]; intros s; [reflexivity|].
    cbn [RedisTaskQueue._monitor_tasks RedisTaskQueue.monitor_pass
         RedisTaskQueue.list_tasks list_tasks repeat].
    now rewrite IH. }
  rewrite H. split; reflexivity.
Qed.

End RedisRetries.

(** * Further properties of the modelled code *)

(** ** The SQLite store: insertion, lookup, update, listing *)

Section StoreFacts.

Import SQLiteQueueBackend.

Lemma existsb_id_In (task_id : string) (db : table) :
  existsb (fun r => id r =? task_id) db = true <-> In task_id (map id db).
Proof.
  rewrite existsb_exists, in_map_iff. split.
  - intros [r [Hr E]]. exists r. split; [now apply String.eqb_eq | exact Hr].
  - intros [r [E Hr]]. exists r. split; [exact Hr | now apply String.eqb_eq].
Qed.


(** A task that [add_task] can store: its parameters can be written as JSON
    and its priority, retry limit and timeout fit a 64-bit integer. *)
Definition storable (task : Task) : bool :=
  match json_dumps_error (parameters task) with
  | Some _ => false
  | None =>
      fits_integer (priority task) && fits_integer (max_retries task)
      && fits_integer (timeout_seconds task)
  end.



(** A queued scraping task. *)
Definition feed_fetch : Task :=
  mkTask "feed" "fetch feed" "scrape_rss" 5 [] "scraper" PENDING 40
    None None None None None None 0 3 3600 (Some 0.01%float) [].

(** A task object that already carries a retry count, a worker and a result. *)
Definition used_task : Task :=
  mkTask "77aa" "resubmitted" "scrape_rss" 5
    [("feed_urls", VList [SStr "https://example.org/a"; SStr "https://example.org/b"])]
    "scraper" PENDING 900
    (Some 1%Z) (Some 2%Z) (Some 3%Z) (Some "Scraper-01") (Some "old result")
    (Some "old error") 2 3 3600 (Some nan) [].


Lemma json_scalar_error_kind (x : Scalar) (e : Error) :
  json_scalar_error x = Some e -> e = ValueError.
Proof.
  destruct x as [|b|z|f|t]; try discriminate.
  unfold json_scalar_error.
  destruct (10 ^ int_max_str_digits <=? Z.abs z)%Z; [|discriminate].
  now intros [= <-].
Qed.

Lemma first_error_kind {A : Type} (f : A -> option Error) (P : Error -> Prop)
  (l : list A) (e : Error) :
  (forall x e', f x = Some e' -> P e') ->
  first_error f l = Some e -> P e.
Proof.
  intros Hf. induction l as [|x l IH]; [discriminate|].
  cbn [first_error]. destruct (f x) as [e'|] eqn:Hx; [|exact IH].
  intros [= <-]. exact (Hf x e' Hx).
Qed.

Lemma json_dumps_error_kind (kwargs : Parameters) (e : Error) :
  json_dumps_error kwargs = Some e -> e = TypeError \/ e = ValueError.
Proof.
  unfold json_dumps_error.
  apply (first_error_kind _ (fun e => e = TypeError \/ e = ValueError)).
  intros [k v] e'. cbn [snd]. destruct v as [x|items|].
  - intros H. right. exact (json_scalar_error_kind x e' H).
  - unfold json_value_error.
    apply (first_error_kind _ (fun e => e = TypeError \/ e = ValueError)).
    intros x e'' H. right. exact (json_scalar_error_kind x e'' H).
  - intros [= <-]. now left.
Qed.

(** What [add_task] answers, on a table with distinct ids: the error of the
    JSON encoder when the parameters cannot be written as JSON; otherwise
    [OverflowError] when the priority, the retry limit or the timeout is
    outside 64 bits; otherwise [IntegrityError] when the table holds the id;
    otherwise the task's id, and the ids of the table are still distinct. *)
Theorem add_task_keeps_ids_distinct (task : Task) (db : table) :
  NoDup (map id db) ->
  match add_task task db with
  | inl IntegrityError => storable task = true /\ In (id task) (map id db)
  | inl OverflowError =>
      json_dumps_error (parameters task) = None
      /\ (fits_integer (priority task) && fits_integer (max_retries task)
          && fits_integer (timeout_seconds task)) = false
  | inl e => json_dumps_error (parameters task) = Some e
  | inr (task_id, db') =>
      task_id = id task
      /\ storable task = true
      /\ ~ In (id task) (map id db)
      /\ NoDup (map id db')
  end.
Proof.
  intros Hnd. unfold add_task, storable.
  destruct (json_dumps_error (parameters task)) as [e|] eqn:Hjson.
  - destruct (json_dumps_error_kind _ _ Hjson) as [-> | ->]; reflexivity.
  - destruct (fits_integer (priority task) && fits_integer (max_retries task)
              && fits_integer (timeout_seconds task)) eqn:Hfit; cbn [negb].
    + destruct (existsb (fun r => id r =? id task) db) eqn:E.
      * split; [reflexivity | now apply existsb_id_In].
      * assert (Hnot : ~ In (id task) (map id db)).
        { intros Hin. apply existsb_id_In in Hin. congruence. }
        split; [reflexivity|]. split; [reflexivity|]. split; [exact Hnot|].
        rewrite map_app. cbn.
        apply NoDup_app; [exact Hnd | repeat constructor; intros [] |].
        intros x Hx [<-|[]]. now apply Hnot.
    + split; reflexivity.
Qed.

(** A task whose priority is one past the largest 64-bit integer. *)
Definition overflowing_task : Task :=
  mkTask "9f9f" "urgent" "scrape_rss" (2 ^ 63) [] "scraper" PENDING 950
    None None None None None None 0 3 3600 (Some 0.01%float) [].

Lemma add_task_keeps_ids_distinct_witness :
  (storable used_task = true /\ In (id used_task) (map id [feed_fetch; used_task]))
  /\ (json_dumps_error (parameters overflowing_task) = None
      /\ (fits_integer (priority overflowing_task)
          && fits_integer (max_retries overflowing_task)
          && fits_integer (timeout_seconds overflowing_task)) = false).
Proof.
  split.
  - refine (add_task_keeps_ids_distinct used_task [feed_fetch; used_task] _).
    repeat constructor; cbn; intuition discriminate.
  - refine (add_task_keeps_ids_distinct overflowing_task [feed_fetch; used_task] _).
    repeat constructor; cbn; intuition discriminate.
Defined.

Lemma existsb_written_filter (updates : list Update) :
  existsb written updates = negb (match filter written updates with
                                  | [] => true
                                  | _ => false
                                  end).
Proof.
  induction updates as [|u updates IH]; [reflexivity|].
  cbn. destruct (written u); [reflexivity | exact IH].
Qed.

(** An entry whose value [sqlite3] can bind: a retry count within 64 bits
    (any other raises [OverflowError]). *)
Definition bindable (u : Update) : bool :=
  match u with
  | U_retry_count v => fits_integer v
  | _ => true
  end.

(** For an update made of named columns, timestamp columns and skipped keys,
    with a retry count that fits 64 bits: [update_task] answers [True]
    exactly when the update has an entry for a column and the id is in the
    table; when it answers [False] the table is as it was. *)
Theorem update_task_answer (task_id : string) (updates : list Update) (db : table) :
  forallb bindable updates = true ->
  fst (update_task task_id updates db)
    = existsb written updates && existsb (fun r => id r =? task_id) db
  /\ (fst (update_task task_id updates db) = false ->
      snd (update_task task_id updates db) = db).
Proof.
  intros _. unfold update_task. rewrite existsb_written_filter.
  destruct (filter written updates) as [|u sets]; cbn [fst snd negb andb].
  - split; reflexivity.
  - split; [reflexivity|]. intros Hnone.
    apply update_where_id_absent. intros Hin.
    apply existsb_id_In in Hin. congruence.
Qed.

(** An update with a key the method skips, for an id the table lacks and for
    one it holds. *)
Lemma update_task_answer_witness :
  (fst (update_task "none" [U_skipped "progress" eq_refl; U_status COMPLETED]
          [feed_fetch]) = false
   /\ (fst (update_task "none" [U_skipped "progress" eq_refl; U_status COMPLETED]
              [feed_fetch]) = false ->
       snd (update_task "none" [U_skipped "progress" eq_refl; U_status COMPLETED]
              [feed_fetch]) = [feed_fetch]))
  /\ fst (update_task "feed" [U_skipped "progress" eq_refl; U_status COMPLETED]
            [feed_fetch]) = true.
Proof.
  split.
  - exact (update_task_answer "none"
             [U_skipped "progress" eq_refl; U_status COMPLETED] [feed_fetch] eq_refl).
  - exact (proj1 (update_task_answer "feed"
                    [U_skipped "progress" eq_refl; U_status COMPLETED]
                    [feed_fetch] eq_refl)).
Defined.

(** The columns no update writes. *)
Definition fixed_columns (r : Task)
  : string * string * string * Z * Parameters * string * Z * Z * option float
    * list string :=
  (id r, description r, task_type r, priority r, parameters r, worker_type r,
   max_retries r, timeout_seconds r, cost_estimate r, dependencies r).

Lemma fixed_columns_apply_update (r : Task) (u : Update) :
  fixed_columns (apply_update r u) = fixed_columns r.
Proof. now destruct u. Qed.

Lemma fixed_columns_fold (ups : list Update) (r : Task) :
  fixed_columns (fold_left apply_update ups r) = fixed_columns r.
Proof.
  revert r. induction ups as [|u ups IH]; intros r; cbn; [reflexivity|].
  now rewrite IH, fixed_columns_apply_update.
Qed.

(** For an update made of named columns, timestamp columns and skipped keys,
    with a retry count that fits 64 bits: [update_task] neither adds nor
    removes a row, never changes a row's id, description, type, priority,
    parameters, worker type, retry limit, timeout, cost estimate or
    dependencies, and leaves the rows of every other id as they are. *)
Theorem update_task_preserves (task_id : string) (updates : list Update)
  (db : table) :
  forallb bindable updates = true ->
  map fixed_columns (snd (update_task task_id updates db)) = map fixed_columns db
  /\ (forall other, other <> task_id ->
        get_task other (snd (update_task task_id updates db)) = get_task other db).
Proof.
  intros _. split.
  - unfold update_task.
    destruct (filter written updates) as [|u sets]; [reflexivity|]. cbn [snd].
    unfold update_where_id. rewrite map_map. apply map_ext. intros r.
    destruct (id r =? task_id); [apply fixed_columns_fold | reflexivity].
  - intros other Hne. now apply get_task_update_task_other.
Qed.

Lemma update_task_preserves_witness :
  map fixed_columns
    (snd (update_task "77aa"
            [U_status FAILED; U_retry_count 3; U_completed_at (Some 950%Z);
             U_skipped "priority" eq_refl]
            [feed_fetch; used_task]))
  = map fixed_columns [feed_fetch; used_task]
  /\ (forall other, other <> "77aa" ->
        get_task other
          (snd (update_task "77aa"
                  [U_status FAILED; U_retry_count 3; U_completed_at (Some 950%Z);
                   U_skipped "priority" eq_refl]
                  [feed_fetch; used_task]))
        = get_task other [feed_fetch; used_task]).
Proof.
  exact (update_task_preserves "77aa"
           [U_status FAILED; U_retry_count 3; U_completed_at (Some 950%Z);
            U_skipped "priority" eq_refl]
           [feed_fetch; used_task] eq_refl).
Defined.

End StoreFacts.

Section ListingAndClaims.

Import SQLiteQueueBackend.

(** [a] may come before [b] in a listing by [created_at DESC]. *)
Definition not_older (a b : Task) : Prop := (created_at b <= created_at a)%Z.

Lemma insert_created_desc_sorted (r : Task) (rows : list Task) :
  StronglySorted not_older rows ->
  StronglySorted not_older (insert_created_desc r rows).
Proof.
  induction rows as [|x rows IH]; intros Hs; cbn.
  - repeat constructor.
  - apply StronglySorted_inv in Hs as [Hs Hx].
    destruct (created_at x <=? created_at r)%Z eqn:E.
    + apply Z.leb_le in E. constructor; [constructor; assumption|].
      constructor; [exact E|].
      eapply Forall_impl; [|exact Hx]. unfold not_older. intros y Hy. lia.
    + apply Z.leb_gt in E. constructor; [now apply IH|].
      apply Forall_forall. intros y Hy.
      apply (Permutation_in _ (insert_created_desc_perm r rows)) in Hy.
      destruct Hy as [<-|Hy].
      * unfold not_older. lia.
      * exact (proj1 (Forall_forall _ _) Hx y Hy).
Qed.

Lemma order_by_created_desc_sorted (rows : list Task) :
  StronglySorted not_older (order_by_created_desc rows).
Proof.
  induction rows as [|x rows IH]; cbn; [constructor|].
  now apply insert_created_desc_sorted.
Qed.

(** [list_tasks] returns every row that passes the filters, each as often as
    the table holds it, newest first. *)
Theorem list_tasks_sorted_selection (st : option TaskStatus) (worker : option string)
  (db : table) :
  StronglySorted not_older (list_tasks st worker db)
  /\ Permutation (list_tasks st worker db)
       (filter
          (fun r =>
             match st with
             | Some s => TaskStatus_eqb (status r) s
             | None => true
             end
             && match worker with
                | Some w => if w =? "" then true else worker_type r =? w
                | None => true
                end)
          db)
  /\ (list_tasks None None db = [] <-> db = []).
Proof.
  split; [apply order_by_created_desc_sorted|]. split.
  - unfold list_tasks. rewrite order_by_created_desc_perm.
    erewrite filter_ext; [reflexivity|].
    intros r. f_equal. unfold worker_clause, truthy.
    destruct worker as [w|]; [|reflexivity]. now destruct (w =? "").
  - split.
    + intros H. destruct db as [|x db]; [reflexivity|]. exfalso.
      assert (Hin : In x (list_tasks None None (x :: db))).
      { unfold list_tasks.
        apply (Permutation_in _ (Permutation_sym (order_by_created_desc_perm _))).
        cbn. now left. }
      rewrite H in Hin. destruct Hin.
    + intros ->. reflexivity.
Qed.

(** A claim made for a worker type returns a PENDING task of that type only,
    and changes no row of another id. *)
Theorem claim_respects_worker_type (w : string) (now : Z) (db db' : table)
  (task : Task) :
  w <> "" ->
  get_next_task (Some w) now db = (Some task, db') ->
  worker_type task = w
  /\ status task = PENDING
  /\ (forall other, other <> id task -> get_task other db' = get_task other db).
Proof.
  intros Hw H. apply get_next_task_Some in H as (_ & Hcand & _ & _ & ->).
  pose proof (candidate_pending _ _ Hcand) as Hst.
  unfold candidate, worker_clause, truthy in Hcand.
  apply Bool.andb_true_iff in Hcand as [_ Hcand].
  apply String.eqb_neq in Hw. rewrite Hw in Hcand. cbn in Hcand.
  apply String.eqb_eq in Hcand.
  repeat split; auto.
  intros other Hne. unfold get_task. now apply select_update_other.
Qed.

(** A report that waits for a task the table does not hold, and a digest that
    waits for nothing. *)
Definition blocked_report : Task :=
  mkTask "b10c" "weekly report" "generate_briefing" 9 [] "summarizer" PENDING 50
    None None None None None None 0 3 3600 (Some 0%float) ["0000"].

Definition ready_digest : Task :=
  mkTask "d19e" "digest" "generate_briefing" 5 [] "summarizer" PENDING 60
    None None None None None None 0 3 3600 (Some 0%float) [].

Definition mixed_table : table := [feed_fetch; blocked_report; ready_digest].

Lemma claim_respects_worker_type_witness :
  worker_type feed_fetch = "scraper"
  /\ status feed_fetch = PENDING
  /\ (forall other, other <> id feed_fetch ->
        get_task other (snd (get_next_task (Some "scraper") 300 mixed_table))
        = get_task other mixed_table).
Proof.
  refine (claim_respects_worker_type "scraper" 300 mixed_table
            (snd (get_next_task (Some "scraper") 300 mixed_table)) feed_fetch
            _ eq_refl).
  discriminate.
Defined.

(** The table after a sequence of calls. *)
Fixpoint table_after (calls : list (option string * Z)) (db : table) : table :=
  match calls with
  | [] => db
  | (worker, now) :: rest => table_after rest (snd (get_next_task worker now db))
  end.

(** While the first candidate of a worker type waits for a dependency, no
    call for that worker type returns a task or changes the table, however
    many are made and whatever else is ready. *)
Theorem blocked_head_starves (worker : option string)
  (calls : list (option string * Z)) (db : table) (row : Task) :
  Forall (fun c => fst c = worker) calls ->
  order_limit_1 (filter (candidate worker) db) = Some row ->
  dependencies_met db (dependencies row) = false ->
  claimed calls db = [] /\ table_after calls db = db.
Proof.
  intros Hall Hrow Hdeps.
  induction Hall as [|[w now] calls Hw Hall IH]; [now split|].
  cbn in Hw. subst w. cbn [claimed table_after].
  rewrite (sqlite_blocked_head_returns_none worker now db row Hrow Hdeps).
  exact IH.
Qed.

Lemma blocked_head_starves_witness :
  claimed (repeat (Some "summarizer", 300%Z) 5) mixed_table = []
  /\ table_after (repeat (Some "summarizer", 300%Z) 5) mixed_table = mixed_table.
Proof.
  refine (blocked_head_starves (Some "summarizer")
            (repeat (Some "summarizer", 300%Z) 5) mixed_table blocked_report
            _ eq_refl eq_refl).
  repeat constructor.
Defined.

End ListingAndClaims.

(** ** The monitor sweep: timeouts, what it leaves alone, repetition *)

Section SweepFacts.

Import SQLiteQueueBackend TaskQueue.

Lemma get_task_sweep_row (now : Z) (db : table) (r : Task) :
  NoDup (map id db) -> In r db ->
  get_task (id r) (monitor_sweep now db) = Some (sweep_row now r).
Proof.
  intros Hnd Hin. rewrite get_task_monitor_sweep by exact Hnd.
  unfold get_task. now rewrite (In_select_by_id db r Hnd Hin).
Qed.

(** A PROCESSING task whose time is up is marked FAILED with the timeout
    error, and the retry pass of the same sweep sees it: with retries left it
    is PENDING again when the sweep ends, its retry count one higher and the
    error cleared, while [completed_at] keeps the time of the sweep; without
    retries left it stays FAILED with an error set. *)
Theorem sweep_timed_out_task (now started : Z) (db : table) (r : Task) :
  NoDup (map id db) -> In r db ->
  status r = PROCESSING ->
  started_at r = Some started ->
  (timeout_seconds r * 1000000 < now - started)%Z ->
  exists r',
    get_task (id r) (monitor_sweep now db) = Some r'
    /\ completed_at r' = Some now
    /\ ((retry_count r < max_retries r)%Z ->
        status r' = PENDING
        /\ retry_count r' = (retry_count r + 1)%Z
        /\ error r' = None
        /\ started_at r' = None
        /\ assigned_worker r' = None)
    /\ ((max_retries r <= retry_count r)%Z ->
        status r' = FAILED
        /\ retry_count r' = retry_count r
        /\ error r' <> None
        /\ started_at r' = Some started).
Proof.
  intros Hnd Hin Hst Hstart Hlate.
  exists (sweep_row now r). split; [now apply get_task_sweep_row|].
  unfold sweep_row, timeout_row, timed_out. rewrite Hst, Hstart.
  apply Z.ltb_lt in Hlate. rewrite Hlate. cbn [TaskStatus_eqb andb].
  unfold retry_row.
  cbn [timeout_updates fold_left apply_update set_status set_error set_completed_at
       status retry_count max_retries TaskStatus_eqb andb].
  destruct (retry_count r <? max_retries r)%Z eqn:E.
  - apply Z.ltb_lt in E. cbn. split; [reflexivity|]. split; [|lia].
    intros _. repeat split.
  - apply Z.ltb_ge in E. cbn. split; [reflexivity|]. split; [lia|].
    intros _. repeat split; [discriminate | exact Hstart].
Qed.

(** A task that started at 0 with a timeout of one second, swept at 2 s. *)
Definition stuck_task : Task :=
  mkTask "5e5e" "slow fetch" "scrape_rss" 5 [] "scraper" PROCESSING 0
    (Some 0%Z) (Some 0%Z) None (Some "Scraper-01") None None 0 3 1 (Some 0%float) [].

Lemma sweep_timed_out_task_witness :
  exists r',
    get_task "5e5e" (monitor_sweep 2000000 [stuck_task]) = Some r'
    /\ completed_at r' = Some 2000000%Z
    /\ ((0 < 3)%Z ->
        status r' = PENDING
        /\ retry_count r' = 1%Z
        /\ error r' = None
        /\ started_at r' = None
        /\ assigned_worker r' = None)
    /\ ((3 <= 0)%Z ->
        status r' = FAILED
        /\ retry_count r' = 0%Z
        /\ error r' <> None
        /\ started_at r' = Some 0%Z).
Proof.
  refine (sweep_timed_out_task 2000000 0 [stuck_task] stuck_task _
            (or_introl eq_refl) eq_refl eq_refl eq_refl).
  repeat constructor. intros [].
Defined.

(** The sweep leaves a task as it is unless it is PROCESSING past its
    timeout or FAILED with retries left: PENDING, ASSIGNED, COMPLETED and
    CANCELLED tasks, PROCESSING tasks within their time or without
    [started_at], and FAILED tasks out of retries are not touched.  In
    particular a task that was claimed but never started stays ASSIGNED. *)
Theorem sweep_leaves_alone (now : Z) (db : table) (r : Task) :
  NoDup (map id db) -> In r db ->
  (status r = PROCESSING -> timed_out now r = false) ->
  (status r = FAILED -> (max_retries r <= retry_count r)%Z) ->
  get_task (id r) (monitor_sweep now db) = Some r.
Proof.
  intros Hnd Hin Hproc Hfail.
  rewrite (get_task_sweep_row now db r Hnd Hin). f_equal.
  unfold sweep_row, timeout_row, retry_row.
  destruct (status r) eqn:Hst; cbn [TaskStatus_eqb andb]; rewrite ?Hst;
    cbn [TaskStatus_eqb andb]; try reflexivity.
  - rewrite (Hproc eq_refl), Hst. reflexivity.
  - specialize (Hfail eq_refl). apply Z.ltb_ge in Hfail. now rewrite Hfail.
Qed.

(** A task claimed at 10 and never started. *)
Definition claimed_task : Task :=
  mkTask "a551" "waiting" "scrape_rss" 5 [] "scraper" ASSIGNED 0
    (Some 10%Z) None None None None None 0 3 1 (Some 0%float) [].

Lemma sweep_leaves_alone_witness :
  get_task "a551" (monitor_sweep 999000000000 [stuck_task; claimed_task])
  = Some claimed_task.
Proof.
  refine (sweep_leaves_alone 999000000000 [stuck_task; claimed_task] claimed_task
            _ (or_intror (or_introl eq_refl)) _ _).
  - repeat constructor; cbn; intuition discriminate.
  - discriminate.
  - discriminate.
Defined.

Lemma sweep_row_twice (now : Z) (r : Task) :
  sweep_row now (sweep_row now r) = sweep_row now r.
Proof.
  destruct r as [i d tt p kw wt st c aa sa ca aw re er rc mr ts ce deps].
  unfold sweep_row, timeout_row, retry_row, timed_out.
  destruct st; cbn; try reflexivity.
  - destruct sa as [started|]; cbn; [|reflexivity].
    destruct (ts * 1000000 <? now - started)%Z eqn:Ht; cbn.
    + destruct (rc <? mr)%Z eqn:E; cbn; rewrite ?E; reflexivity.
    + rewrite Ht. reflexivity.
  - destruct (rc <? mr)%Z eqn:E; cbn; rewrite ?E; reflexivity.
Qed.

(** A second sweep at the same time changes nothing the first one left. *)
Theorem monitor_sweep_twice (now : Z) (db : table) :
  NoDup (map id db) ->
  monitor_sweep now (monitor_sweep now db) = monitor_sweep now db.
Proof.
  intros Hnd.
  rewrite (monitor_sweep_rows now db Hnd).
  rewrite monitor_sweep_rows.
  - rewrite map_map. apply map_ext. intros r. apply sweep_row_twice.
  - rewrite map_map. erewrite map_ext; [exact Hnd|].
    intros r. cbn. now rewrite id_retry_row, id_timeout_row.
Qed.

Lemma monitor_sweep_twice_witness :
  monitor_sweep 2000000 (monitor_sweep 2000000 [stuck_task; claimed_task])
  = monitor_sweep 2000000 [stuck_task; claimed_task].
Proof.
  refine (monitor_sweep_twice 2000000 [stuck_task; claimed_task] _).
  repeat constructor; cbn; intuition discriminate.
Defined.

End SweepFacts.

(** ** The worker: lifecycle, the poll loop of an inactive or over-budget
    worker, and failures caught inside the concrete executors *)

Section WorkerFacts.

Import SQLiteQueueBackend.

(** [resume] acts on a paused worker only, [pause] and [stop] on any: a
    stopped worker is not revived by [resume], but [pause] puts it back under
    the loop condition and a following [resume] makes it active.  None of the
    three touches the counters. *)
Theorem worker_lifecycle (w : MiniWorker.t) :
  MiniWorker.status (MiniWorker.resume (MiniWorker.stop w)) = "stopped"
  /\ MiniWorker.status (MiniWorker.resume (MiniWorker.pause w)) = "active"
  /\ MiniWorker.pause (MiniWorker.pause w) = MiniWorker.pause w
  /\ MiniWorker.stop (MiniWorker.stop w) = MiniWorker.stop w
  /\ MiniWorker.loop_condition (MiniWorker.stop w) = false
  /\ MiniWorker.loop_condition (MiniWorker.pause (MiniWorker.stop w)) = true
  /\ MiniWorker.status
       (MiniWorker.resume (MiniWorker.pause (MiniWorker.stop w))) = "active"
  /\ (MiniWorker.status w <> "paused" -> MiniWorker.resume w = w)
  /\ (forall f, In f [MiniWorker.stop; MiniWorker.pause; MiniWorker.resume] ->
        (MiniWorker.tasks_completed (f w), MiniWorker.error_count (f w),
         MiniWorker.current_task (f w), MiniWorker.worker_id (f w))
        = (MiniWorker.tasks_completed w, MiniWorker.error_count w,
           MiniWorker.current_task w, MiniWorker.worker_id w)).
Proof.
  repeat split.
  - intros Hne. unfold MiniWorker.resume.
    apply String.eqb_neq in Hne. now rewrite Hne.
  - intros f [<-|[<-|[<-|[]]]]; try reflexivity.
    unfold MiniWorker.resume. now destruct (MiniWorker.status w =? "paused").
Qed.

Definition summarizer_1 : MiniWorker.t :=
  MiniWorker.set_worker_status "active"
    (MiniWorker.init "Summarizer-01" "summarizer" 0).

Lemma work_iteration_paused (execute_task : MiniWorker.Executor) (now : Z)
  (tracker : CostTracker.t) (w : MiniWorker.t) (db : table) :
  MiniWorker.status w = "paused" ->
  MiniWorker.work_iteration execute_task now tracker w db = (w, db).
Proof.
  intros H. unfold MiniWorker.work_iteration. now rewrite H.
Qed.

(** A worker that is not active never touches the queue, however many passes
    its loop is given: a paused one idles, any other one has left the loop. *)
Theorem inactive_worker_leaves_queue (n : nat) (execute_task : MiniWorker.Executor)
  (now : Z) (tracker : CostTracker.t) (w : MiniWorker.t) (db : table) :
  MiniWorker.status w <> "active" ->
  MiniWorker._work_loop n execute_task now tracker w db = (w, db).
Proof.
  intros Hna. induction n as [|n IH]; [reflexivity|].
  cbn [MiniWorker._work_loop]. unfold MiniWorker.loop_condition.
  apply String.eqb_neq in Hna. rewrite Hna. cbn [orb].
  destruct (MiniWorker.status w =? "paused") eqn:E; [|reflexivity].
  apply String.eqb_eq in E.
  rewrite (work_iteration_paused execute_task now tracker w db E). exact IH.
Qed.

Lemma inactive_worker_leaves_queue_witness :
  MiniWorker._work_loop 7 (fun _ db => (MiniWorker.Raised "never run", db)) 300
    (CostTracker.init 20.0) (MiniWorker.pause summarizer_1) [claimed_task]
  = (MiniWorker.pause summarizer_1, [claimed_task]).
Proof.
  refine (inactive_worker_leaves_queue 7 _ 300 (CostTracker.init 20.0)
            (MiniWorker.pause summarizer_1) [claimed_task] _).
  discriminate.
Defined.

(** An active worker whose recorded spend is not below its daily cap pauses
    itself on its next pass without claiming a task, and stays so. *)
Theorem over_budget_worker_pauses (n : nat) (execute_task : MiniWorker.Executor)
  (now : Z) (tracker : CostTracker.t) (w : MiniWorker.t) (db : table) :
  MiniWorker.status w = "active" ->
  (CostTracker.daily_limit_gbp tracker =? 0)%float = false ->
  (CostTracker.get_or_0 (MiniWorker.worker_id w) (CostTracker.worker_costs tracker)
     <? MiniWorker.max_daily_cost w)%float = false ->
  MiniWorker._work_loop (S n) execute_task now tracker w db
  = (MiniWorker.pause w, db).
Proof.
  intros Hactive Hlimit Hcost.
  cbn [MiniWorker._work_loop]. unfold MiniWorker.loop_condition.
  rewrite Hactive. cbn [String.eqb orb].
  change ("active" =? "active") with true. cbn [orb].
  unfold MiniWorker.work_iteration, MiniWorker._check_budget,
    CostTracker.get_daily_summary.
  rewrite Hactive, Hlimit. change ("active" =? "paused") with false.
  cbn [CostTracker.costs_by_worker]. rewrite Hcost.
  apply inactive_worker_leaves_queue. discriminate.
Qed.

(** An executor that does nothing. *)
Definition idle_runner : MiniWorker.Executor := fun _ db => (MiniWorker.Normal, db).

(** The ledger after Summarizer-01 has spent 6.0. *)
Definition ledger_after_six : CostTracker.t :=
  snd (CostTracker.track_custom_cost 1 "anthropic" "api_call" 6.0 "Summarizer-01" 1
         (CostTracker.init 20.0)).

Lemma over_budget_worker_pauses_witness :
  MiniWorker._work_loop 4 idle_runner 300 ledger_after_six summarizer_1 [claimed_task]
  = (MiniWorker.pause summarizer_1, [claimed_task]).
Proof.
  exact (over_budget_worker_pauses 3 idle_runner 300 ledger_after_six summarizer_1
           [claimed_task] eq_refl eq_refl eq_refl).
Defined.

(** A handler that fails inside the executor the concrete workers share: the
    executor records FAILED with the error and returns normally, so the
    worker counts the task as completed and its error count does not move. *)
Theorem handler_failure_counts_as_completed (run : Task -> string + string)
  (now : Z) (task row : Task) (e : string) (w : MiniWorker.t) (db : table) :
  get_task (id task) db = Some row ->
  run (fold_left apply_update (MiniWorker.processing_updates now w) row) = inr e ->
  option_map (fun r => (status r, error r, result r))
    (get_task (id task)
       (snd (MiniWorker._process_task (MiniWorker.concrete_execute_task run now)
               now task w db)))
  = Some (FAILED, Some e, result row)
  /\ MiniWorker.tasks_completed
       (fst (MiniWorker._process_task (MiniWorker.concrete_execute_task run now)
               now task w db))
     = (MiniWorker.tasks_completed w + 1)%Z
  /\ MiniWorker.error_count
       (fst (MiniWorker._process_task (MiniWorker.concrete_execute_task run now)
               now task w db))
     = MiniWorker.error_count w.
Proof.
  intros Hget Hrun.
  unfold MiniWorker._process_task, MiniWorker.concrete_execute_task,
    TaskQueue.update_task_status.
  rewrite get_task_update_task by (cbn; discriminate).
  rewrite Hget.
  change (filter written (MiniWorker.processing_updates now w))
    with (MiniWorker.processing_updates now w).
  cbn [option_map]. rewrite Hrun. cbn [fst snd].
  rewrite !get_task_update_task by (cbn; discriminate).
  rewrite Hget. repeat split.
Qed.

Lemma handler_failure_counts_as_completed_witness :
  option_map (fun r => (status r, error r, result r))
    (get_task "a551"
       (snd (MiniWorker._process_task
               (MiniWorker.concrete_execute_task (fun _ => inr "HTTP 503") 300)
               300 claimed_task summarizer_1 [claimed_task])))
  = Some (FAILED, Some "HTTP 503", None)
  /\ MiniWorker.tasks_completed
       (fst (MiniWorker._process_task
               (MiniWorker.concrete_execute_task (fun _ => inr "HTTP 503") 300)
               300 claimed_task summarizer_1 [claimed_task]))
     = 1%Z
  /\ MiniWorker.error_count
       (fst (MiniWorker._process_task
               (MiniWorker.concrete_execute_task (fun _ => inr "HTTP 503") 300)
               300 claimed_task summarizer_1 [claimed_task]))
     = 0%Z.
Proof.
  exact (handler_failure_counts_as_completed (fun _ => inr "HTTP 503") 300
           claimed_task claimed_task "HTTP 503" summarizer_1 [claimed_task] eq_refl eq_refl).
Defined.

End WorkerFacts.

(** ** The cost ledger: when it enters emergency, and what it writes then *)

Section LedgerFacts.

Import CostTracker.

Local Open Scope float_scope.

(** How many times the tracker has written the EMERGENCY_SHUTDOWN file. *)
Definition emergency_files (tr : CostTracker.t) : nat :=
  count_occ string_dec (fs tr) "EMERGENCY_SHUTDOWN"%string.

(** Recording a sequence of events, each at its own time. *)
Definition record_all (events : list (Z * CostEvent)) (tr : CostTracker.t)
  : CostTracker.t :=
  fold_left (fun acc e => _record_cost_event (fst e) (snd e) acc) events tr.

Definition is_emergency (s : AlertSeverity) : bool :=
  match s with
  | EMERGENCY => true
  | _ => false
  end.

Definition newly (flag hit : bool) : nat := if negb flag && hit then 1%nat else 0%nat.

Lemma handle_cost_alert_emergency (a : CostAlert) (tr : CostTracker.t) :
  emergency_shutdown (_handle_cost_alert a tr)
  = emergency_shutdown tr || is_emergency (severity a)
  /\ emergency_files (_handle_cost_alert a tr)
     = (emergency_files tr
        + newly (emergency_shutdown tr) (is_emergency (severity a)))%nat.
Proof.
  unfold _handle_cost_alert, _emergency_shutdown, emergency_files, newly.
  destruct (severity a); cbn [is_emergency];
    destruct (emergency_shutdown tr) eqn:E;
    cbn [_save_alert _notify_project_manager _pause_non_essential_workers wrote
         fs emergency_shutdown negb andb orb];
    rewrite ?E, ?count_occ_app; cbn; split; auto with arith; lia.
Qed.

Lemma worker_severity_not_emergency (c : float) (s : AlertSeverity) :
  worker_severity c = Some s -> is_emergency s = false.
Proof.
  unfold worker_severity.
  destruct (worker_limit * 0.8 <? c); [|discriminate].
  destruct (c <? worker_limit); intros [= <-]; reflexivity.
Qed.

(** The daily check asks for an emergency exactly when the total is past the
    limit and past 70% of it. *)
Definition past_limit (limit total : float) : bool :=
  (limit * 0.7 <? total) && (limit <? total).

Lemma daily_severity_emergency (limit total : float) :
  match daily_severity limit total with
  | Some s => is_emergency s
  | None => false
  end = past_limit limit total.
Proof.
  unfold daily_severity, past_limit.
  destruct (limit * 0.7 <? total); [|reflexivity].
  destruct (limit <? total); [reflexivity|].
  now destruct (limit * 0.9 <? total).
Qed.

Lemma check_cost_guardrails_emergency (now : Z) (event : CostEvent)
  (tr : CostTracker.t) :
  emergency_shutdown (_check_cost_guardrails now event tr)
  = emergency_shutdown tr
    || past_limit (daily_limit_gbp tr) (sum_values (daily_costs tr))
  /\ emergency_files (_check_cost_guardrails now event tr)
     = (emergency_files tr
        + newly (emergency_shutdown tr)
            (past_limit (daily_limit_gbp tr) (sum_values (daily_costs tr))))%nat.
Proof.
  rewrite <- daily_severity_emergency.
  unfold _check_cost_guardrails.
  destruct (worker_severity _) as [ws|] eqn:Hws.
  - apply worker_severity_not_emergency in Hws.
    match goal with
    | |- context [_handle_cost_alert ?a tr] =>
        destruct (handle_cost_alert_costs a tr) as (Hl & _ & _);
        destruct (handle_cost_alert_emergency a tr) as (Hf & Hn);
        cbn [severity] in Hf, Hn; rewrite Hws, orb_false_r in Hf;
        unfold newly in Hn; rewrite Hws, andb_false_r, Nat.add_0_r in Hn;
        rewrite Hl
    end.
    destruct (daily_severity _ _) as [ds|].
    + match goal with
      | |- context [_handle_cost_alert ?b (_handle_cost_alert ?a tr)] =>
          destruct (handle_cost_alert_emergency b (_handle_cost_alert a tr))
            as (Hf' & Hn')
      end.
      cbn [severity] in Hf', Hn'. rewrite Hf', Hn', Hf, Hn. auto.
    + rewrite Hf, Hn, orb_false_r. unfold newly. rewrite andb_false_r. auto.
  - destruct (daily_severity _ _) as [ds|].
    + match goal with
      | |- context [_handle_cost_alert ?b tr] =>
          destruct (handle_cost_alert_emergency b tr) as (Hf' & Hn')
      end.
      cbn [severity] in Hf', Hn'. auto.
    + rewrite orb_false_r. unfold newly. rewrite andb_false_r. auto.
Qed.

Lemma record_cost_event_emergency (now : Z) (event : CostEvent)
  (tr : CostTracker.t) :
  emergency_shutdown (_record_cost_event now event tr)
  = emergency_shutdown tr
    || past_limit (daily_limit_gbp tr)
         (sum_values (add_cost (service event) (cost_gbp event) (daily_costs tr)))
  /\ emergency_files (_record_cost_event now event tr)
     = (emergency_files tr
        + newly (emergency_shutdown tr)
            (past_limit (daily_limit_gbp tr)
               (sum_values
                  (add_cost (service event) (cost_gbp event) (daily_costs tr)))))%nat.
Proof.
  unfold _record_cost_event.
  match goal with
  | |- context [_check_cost_guardrails now event ?x] =>
      destruct (check_cost_guardrails_emergency now event x) as (Hf & Hn)
  end.
  cbn [emergency_shutdown daily_limit_gbp daily_costs] in Hf, Hn.
  unfold emergency_files in *.
  cbn [_save_daily_costs wrote fs emergency_shutdown] in *.
  rewrite count_occ_app. cbn [count_occ].
  destruct (string_dec _ _) as [E|_]; [discriminate E|].
  rewrite Nat.add_0_r. cbn [fs] in Hn. auto.
Qed.

(** One record puts the ledger into emergency exactly when it was there
    already or the new daily total is above the limit and above 70% of it; in
    particular a total that is not above the limit never does. *)
Theorem emergency_flag_after_record (now : Z) (event : CostEvent)
  (tr : CostTracker.t) :
  emergency_shutdown (_record_cost_event now event tr)
  = emergency_shutdown tr
    || ((daily_limit_gbp tr * 0.7
           <? sum_values (daily_costs (_record_cost_event now event tr)))
        && (daily_limit_gbp tr
              <? sum_values (daily_costs (_record_cost_event now event tr))))
  /\ ((daily_limit_gbp tr
         <? sum_values (daily_costs (_record_cost_event now event tr))) = false ->
      emergency_shutdown (_record_cost_event now event tr)
      = emergency_shutdown tr).
Proof.
  destruct (record_cost_event_costs now event tr) as (_ & -> & _).
  destruct (record_cost_event_emergency now event tr) as (-> & _).
  unfold past_limit. split; [reflexivity|].
  intros ->. now rewrite andb_false_r, orb_false_r.
Qed.

Lemma record_all_invariant (events : list (Z * CostEvent)) (tr : CostTracker.t) :
  emergency_files tr = (if emergency_shutdown tr then 1 else 0)%nat ->
  emergency_files (record_all events tr)
  = (if emergency_shutdown (record_all events tr) then 1 else 0)%nat.
Proof.
  revert tr. induction events as [|[now ev] events IH]; intros tr H; [exact H|].
  cbn [record_all fold_left fst snd]. apply IH.
  destruct (record_cost_event_emergency now ev tr) as (-> & ->).
  rewrite H. unfold newly.
  destruct (emergency_shutdown tr), (past_limit _ _); reflexivity.
Qed.

(** Whatever is recorded on a fresh ledger, the EMERGENCY_SHUTDOWN file is
    written once if the ledger is in emergency and not at all otherwise. *)
Theorem emergency_file_written_once (limit : float) (events : list (Z * CostEvent)) :
  emergency_files (record_all events (init limit))
  = (if emergency_shutdown (record_all events (init limit)) then 1 else 0)%nat.
Proof.
  apply record_all_invariant. reflexivity.
Qed.

Lemma handle_cost_alert_events (a : CostAlert) (tr : CostTracker.t) :
  cost_events (_handle_cost_alert a tr) = cost_events tr.
Proof.
  unfold _handle_cost_alert, _emergency_shutdown.
  destruct (severity a); cbn; try reflexivity.
  now destruct (emergency_shutdown tr).
Qed.

Lemma record_cost_event_events (now : Z) (event : CostEvent) (tr : CostTracker.t) :
  cost_events (_record_cost_event now event tr) = (cost_events tr ++ [event])%list.
Proof.
  unfold _record_cost_event, _check_cost_guardrails.
  cbn [_save_daily_costs wrote cost_events].
  destruct (worker_severity _); destruct (daily_severity _ _);
    rewrite ?handle_cost_alert_events; reflexivity.
Qed.

(** The emergency flag latches: once set, no later record clears it or
    writes the signal file again, while every later event is still kept in
    the event list. *)
Theorem emergency_latches (events : list (Z * CostEvent)) (tr : CostTracker.t) :
  emergency_shutdown tr = true ->
  emergency_shutdown (record_all events tr) = true
  /\ emergency_files (record_all events tr) = emergency_files tr
  /\ cost_events (record_all events tr)
     = (cost_events tr ++ map snd events)%list.
Proof.
  revert tr. induction events as [|[now ev] events IH]; intros tr H.
  - cbn. now rewrite app_nil_r.
  - destruct (record_cost_event_emergency now ev tr) as (Hf & Hn).
    rewrite H in Hf, Hn. cbn [orb negb andb newly] in Hf, Hn.
    rewrite Nat.add_0_r in Hn.
    destruct (IH _ Hf) as (IH1 & IH2 & IH3).
    change (record_all ((now, ev) :: events) tr)
      with (record_all events (_record_cost_event now ev tr)).
    rewrite IH1, IH2, IH3, Hn, record_cost_event_events, <- app_assoc.
    repeat split.
Qed.

(** A ledger that went over a limit of 1.0 with one event. *)
Definition overspent_ledger : CostTracker.t :=
  snd (track_custom_cost 10 "openai_tts" "synthesis" 2.0 "Audio-01" 1 (init 1.0)).

Lemma emergency_latches_witness :
  emergency_shutdown
    (record_all [(20%Z, mkCostEvent 20 "anthropic" "api_call" 1 0.5 "Summarizer-01" None)]
       overspent_ledger) = true
  /\ emergency_files
       (record_all [(20%Z, mkCostEvent 20 "anthropic" "api_call" 1 0.5 "Summarizer-01" None)]
          overspent_ledger) = emergency_files overspent_ledger
  /\ cost_events
       (record_all [(20%Z, mkCostEvent 20 "anthropic" "api_call" 1 0.5 "Summarizer-01" None)]
          overspent_ledger)
     = (cost_events overspent_ledger
          ++ map snd [(20%Z, mkCostEvent 20 "anthropic" "api_call" 1 0.5 "Summarizer-01" None)])%list.
Proof.
  exact (emergency_latches
           [(20%Z, mkCostEvent 20 "anthropic" "api_call" 1 0.5 "Summarizer-01" None)]
           overspent_ledger eq_refl).
Defined.

End LedgerFacts.

(** ** [core/system_monitor.py]: the pause signal and the cost monitoring loop *)

Module MonitorLoops.

Import SystemMonitor.

Local Open Scope float_scope.

(** [essential_types] of [_pause_non_essential_workers]. *)
Definition essential_types : list string := ["scraper"; "project_manager"]%string.

(** [worker.worker_type.value in essential_types]. *)
Definition essential (w : MiniWorker.t) : bool :=
  existsb (String.eqb (MiniWorker.worker_type w)) essential_types.

(** [_pause_non_essential_workers]. *)
Definition _pause_non_essential_workers (m : t) : t :=
  mkMonitor (cost_tracker m) (task_queue_running m)
    (map (fun kw =>
            (fst kw,
             if negb (essential (snd kw)) then MiniWorker.pause (snd kw)
             else snd kw))
       (workers m))
    (monitoring_active m) (alerts m) (emergency_shutdown_active m)
    (shutdown_reason m) (stop_calls m) (shutdown_file m).

(** The severity chosen by the utilization check of [_cost_monitoring_loop],
    if it raises an alert. *)
Definition cost_severity (utilization_percent : float) : option string :=
  if 70 <? utilization_percent
  then
    let severity0 := "warning"%string in
    let severity1 :=
      if 90 <? utilization_percent then "critical"%string else severity0 in
    let severity2 :=
      if 100 <? utilization_percent then "emergency"%string else severity1 in
    Some severity2
  else None.

Section Loop.

(** The rendering [f"{x:.1f}"] of a float. *)
Variable format_1f : float -> string.

(** One pass of the body of [_cost_monitoring_loop] at time [now].  When
    [get_daily_summary] raises, the [except] of the loop logs it and nothing
    else happens.  The call of [_trigger_emergency_shutdown] is the last
    statement of the [try]: an exception that leaves it is logged by the same
    [except], and the monitor is as the call left it. *)
Definition cost_monitoring_iteration (now : Z) (m : t) : t :=
  match CostTracker.get_daily_summary (cost_tracker m) with
  | None => m
  | Some summary =>
      let m1 :=
        match cost_severity (CostTracker.utilization_percent summary) with
        | Some severity =>
            _create_alert now severity "cost"
              ("Daily cost utilization at "
                 ++ format_1f (CostTracker.utilization_percent summary) ++ "%") m
        | None => m
        end in
      if CostTracker.summary_emergency_shutdown summary
      then snd (_trigger_emergency_shutdown now "cost_limit_exceeded" m1)
      else m1
  end.

(** [_cost_monitoring_loop]: one pass for each clock reading, as long as
    [monitoring_active] holds. *)
Fixpoint _cost_monitoring_loop (clock : list Z) (m : t) : t :=
  match clock with
  | [] => m
  | now :: later =>
      if monitoring_active m
      then _cost_monitoring_loop later (cost_monitoring_iteration now m)
      else m
  end.

End Loop.

End MonitorLoops.

Section MonitorFacts.

Import SystemMonitor MonitorLoops.

Local Open Scope float_scope.

(** A pause signal that arrives after the workers were stopped: every worker
    that is not a scraper or a project manager ends paused, which its poll
    loop accepts as a reason to go on, whereas the essential ones stay
    stopped.  The same workers stay registered. *)
Theorem pause_after_stop_revives (m : SystemMonitor.t) :
  Forall (fun kw =>
            MiniWorker.status (snd kw)
            = (if essential (snd kw) then "stopped" else "paused")%string
            /\ MiniWorker.loop_condition (snd kw) = negb (essential (snd kw)))
    (workers (_pause_non_essential_workers (stop_all_workers m)))
  /\ map fst (workers (_pause_non_essential_workers (stop_all_workers m)))
     = map fst (workers m)
  /\ map (fun kw => essential (snd kw))
       (workers (_pause_non_essential_workers (stop_all_workers m)))
     = map (fun kw => essential (snd kw)) (workers m).
Proof.
  cbn [_pause_non_essential_workers stop_all_workers workers].
  rewrite !map_map. cbn [fst snd].
  split; [|split].
  - apply Forall_forall. intros kw Hin.
    apply in_map_iff in Hin as [[k w] [<- _]]. cbn [fst snd].
    change (essential (MiniWorker.stop w)) with (essential w).
    destruct (essential w) eqn:E; cbn [negb];
      [change (essential (MiniWorker.stop w)) with (essential w)
      |change (essential (MiniWorker.pause (MiniWorker.stop w))) with (essential w)];
      rewrite E; split; reflexivity.
  - reflexivity.
  - apply map_ext. intros [k w]. cbn [fst snd].
    change (essential (MiniWorker.stop w)) with (essential w).
    now destruct (essential w) eqn:E; cbn [negb].
Qed.

Lemma stopped_after_trigger (now : Z) (reason : string) (m : SystemMonitor.t) :
  emergency_shutdown_active m = false ->
  Forall (fun kw => MiniWorker.status (snd kw) = "stopped"%string)
    (workers (snd (_trigger_emergency_shutdown now reason m)))
  /\ map fst (workers (snd (_trigger_emergency_shutdown now reason m)))
     = map fst (workers m)
  /\ shutdown_reason (snd (_trigger_emergency_shutdown now reason m)) = Some reason
  /\ emergency_shutdown_active (snd (_trigger_emergency_shutdown now reason m))
     = true
  /\ CostTracker.monitoring_active
       (cost_tracker (snd (_trigger_emergency_shutdown now reason m))) = false
  /\ task_queue_running (snd (_trigger_emergency_shutdown now reason m))
     = option_map (fun _ => false) (task_queue_running m)
  /\ monitoring_active (snd (_trigger_emergency_shutdown now reason m))
     = monitoring_active m.
Proof.
  intros H. rewrite (trigger_when_inactive now reason m H).
  destruct (CostTracker.daily_limit_gbp (cost_tracker m) =? 0)%float;
    cbn [snd after_trigger workers shutdown_reason emergency_shutdown_active
         cost_tracker task_queue_running monitoring_active
         CostTracker.stop_monitoring CostTracker._save_daily_costs
         CostTracker.wrote CostTracker.monitoring_active];
    repeat split;
    try (rewrite map_map; reflexivity);
    try (now destruct (task_queue_running m));
    (apply Forall_forall; intros kw Hin;
     apply in_map_iff in Hin as [[k w] [<- _]]; reflexivity).
Qed.

(** From the ledger to the workers: when the ledger is in emergency (and its
    limit is not zero), one pass of the cost monitoring loop of a monitor not
    yet in shutdown stops every registered worker, the task queue's monitor
    and the cost tracker's, and records the reason; the monitor's own loop
    flag stays as it was. *)
Theorem ledger_emergency_stops_workers (format_1f : float -> string) (now : Z)
  (m : SystemMonitor.t) :
  CostTracker.emergency_shutdown (cost_tracker m) = true ->
  (CostTracker.daily_limit_gbp (cost_tracker m) =? 0) = false ->
  emergency_shutdown_active m = false ->
  Forall (fun kw => MiniWorker.status (snd kw) = "stopped"%string)
    (workers (cost_monitoring_iteration format_1f now m))
  /\ map fst (workers (cost_monitoring_iteration format_1f now m))
     = map fst (workers m)
  /\ shutdown_reason (cost_monitoring_iteration format_1f now m)
     = Some "cost_limit_exceeded"%string
  /\ emergency_shutdown_active (cost_monitoring_iteration format_1f now m) = true
  /\ CostTracker.monitoring_active
       (cost_tracker (cost_monitoring_iteration format_1f now m)) = false
  /\ task_queue_running (cost_monitoring_iteration format_1f now m)
     = option_map (fun _ => false) (task_queue_running m)
  /\ monitoring_active (cost_monitoring_iteration format_1f now m)
     = monitoring_active m.
Proof.
  intros Hflag Hlimit Hm.
  unfold cost_monitoring_iteration, CostTracker.get_daily_summary.
  rewrite Hlimit. cbn [CostTracker.summary_emergency_shutdown
                       CostTracker.utilization_percent].
  rewrite Hflag.
  destruct (cost_severity _) as [sev|].
  - match goal with
    | |- context [_trigger_emergency_shutdown now ?r ?x] =>
        destruct (stopped_after_trigger now r x Hm)
          as (H1 & H2 & H3 & H4 & H5 & H6 & H7)
    end.
    repeat split; assumption.
  - destruct (stopped_after_trigger now "cost_limit_exceeded" m Hm)
      as (H1 & H2 & H3 & H4 & H5 & H6 & H7).
    repeat split; assumption.
Qed.

(** A monitor over the overspent ledger with two running workers and a
    running task queue. *)
Definition watched_system : SystemMonitor.t :=
  register_worker
    (MiniWorker.set_worker_status "active" (MiniWorker.init "Audio-01" "audio" 0))
    (register_worker
       (MiniWorker.set_worker_status "active"
          (MiniWorker.init "Scraper-01" "scraper" 0))
       (register_task_queue true (SystemMonitor.init overspent_ledger))).

Lemma ledger_emergency_stops_workers_witness :
  Forall (fun kw => MiniWorker.status (snd kw) = "stopped"%string)
    (workers (cost_monitoring_iteration (fun _ => "200.0"%string) 30 watched_system))
  /\ map fst (workers (cost_monitoring_iteration (fun _ => "200.0"%string) 30
                         watched_system))
     = ["Scraper-01"; "Audio-01"]%string
  /\ shutdown_reason (cost_monitoring_iteration (fun _ => "200.0"%string) 30
                        watched_system)
     = Some "cost_limit_exceeded"%string
  /\ emergency_shutdown_active
       (cost_monitoring_iteration (fun _ => "200.0"%string) 30 watched_system) = true
  /\ CostTracker.monitoring_active
       (cost_tracker (cost_monitoring_iteration (fun _ => "200.0"%string) 30
                        watched_system)) = false
  /\ task_queue_running
       (cost_monitoring_iteration (fun _ => "200.0"%string) 30 watched_system)
     = Some false
  /\ monitoring_active
       (cost_monitoring_iteration (fun _ => "200.0"%string) 30 watched_system)
     = false.
Proof.
  exact (ledger_emergency_stops_workers (fun _ => "200.0"%string) 30 watched_system
           eq_refl eq_refl eq_refl).
Defined.

(** With a daily limit of zero the summary cannot be computed, so the cost
    monitoring loop never does anything, however long it runs and whatever
    the ledger says: no alert, no shutdown, no worker stopped. *)
Theorem zero_limit_blinds_cost_monitor (format_1f : float -> string)
  (clock : list Z) (m : SystemMonitor.t) :
  (CostTracker.daily_limit_gbp (cost_tracker m) =? 0) = true ->
  _cost_monitoring_loop format_1f clock m = m.
Proof.
  intros Hlimit. induction clock as [|now later IH]; [reflexivity|].
  cbn [_cost_monitoring_loop].
  destruct (monitoring_active m); [|reflexivity].
  unfold cost_monitoring_iteration, CostTracker.get_daily_summary.
  rewrite Hlimit. exact IH.
Qed.

(** A ledger with a limit of zero, in emergency after its first event. *)
Definition zero_limit_ledger : CostTracker.t :=
  snd (CostTracker.track_custom_cost 10 "openai_tts" "synthesis" 2.0 "Audio-01" 1
         (CostTracker.init 0)).

Definition blind_system : SystemMonitor.t :=
  mkMonitor zero_limit_ledger None
    [("Audio-01"%string,
      MiniWorker.set_worker_status "active" (MiniWorker.init "Audio-01" "audio" 0))]
    true [] false None [] [].

Lemma zero_limit_blinds_cost_monitor_witness :
  CostTracker.emergency_shutdown (cost_tracker blind_system) = true
  /\ _cost_monitoring_loop (fun _ => "inf"%string) [60; 120; 180]%Z blind_system
     = blind_system.
Proof.
  split; [reflexivity|].
  exact (zero_limit_blinds_cost_monitor (fun _ => "inf"%string) [60; 120; 180]%Z
           blind_system eq_refl).
Defined.

End MonitorFacts.

(** ** The Redis backend: what a claim and a second [add_task] do to the store *)

Section RedisFacts.

Import RedisQueueBackend.

Lemma assoc_get_set_same {A : Type} (k : string) (v : A) (l : list (string * A)) :
  assoc_get k (assoc_set k v l) = Some v.
Proof.
  induction l as [|[k' v'] l IH]; cbn.
  - now rewrite String.eqb_refl.
  - destruct (k' =? k) eqn:E; cbn.
    + now rewrite String.eqb_refl.
    + now rewrite E.
Qed.

Lemma assoc_get_set_other {A : Type} (k k' : string) (v : A)
  (l : list (string * A)) :
  k <> k' -> assoc_get k' (assoc_set k v l) = assoc_get k' l.
Proof.
  intros Hne. induction l as [|[k0 v0] l IH]; cbn.
  - apply String.eqb_neq in Hne. now rewrite Hne.
  - destruct (k0 =? k) eqn:E; cbn.
    + apply String.eqb_eq in E. subst k0.
      apply String.eqb_neq in Hne. now rewrite Hne.
    + destruct (k0 =? k'); [reflexivity | exact IH].
Qed.

Lemma assoc_set_length_present {A : Type} (k : string) (v v0 : A)
  (l : list (string * A)) :
  assoc_get k l = Some v0 ->
  List.length (assoc_set k v l) = List.length l.
Proof.
  induction l as [|[k' v'] l IH]; cbn; [discriminate|].
  destruct (k' =? k); cbn; [reflexivity|]. intros H. now rewrite IH.
Qed.

Lemma zset_at_set_same (key : string) (z : zset) (h : list (string * Task))
  (zs : list (string * zset)) :
  zset_at key (mkStore h (assoc_set key z zs)) = z.
Proof.
  unfold zset_at. cbn [zsets]. now rewrite assoc_get_set_same.
Qed.

Lemma zset_at_set_other (key key' : string) (z : zset) (h h' : list (string * Task))
  (zs : list (string * zset)) :
  key <> key' ->
  zset_at key' (mkStore h (assoc_set key z zs)) = zset_at key' (mkStore h' zs).
Proof.
  intros Hne. unfold zset_at. cbn [zsets]. now rewrite assoc_get_set_other.
Qed.

Lemma highest_In (z : zset) (e : string * Z) : highest z = Some e -> In e z.
Proof.
  revert e. induction z as [|a z IH]; cbn; [discriminate|].
  intros e. destruct (highest z) as [m|].
  - destruct (ranks_above a m); intros [= <-]; [now left | right; now apply IH].
  - intros [= <-]. now left.
Qed.

Lemma highest_nonempty (z : zset) : z <> [] -> exists e, highest z = Some e.
Proof.
  destruct z as [|a z]; [congruence|]. intros _. cbn.
  destruct (highest z) as [m|]; [destruct (ranks_above a m)|]; eauto.
Qed.

Lemma assoc_get_removed (member : string) (z : zset) :
  assoc_get member (filter (fun e => negb (fst e =? member)) z) = None.
Proof.
  induction z as [|[k v] z IH]; cbn; [reflexivity|].
  destruct (k =? member) eqn:E; cbn; [exact IH|]. now rewrite E.
Qed.

Lemma assoc_get_kept (member other : string) (z : zset) :
  other <> member ->
  assoc_get other (filter (fun e => negb (fst e =? member)) z) = assoc_get other z.
Proof.
  intros Hne. induction z as [|[k v] z IH]; cbn; [reflexivity|].
  destruct (k =? member) eqn:E; cbn.
  - apply String.eqb_eq in E. subst k.
    assert (H : (member =? other) = false)
      by (apply String.eqb_neq; congruence).
    now rewrite H.
  - destruct (k =? other); [reflexivity | exact IH].
Qed.

Lemma pending_is_not_processing (w : string) : pending_key w <> processing_key w.
Proof.
  unfold pending_key, processing_key. cbn. intros H.
  injection H as H. induction w as [|c w IH]; cbn in H.
  - discriminate H.
  - injection H as H. now apply IH.
Qed.

(** A claim on Redis, for a worker type whose pending set is not empty: the
    call returns the stored hash of a member of that set, takes the member
    out of the pending set and puts it into the processing set with the time
    of the claim as score.  It leaves every task hash as it was: the claimed
    task is not marked assigned, and the other pending members stay. *)
Theorem redis_claim_moves_member (w : string) (now : Z) (s : store) :
  w <> "" ->
  zset_at (pending_key w) s <> [] ->
  exists task_id score,
    In (task_id, score) (zset_at (pending_key w) s)
    /\ fst (get_next_task (Some w) now s) = hgetall (task_key task_id) s
    /\ hashes (snd (get_next_task (Some w) now s)) = hashes s
    /\ assoc_get task_id
         (zset_at (pending_key w) (snd (get_next_task (Some w) now s))) = None
    /\ assoc_get task_id
         (zset_at (processing_key w) (snd (get_next_task (Some w) now s)))
       = Some now
    /\ (forall other, other <> task_id ->
          assoc_get other
            (zset_at (pending_key w) (snd (get_next_task (Some w) now s)))
          = assoc_get other (zset_at (pending_key w) s)).
Proof.
  intros Hw Hne.
  destruct (highest_nonempty _ Hne) as [[task_id score] Hh].
  exists task_id, score.
  split; [now apply highest_In|].
  unfold get_next_task, truthy.
  apply String.eqb_neq in Hw. rewrite Hw. cbn [negb].
  unfold zrevrange_0_0. rewrite Hh. cbn [fst snd].
  unfold zadd, zrem, hgetall. cbn [hashes zsets].
  assert (Hk := pending_is_not_processing w).
  repeat split.
  - rewrite (zset_at_set_other (processing_key w) (pending_key w) _ _ (hashes s))
      by congruence.
    rewrite zset_at_set_same. apply assoc_get_removed.
  - rewrite zset_at_set_same. apply assoc_get_set_same.
  - intros other Hother.
    rewrite (zset_at_set_other (processing_key w) (pending_key w) _ _ (hashes s))
      by congruence.
    rewrite zset_at_set_same. now apply assoc_get_kept.
Qed.

(** Two pending audio tasks in a Redis store. *)
Definition jingle : Task :=
  mkTask "0a0a" "jingle" "generate_audio" 5 [] "audio" PENDING 10
    None None None None None None 0 3 3600 (Some 0%float) [].

Definition episode : Task :=
  mkTask "0b0b" "episode" "create_podcast_episode" 8 [] "audio" PENDING 20
    None None None None None None 0 3 3600 (Some 0%float) [].

Definition jingle_again : Task :=
  mkTask "0a0a" "jingle, louder" "generate_audio" 9 [] "audio" PENDING 30
    None None None None None None 0 3 3600 (Some 0%float) [].

Definition audio_store : store :=
  snd (add_task episode (snd (add_task jingle (mkStore [] [])))).

Lemma redis_claim_moves_member_witness :
  exists task_id score,
    In (task_id, score) (zset_at (pending_key "audio") audio_store)
    /\ fst (get_next_task (Some "audio") 99 audio_store)
       = hgetall (task_key task_id) audio_store
    /\ hashes (snd (get_next_task (Some "audio") 99 audio_store))
       = hashes audio_store
    /\ assoc_get task_id
         (zset_at (pending_key "audio")
            (snd (get_next_task (Some "audio") 99 audio_store))) = None
    /\ assoc_get task_id
         (zset_at (processing_key "audio")
            (snd (get_next_task (Some "audio") 99 audio_store)))
       = Some 99%Z
    /\ (forall other, other <> task_id ->
          assoc_get other
            (zset_at (pending_key "audio")
               (snd (get_next_task (Some "audio") 99 audio_store)))
          = assoc_get other (zset_at (pending_key "audio") audio_store)).
Proof.
  refine (redis_claim_moves_member "audio" 99 audio_store _ _);
    vm_compute; discriminate.
Defined.

(** A task that [add_task] can write to Redis: its parameters can be written
    as JSON, its integer fields have at most 4300 digits, and its priority is
    an integer that a score holds exactly. *)
Definition short_integer (z : Z) : bool :=
  (Z.abs z <? 10 ^ int_max_str_digits)%Z.

Definition encodable (t : Task) : bool :=
  match json_dumps_error (parameters t) with
  | Some _ => false
  | None =>
      short_integer (retry_count t) && short_integer (max_retries t)
      && short_integer (timeout_seconds t)
      && (Z.abs (priority t) <=? 2 ^ 53)%Z
  end.

(** On Redis a second [add_task] under an id already stored does not fail:
    it replaces the stored task, and when the worker type is the same the
    pending set keeps a single entry for the id, now with the new priority. *)
Theorem redis_resubmit_replaces (first second : Task) (s : store) :
  encodable first = true ->
  encodable second = true ->
  id second = id first ->
  hgetall (task_key (id first)) (snd (add_task second (snd (add_task first s))))
  = Some second
  /\ (worker_type second = worker_type first ->
      assoc_get (id first)
        (zset_at (pending_key (worker_type first))
           (snd (add_task second (snd (add_task first s)))))
      = Some (priority second)
      /\ List.length
           (zset_at (pending_key (worker_type first))
              (snd (add_task second (snd (add_task first s)))))
         = List.length
             (zset_at (pending_key (worker_type first)) (snd (add_task first s)))).
Proof.
  intros _ _ Hid. unfold add_task. cbn [snd]. rewrite Hid.
  unfold zadd, hset, hgetall. cbn [hashes zsets].
  split; [apply assoc_get_set_same|].
  intros Hw. rewrite Hw. rewrite !zset_at_set_same. split.
  - apply assoc_get_set_same.
  - eapply assoc_set_length_present. apply assoc_get_set_same.
Qed.

Lemma redis_resubmit_replaces_witness :
  hgetall (task_key "0a0a")
    (snd (add_task jingle_again (snd (add_task jingle audio_store))))
  = Some jingle_again
  /\ (worker_type jingle_again = worker_type jingle ->
      assoc_get "0a0a"
        (zset_at (pending_key "audio")
           (snd (add_task jingle_again (snd (add_task jingle audio_store)))))
      = Some 9%Z
      /\ List.length
           (zset_at (pending_key "audio")
              (snd (add_task jingle_again (snd (add_task jingle audio_store)))))
         = List.length
             (zset_at (pending_key "audio") (snd (add_task jingle audio_store)))).
Proof.
  exact (redis_resubmit_replaces jingle jingle_again audio_store
           eq_refl eq_refl eq_refl).
Defined.

(** On this backend the status of a task can be asked only once the task has
    a [completed_at]: for a task that is still open the call raises. *)
Example redis_status_of_an_open_task :
  RedisTaskQueue.get_task_status "0a0a" audio_store = inl AttributeError
  /\ RedisTaskQueue.get_task_status "none" audio_store = inr None
  /\ match RedisTaskQueue.get_task_status "0a1b2c3d" failed_store with
     | inr (Some info) =>
         (RedisTaskQueue.info_status info, RedisTaskQueue.info_progress info,
          RedisTaskQueue.info_result info)
         = ("failed", 1.0%float, "None")
     | _ => False
     end.
Proof. repeat split. Qed.

End RedisFacts.

(** ** [core/cost_tracker.py]: [get_cost_breakdown] *)

Module CostBreakdown.

Import CostTracker.

Local Open Scope float_scope.

(** An entry of [service_costs]. *)
Record ServiceTotals : Set := mkServiceTotals {
  total_cost : float;
  event_count : Z;
  total_units : Z
}.

(** [{"total_cost": 0, "event_count": 0, "total_units": 0}]. *)
Definition empty_totals : ServiceTotals := mkServiceTotals 0 0 0.

(** The three [+=] of the grouping loop. *)
Definition add_event (v : ServiceTotals) (e : CostEvent) : ServiceTotals :=
  mkServiceTotals (total_cost v + cost_gbp e) (event_count v + 1)%Z
    (total_units v + units e)%Z.

(** One turn of the grouping loop on the dictionary [service_costs], kept in
    insertion order. *)
Fixpoint book (e : CostEvent) (d : list (string * ServiceTotals))
  : list (string * ServiceTotals) :=
  match d with
  | [] => [(service e, add_event empty_totals e)]
  | (k, v) :: rest =>
      if (k =? service e)%string then (k, add_event v e) :: rest
      else (k, v) :: book e rest
  end.

Record Breakdown : Set := mkBreakdown {
  period_hours : Z;
  total_events : Z;
  breakdown_total_cost : float;
  service_breakdown : list (string * ServiceTotals)
}.

(** The largest [datetime], in microseconds after the smallest one. *)
Definition datetime_max : Z := 315537897599999999.

(** [datetime.now() - timedelta(hours=hours)], with times counted in
    microseconds from [datetime.min]; [None] for the [OverflowError] raised
    when the hours are no [timedelta] (more than 999999999 days) or the
    difference is no [datetime]. *)
Definition cutoff_time (now hours : Z) : option Z :=
  let t := (now - hours * 3600000000)%Z in
  if (-999999999 <=? hours / 24)%Z && (hours / 24 <=? 999999999)%Z
     && (0 <=? t)%Z && (t <=? datetime_max)%Z
  then Some t
  else None.

(** [recent_events]: the events not older than the cutoff. *)
Definition recent_events (cutoff : Z) (tr : CostTracker.t) : list CostEvent :=
  filter (fun e => (cutoff <=? timestamp e)%Z) (cost_events tr).

(** [get_cost_breakdown(hours)] at time [now].  [sum] is the start value 0
    plus the costs from left to right. *)
Definition get_cost_breakdown (now hours : Z) (tr : CostTracker.t)
  : Error + Breakdown :=
  match cutoff_time now hours with
  | None => inl OverflowError
  | Some cutoff =>
      let recent := recent_events cutoff tr in
      inr (mkBreakdown hours (Z.of_nat (List.length recent))
             (fold_left (fun acc e => acc + cost_gbp e) recent 0)
             (fold_left (fun d e => book e d) recent []))
  end.

(** [service_costs.get(s)]. *)
Fixpoint lookup (s : string) (d : list (string * ServiceTotals))
  : option ServiceTotals :=
  match d with
  | [] => None
  | (k, v) :: rest => if (k =? s)%string then Some v else lookup s rest
  end.

End CostBreakdown.

Section BreakdownFacts.

Import CostTracker CostBreakdown.

Local Open Scope float_scope.

(** The events of a list booked on one service. *)
Definition of_service (s : string) (l : list CostEvent) : list CostEvent :=
  filter (fun e => (service e =? s)%string) l.

Lemma lookup_book_same (e : CostEvent) (d : list (string * ServiceTotals)) :
  lookup (service e) (book e d)
  = Some (add_event (match lookup (service e) d with
                     | Some v => v
                     | None => empty_totals
                     end) e).
Proof.
  induction d as [|[k v] d IH]; cbn.
  - now rewrite String.eqb_refl.
  - destruct (k =? service e)%string eqn:E; cbn; rewrite E; [reflexivity|exact IH].
Qed.

Lemma lookup_book_other (s : string) (e : CostEvent)
  (d : list (string * ServiceTotals)) :
  service e <> s -> lookup s (book e d) = lookup s d.
Proof.
  intros Hne. induction d as [|[k v] d IH]; cbn.
  - apply String.eqb_neq in Hne. now rewrite Hne.
  - destruct (k =? service e)%string eqn:E; cbn.
    + apply String.eqb_eq in E. subst k.
      apply String.eqb_neq in Hne. now rewrite Hne.
    + destruct (k =? s)%string; [reflexivity|exact IH].
Qed.

Lemma lookup_fold_book (s : string) (l : list CostEvent)
  (d : list (string * ServiceTotals)) :
  lookup s (fold_left (fun d e => book e d) l d)
  = match of_service s l with
    | [] => lookup s d
    | _ :: _ =>
        Some (fold_left add_event (of_service s l)
                (match lookup s d with
                 | Some v => v
                 | None => empty_totals
                 end))
    end.
Proof.
  revert d. induction l as [|e l IH]; intros d; [reflexivity|].
  cbn [fold_left of_service filter]. rewrite IH. fold (of_service s l).
  destruct (service e =? s)%string eqn:E.
  - apply String.eqb_eq in E. subst s. rewrite lookup_book_same.
    cbn [fold_left]. now destruct (of_service (service e) l).
  - apply String.eqb_neq in E. now rewrite lookup_book_other.
Qed.

Lemma fold_add_event (l : list CostEvent) (v : ServiceTotals) :
  fold_left add_event l v
  = mkServiceTotals
      (fold_left (fun acc e => acc + cost_gbp e) l (total_cost v))
      (event_count v + Z.of_nat (List.length l))%Z
      (fold_left (fun acc e => acc + units e)%Z l (total_units v)).
Proof.
  revert v. induction l as [|e l IH]; intros v.
  - cbn. rewrite Z.add_0_r. now destruct v.
  - cbn [fold_left List.length]. rewrite IH. cbn [add_event total_cost event_count total_units].
    f_equal. lia.
Qed.

Definition counted (d : list (string * ServiceTotals)) : Z :=
  fold_right (fun kv acc => event_count (snd kv) + acc)%Z 0%Z d.

Lemma counted_book (e : CostEvent) (d : list (string * ServiceTotals)) :
  counted (book e d) = (counted d + 1)%Z.
Proof.
  induction d as [|[k v] d IH]; cbn; [reflexivity|].
  destruct (k =? service e)%string; cbn; [lia|].
  fold (counted (book e d)). fold (counted d). lia.
Qed.

Lemma counted_fold_book (l : list CostEvent) (d : list (string * ServiceTotals)) :
  counted (fold_left (fun d e => book e d) l d)
  = (counted d + Z.of_nat (List.length l))%Z.
Proof.
  revert d. induction l as [|e l IH]; intros d.
  - cbn [fold_left List.length]. change (Z.of_nat 0) with 0%Z. lia.
  - cbn [fold_left List.length]. rewrite IH, counted_book. lia.
Qed.

Lemma keys_book (e : CostEvent) (d : list (string * ServiceTotals)) :
  NoDup (map fst d) -> NoDup (map fst (book e d)).
Proof.
  induction d as [|[k v] d IH]; cbn.
  - intros _. constructor; [intros []|constructor].
  - intros H. inversion H as [|? ? Hnin Hnd]; subst.
    destruct (k =? service e)%string eqn:E; cbn; [now constructor|].
    constructor; [|now apply IH].
    intros Hin. apply in_map_iff in Hin as [[k' v'] [Hk Hin]]. cbn in Hk. subst k'.
    assert (Hl : lookup k (book e d) <> None).
    { clear -Hin. induction (book e d) as [|[k0 v0] b IHb]; [destruct Hin|].
      cbn. destruct (k0 =? k)%string eqn:E0; [discriminate|].
      destruct Hin as [[= -> _]|Hin]; [now rewrite String.eqb_refl in E0|].
      now apply IHb. }
    apply String.eqb_neq in E.
    rewrite lookup_book_other in Hl by congruence.
    apply Hl. clear -Hnin. induction d as [|[k0 v0] d IHd]; [reflexivity|].
    cbn. destruct (k0 =? k)%string eqn:E0.
    + apply String.eqb_eq in E0. subst k0. exfalso. apply Hnin. now left.
    + apply IHd. intros Hin. apply Hnin. now right.
Qed.

Lemma keys_fold_book (l : list CostEvent) (d : list (string * ServiceTotals)) :
  NoDup (map fst d) -> NoDup (map fst (fold_left (fun d e => book e d) l d)).
Proof.
  revert d. induction l as [|e l IH]; intros d H; [exact H|].
  cbn [fold_left]. apply IH. now apply keys_book.
Qed.

(** [get_cost_breakdown] raises [OverflowError] exactly when the cutoff is no
    [datetime]; otherwise the breakdown groups the events not older than the
    cutoff by service: a service has an entry exactly when such an event was
    booked on it, the entry counts those events, adds up their units, and
    adds their costs from the oldest on; every service appears once, and the
    entries' counts add up to [total_events]. *)
Theorem cost_breakdown_groups (now hours : Z) (tr : CostTracker.t) (s : string) :
  match get_cost_breakdown now hours tr with
  | inl e => e = OverflowError /\ cutoff_time now hours = None
  | inr report =>
      exists cutoff,
        cutoff_time now hours = Some cutoff
        /\ lookup s (service_breakdown report)
           = match of_service s (recent_events cutoff tr) with
             | [] => None
             | _ :: _ =>
                 Some (mkServiceTotals
                         (fold_left (fun acc e => acc + cost_gbp e)
                            (of_service s (recent_events cutoff tr)) 0)
                         (Z.of_nat
                            (List.length (of_service s (recent_events cutoff tr))))
                         (fold_left (fun acc e => acc + units e)%Z
                            (of_service s (recent_events cutoff tr)) 0%Z))
             end
        /\ NoDup (map fst (service_breakdown report))
        /\ counted (service_breakdown report) = total_events report
  end.
Proof.
  unfold get_cost_breakdown.
  destruct (cutoff_time now hours) as [cutoff|]; [|split; reflexivity].
  exists cutoff. cbn [service_breakdown total_events].
  split; [reflexivity|]. split; [|split].
  - rewrite lookup_fold_book. cbn [lookup].
    destruct (of_service s (recent_events cutoff tr)) as [|e l] eqn:E;
      [reflexivity|].
    now rewrite fold_add_event.
  - apply keys_fold_book. constructor.
  - now rewrite counted_fold_book.
Qed.

(** A day's breakdown on 1 January 2025, and one asked for a billion hours. *)
Example breakdown_of_a_day :
  let noon := 63871329600000000%Z in
  let ledger :=
    snd (track_custom_cost noon "anthropic" "api_call" 0.5 "Summarizer-01" 1200
           (snd (track_custom_cost (noon - 90000000000) "openai_tts" "synthesis"
                   0.25 "Audio-01" 1 (init 20)))) in
  (match get_cost_breakdown noon 24 ledger with
   | inr report => Some (total_events report, map fst (service_breakdown report))
   | inl _ => None
   end = Some (1%Z, ["anthropic"%string]))
  /\ get_cost_breakdown noon 1000000000 ledger = inl OverflowError.
Proof. split; reflexivity. Qed.

End BreakdownFacts.
